(** * RFP scraper: harvesting and alerting pipeline

    A shallow embedding of the Python sources of the enterprise RFP scraper
    (models, circuit breaker, plugin manager, plugins' field derivation,
    rule-based and fallback scoring, alert throttle, scraping session) and
    the properties of its specification.

    Conventions of the embedding.
    - A Python [str] is a Rocq [string]; a character is a code point below
      256 (Latin-1), which is closed under [str.lower] and [str.strip].
    - A Python [float] is a binary64 [float] (same format, same rounding).
    - A reading of [datetime.now()] is a [datetime] record, a [timedelta]
      a number of microseconds; a reading of [time.time()] is an integer
      count of microseconds.
    - An exception is an instance of Python's [Exception] with a class name
      and a message; [except Exception] handlers therefore catch every
      exception of the model.
    - A collaborator whose code is outside the pipeline (SMTP, HTTP, the
      database file, the ML model, the wall clock) appears as an input that
      gives the outcome of each of its calls. *)

From Stdlib Require Import ZArith List String Ascii Bool Lia.
From Stdlib Require Import Floats.PrimFloat.
From stdpp Require Import base option list gmap strings.

Import ListNotations.
Set Warnings "-inexact-float".
#[local] Open Scope string_scope.
#[local] Open Scope list_scope.

(** ** Python strings *)

Module Py.

#[local] Open Scope Z_scope.

Definition code (c : ascii) : Z := Z.of_N (N_of_ascii c).

Definition between (lo hi n : Z) : bool := (lo <=? n) && (n <=? hi).

(** [str.isspace] and the regular expression class [\s] agree below 256. *)
Definition isspace (c : ascii) : bool :=
  let n := code c in
  between 9 13 n || between 28 32 n || (n =? 133) || (n =? 160).

(** [\d] on [str] patterns: decimal digits only below 256. *)
Definition isdigit (c : ascii) : bool := between 48 57 (code c).

Definition digit_value (c : ascii) : Z := code c - 48.

(** [str.lower] on one code point below 256. *)
Definition lower_char (c : ascii) : ascii :=
  let n := code c in
  if between 65 90 n || between 192 214 n || between 216 222 n
  then ascii_of_N (Z.to_N (n + 32))
  else c.

Fixpoint lower (s : string) : string :=
  match s with
  | EmptyString => EmptyString
  | String c t => String (lower_char c) (lower t)
  end.

Fixpoint startswith (p s : string) : bool :=
  match p, s with
  | EmptyString, _ => true
  | String a p', String b s' => Ascii.eqb a b && startswith p' s'
  | String _ _, EmptyString => false
  end.

(** [needle in hay]. *)
Fixpoint contains (needle hay : string) : bool :=
  startswith needle hay ||
  match hay with
  | EmptyString => false
  | String _ t => contains needle t
  end.

Fixpoint lstrip (s : string) : string :=
  match s with
  | EmptyString => EmptyString
  | String c t => if isspace c then lstrip t else s
  end.

Fixpoint rstrip (s : string) : string :=
  match s with
  | EmptyString => EmptyString
  | String c t =>
      match rstrip t with
      | EmptyString => if isspace c then EmptyString else String c EmptyString
      | r => String c r
      end
  end.

Definition strip (s : string) : string := rstrip (lstrip s).

(** Truthiness of a string: [if not s]. *)
Definition is_empty (s : string) : bool :=
  match s with EmptyString => true | _ => false end.

(** [any(term in s for term in terms)]. *)
Definition any_in (terms : list string) (s : string) : bool :=
  existsb (fun term => contains term s) terms.

(** [str.encode()]: UTF-8 of code points below 256. *)
Fixpoint encode (s : string) : list Z :=
  match s with
  | EmptyString => []
  | String c t =>
      let n := code c in
      if n <? 128 then n :: encode t
      else Z.lor 192 (Z.shiftr n 6) :: Z.lor 128 (Z.land n 63) :: encode t
  end.

(** Decimal rendering of a non-negative integer, [str(n)]. *)
Definition digit_char (d : Z) : ascii := ascii_of_N (Z.to_N (48 + d)).

Fixpoint decimal_fuel (fuel : nat) (n : Z) (acc : string) : string :=
  match fuel with
  | O => acc
  | S fuel' =>
      let acc' := String (digit_char (n mod 10)) acc in
      if n <? 10 then acc' else decimal_fuel fuel' (n / 10) acc'
  end.

Definition decimal (n : Z) : string :=
  decimal_fuel (S (Z.to_nat (Z.log2 n))) n EmptyString.

(** ["%02d" % n]. *)
Definition decimal2 (n : Z) : string :=
  if n <? 10 then String "0" (decimal n) else decimal n.

(** An exception instance. *)
Record Exn : Type := mkExn { exn_class : string; exn_msg : string }.

(** Outcome of a call: a value, or a raised exception. *)
Inductive Result (A : Type) : Type :=
| Return (a : A)
| Raise (e : Exn).
Arguments Return {A} a.
Arguments Raise {A} e.

End Py.

(** ** hashlib.md5 (RFC 1321) on byte lists *)

Module MD5.

#[local] Open Scope Z_scope.

Definition w32 (x : Z) : Z := x mod 4294967296.

Definition rotl32 (x c : Z) : Z :=
  Z.lor (w32 (Z.shiftl x c)) (Z.shiftr x (32 - c)).

Definition not32 (x : Z) : Z := Z.lxor x 4294967295.

Definition shifts : list Z :=
  [7; 12; 17; 22; 7; 12; 17; 22; 7; 12; 17; 22; 7; 12; 17; 22;
   5; 9; 14; 20; 5; 9; 14; 20; 5; 9; 14; 20; 5; 9; 14; 20;
   4; 11; 16; 23; 4; 11; 16; 23; 4; 11; 16; 23; 4; 11; 16; 23;
   6; 10; 15; 21; 6; 10; 15; 21; 6; 10; 15; 21; 6; 10; 15; 21].

Definition sines : list Z :=
  [0xd76aa478; 0xe8c7b756; 0x242070db; 0xc1bdceee;
   0xf57c0faf; 0x4787c62a; 0xa8304613; 0xfd469501;
   0x698098d8; 0x8b44f7af; 0xffff5bb1; 0x895cd7be;
   0x6b901122; 0xfd987193; 0xa679438e; 0x49b40821;
   0xf61e2562; 0xc040b340; 0x265e5a51; 0xe9b6c7aa;
   0xd62f105d; 0x02441453; 0xd8a1e681; 0xe7d3fbc8;
   0x21e1cde6; 0xc33707d6; 0xf4d50d87; 0x455a14ed;
   0xa9e3e905; 0xfcefa3f8; 0x676f02d9; 0x8d2a4c8a;
   0xfffa3942; 0x8771f681; 0x6d9d6122; 0xfde5380c;
   0xa4beea44; 0x4bdecfa9; 0xf6bb4b60; 0xbebfbc70;
   0x289b7ec6; 0xeaa127fa; 0xd4ef3085; 0x04881d05;
   0xd9d4d039; 0xe6db99e5; 0x1fa27cf8; 0xc4ac5665;
   0xf4292244; 0x432aff97; 0xab9423a7; 0xfc93a039;
   0x655b59c3; 0x8f0ccc92; 0xffeff47d; 0x85845dd1;
   0x6fa87e4f; 0xfe2ce6e0; 0xa3014314; 0x4e0811a1;
   0xf7537e82; 0xbd3af235; 0x2ad7d2bb; 0xeb86d391].

Definition zeros (n : nat) : list Z := repeat 0 n.

(** Little-endian bytes of [x], [n] of them. *)
Fixpoint le_bytes (n : nat) (x : Z) : list Z :=
  match n with
  | O => []
  | S n' => x mod 256 :: le_bytes n' (x / 256)
  end.

Fixpoint le_word (bs : list Z) : Z :=
  match bs with
  | [] => 0
  | b :: t => b + 256 * le_word t
  end.

Definition pad (msg : list Z) : list Z :=
  let len := Z.of_nat (List.length msg) in
  let fill := Z.to_nat ((55 - len) mod 64) in
  msg ++ [128] ++ zeros fill ++ le_bytes 8 ((8 * len) mod 18446744073709551616).

Fixpoint words (n : nat) (bs : list Z) : list Z :=
  match n with
  | O => []
  | S n' => le_word (firstn 4 bs) :: words n' (skipn 4 bs)
  end.

Definition Regs : Type := (Z * Z * Z * Z)%type.

Definition step (m : list Z) (r : Regs) (i : nat) : Regs :=
  let '(a, b, c, d) := r in
  let iz := Z.of_nat i in
  let '(f, g) :=
    if iz <? 16 then (Z.lor (Z.land b c) (Z.land (not32 b) d), iz)
    else if iz <? 32 then (Z.lor (Z.land d b) (Z.land (not32 d) c), (5 * iz + 1) mod 16)
    else if iz <? 48 then (Z.lxor (Z.lxor b c) d, (3 * iz + 5) mod 16)
    else (Z.lxor c (Z.lor b (not32 d)), (7 * iz) mod 16) in
  let f' := w32 (f + a + nth i sines 0 + nth (Z.to_nat g) m 0) in
  (d, w32 (b + rotl32 f' (nth i shifts 0)), b, c).

Definition block (r : Regs) (bs : list Z) : Regs :=
  let '(a0, b0, c0, d0) := r in
  let '(a, b, c, d) := fold_left (step (words 16 bs)) (seq 0 64) r in
  (w32 (a0 + a), w32 (b0 + b), w32 (c0 + c), w32 (d0 + d)).

Fixpoint blocks (n : nat) (r : Regs) (bs : list Z) : Regs :=
  match n with
  | O => r
  | S n' => blocks n' (block r (firstn 64 bs)) (skipn 64 bs)
  end.

Definition init : Regs := (0x67452301, 0xefcdab89, 0x98badcfe, 0x10325476).

Definition digest (msg : list Z) : list Z :=
  let p := pad msg in
  let '(a, b, c, d) := blocks (List.length p / 64)%nat init p in
  le_bytes 4 a ++ le_bytes 4 b ++ le_bytes 4 c ++ le_bytes 4 d.

Definition hex_char (n : Z) : ascii :=
  ascii_of_N (Z.to_N (if n <? 10 then 48 + n else 87 + n)).

Fixpoint hex (bs : list Z) : string :=
  match bs with
  | [] => EmptyString
  | b :: t => String (hex_char (b / 16)) (String (hex_char (b mod 16)) (hex t))
  end.

(** [hashlib.md5(data).hexdigest()]. *)
Definition hexdigest (msg : list Z) : string := hex (digest msg).

End MD5.

(** ** datetime: calendar arithmetic, strptime and strftime *)

Module Datetime.

#[local] Open Scope Z_scope.
Import Py.

Record datetime : Type := mkDatetime {
  year : Z; month : Z; day : Z;
  hour : Z; minute : Z; second : Z; microsecond : Z
}.

Definition is_leap (y : Z) : bool :=
  (y mod 4 =? 0) && (negb (y mod 100 =? 0) || (y mod 400 =? 0)).

Definition days_in_month (y m : Z) : Z :=
  if m =? 2 then (if is_leap y then 29 else 28)
  else if (m =? 4) || (m =? 6) || (m =? 9) || (m =? 11) then 30
  else 31.

Definition days_before_year (y : Z) : Z :=
  let p := y - 1 in p * 365 + p / 4 - p / 100 + p / 400.

Definition days_before_month (y m : Z) : Z :=
  fold_left (fun acc k => acc + days_in_month y (Z.of_nat k))
            (seq 1 (Z.to_nat (m - 1))) 0.

(** [date.toordinal()]: 1 is 0001-01-01. *)
Definition toordinal (d : datetime) : Z :=
  days_before_year (year d) + days_before_month (year d) (month d) + day d.

Definition day_micros : Z := 86400000000.

(** Microseconds since the start of day 0 of the proleptic calendar. *)
Definition micros (d : datetime) : Z :=
  (((toordinal d * 24 + hour d) * 60 + minute d) * 60 + second d) * 1000000
  + microsecond d.

(** [(a - b).days]: a timedelta is normalised with a non-negative
    remainder, so its days are the floor of the difference. *)
Definition sub_days (a b : datetime) : Z := (micros a - micros b) / day_micros.

Definition value_error (msg : string) : Exn := mkExn "ValueError" msg.

(** The constructor [datetime(y, m, d, H, M, S)] with its range checks. *)
Definition make (y m d H M S : Z) : Result datetime :=
  if negb (between 1 9999 y) then Raise (value_error "year is out of range")
  else if negb (between 1 12 m) then Raise (value_error "month must be in 1..12")
  else if negb (between 1 (days_in_month y m) d)
    then Raise (value_error "day is out of range for month")
  else if negb (between 0 23 H) then Raise (value_error "hour must be in 0..23")
  else if negb (between 0 59 M) then Raise (value_error "minute must be in 0..59")
  else if negb (between 0 59 S) then Raise (value_error "second must be in 0..59")
  else Return (mkDatetime y m d H M S 0).

(** [strftime('%Y-%m-%d')] (the C library does not pad the year). *)
Definition strftime_ymd (d : datetime) : string :=
  decimal (year d) +:+ "-" +:+ decimal2 (month d) +:+ "-" +:+ decimal2 (day d).

(** *** strptime

    [_strptime] turns the format into a regular expression (compiled with
    IGNORECASE), takes the first match in backtracking order at the start of
    the text, and refuses text left over after the match.  Month names are
    those of the C locale. *)

Inductive directive : Type := dY | dm | dd | dH | dM | dS | db | dB.

Inductive item : Type :=
| Lit (c : ascii)          (* an escaped literal character *)
| Spaces                   (* [\s+], from whitespace in the format *)
| Dir (d : directive).     (* a named group *)

Definition directive_of (c : ascii) : option directive :=
  if Ascii.eqb c "Y" then Some dY else if Ascii.eqb c "m" then Some dm
  else if Ascii.eqb c "d" then Some dd else if Ascii.eqb c "H" then Some dH
  else if Ascii.eqb c "M" then Some dM else if Ascii.eqb c "S" then Some dS
  else if Ascii.eqb c "b" then Some db else if Ascii.eqb c "B" then Some dB
  else None.

(** [TimeRE.pattern]: runs of whitespace become [\s+], [%x] a group. *)
Fixpoint pattern (fmt : string) : option (list item) :=
  match fmt with
  | EmptyString => Some []
  | String c rest =>
      if Ascii.eqb c "%" then
        match rest with
        | EmptyString => None
        | String x rest' =>
            match directive_of x, pattern rest' with
            | Some d, Some p => Some (Dir d :: p)
            | _, _ => None
            end
        end
      else
        match pattern rest with
        | Some p =>
            if isspace c then
              match p with
              | Spaces :: _ => Some p
              | _ => Some (Spaces :: p)
              end
            else Some (Lit c :: p)
        | None => None
        end
  end.

(** A character class. *)
Definition cls : Type := ascii -> bool.

Definition one_of (s : string) : cls :=
  fun c => existsb (Ascii.eqb c) (list_ascii_of_string s).

Definition ci (c : ascii) : cls :=
  fun x => Ascii.eqb (lower_char x) (lower_char c).

Definition word (s : string) : list cls := map ci (list_ascii_of_string s).

Definition month_abbr : list string :=
  ["jan"; "feb"; "mar"; "apr"; "may"; "jun"; "jul"; "aug"; "sep"; "oct"; "nov"; "dec"].

Definition month_name : list string :=
  ["january"; "february"; "march"; "april"; "may"; "june"; "july"; "august";
   "september"; "october"; "november"; "december"].

(** Month names as the regular expression lists them: longest first. *)
Definition month_name_re : list string :=
  ["september"; "february"; "november"; "december"; "january"; "october";
   "august"; "march"; "april"; "june"; "july"; "may"].

(** The alternatives of each group, in the order the expression tries them. *)
Definition alternatives (d : directive) : list (list cls) :=
  match d with
  | dY => [[isdigit; isdigit; isdigit; isdigit]]
  | dm => [[one_of "1"; one_of "012"]; [one_of "0"; one_of "123456789"];
           [one_of "123456789"]]
  | dd => [[one_of "3"; one_of "01"]; [one_of "12"; isdigit];
           [one_of "0"; one_of "123456789"]; [one_of "123456789"];
           [one_of " "; one_of "123456789"]]
  | dH => [[one_of "2"; one_of "0123"]; [one_of "01"; isdigit]; [isdigit]]
  | dM => [[one_of "012345"; isdigit]; [isdigit]]
  | dS => [[one_of "6"; one_of "01"]; [one_of "012345"; isdigit]; [isdigit]]
  | db => map word month_abbr
  | dB => map word month_name_re
  end.

(** Match a sequence of classes at the start of [s]: the text matched and
    the text left. *)
Fixpoint match_classes (cs : list cls) (s : string) : option (string * string) :=
  match cs with
  | [] => Some (EmptyString, s)
  | k :: cs' =>
      match s with
      | EmptyString => None
      | String c t =>
          if k c then
            match match_classes cs' t with
            | Some (m, r) => Some (String c m, r)
            | None => None
            end
          else None
      end
  end.

(** The ways [\s+] can match at the start of [s], longest first. *)
Fixpoint match_spaces (s : string) : list string :=
  match s with
  | EmptyString => []
  | String c t => if isspace c then match_spaces t ++ [t] else []
  end.

Definition captures : Type := list (directive * string).

(** All the ways the items match at the start of [s], in backtracking order. *)
Fixpoint match_items (p : list item) (s : string) : list (captures * string) :=
  match p with
  | [] => [([], s)]
  | Lit c :: p' =>
      match s with
      | String x t => if ci c x then match_items p' t else []
      | EmptyString => []
      end
  | Spaces :: p' => flat_map (match_items p') (match_spaces s)
  | Dir d :: p' =>
      flat_map (fun alt =>
                  match match_classes alt s with
                  | Some (m, r) =>
                      map (fun '(caps, rest) => ((d, m) :: caps, rest)) (match_items p' r)
                  | None => []
                  end)
               (alternatives d)
  end.

(** [int(s)] for a captured group: digits, possibly after a blank. *)
Definition int_of (s : string) : Z :=
  fold_left (fun acc c => if isdigit c then 10 * acc + digit_value c else acc)
            (list_ascii_of_string s) 0.

Fixpoint index_of (s : string) (l : list string) (i : Z) : Z :=
  match l with
  | [] => i
  | x :: l' => if String.eqb x s then i else index_of s l' (i + 1)
  end.

(** The fields [_strptime] collects, with its defaults. *)
Record fields : Type := mkFields {
  f_year : Z; f_month : Z; f_day : Z; f_hour : Z; f_minute : Z; f_second : Z
}.

Definition defaults : fields := mkFields 1900 1 1 0 0 0.

Definition store (f : fields) (cap : directive * string) : fields :=
  let '(d, m) := cap in
  match d with
  | dY => mkFields (int_of m) (f_month f) (f_day f) (f_hour f) (f_minute f) (f_second f)
  | dm => mkFields (f_year f) (int_of m) (f_day f) (f_hour f) (f_minute f) (f_second f)
  | dd => mkFields (f_year f) (f_month f) (int_of m) (f_hour f) (f_minute f) (f_second f)
  | dH => mkFields (f_year f) (f_month f) (f_day f) (int_of m) (f_minute f) (f_second f)
  | dM => mkFields (f_year f) (f_month f) (f_day f) (f_hour f) (int_of m) (f_second f)
  | dS => mkFields (f_year f) (f_month f) (f_day f) (f_hour f) (f_minute f) (int_of m)
  | db => mkFields (f_year f) (index_of (lower m) month_abbr 1) (f_day f)
                   (f_hour f) (f_minute f) (f_second f)
  | dB => mkFields (f_year f) (index_of (lower m) month_name 1) (f_day f)
                   (f_hour f) (f_minute f) (f_second f)
  end.

(** [datetime.strptime(data, fmt)]. *)
Definition strptime (data fmt : string) : Result datetime :=
  match pattern fmt with
  | None => Raise (value_error "bad directive in format")
  | Some p =>
      match match_items p data with
      | [] => Raise (value_error "time data does not match format")
      | (caps, rest) :: _ =>
          if is_empty rest then
            let f := fold_left store caps defaults in
            make (f_year f) (f_month f) (f_day f) (f_hour f) (f_minute f) (f_second f)
          else Raise (value_error "unconverted data remains")
      end
  end.

End Datetime.

(** ** core/models.py *)

Module Models.

Record RFPOpportunity : Type := mkOpp {
  title : string;
  agency : string;
  deadline : string;
  value : string;
  urgency : string;
  contact : string;
  url : string;
  description : string;
  keywords : list string;
  discovered_at : Z;
  score : float
}.

(** [RFPOpportunity.generate_hash]. *)
Definition generate_hash (o : RFPOpportunity) : string :=
  let content := title o +:+ agency o +:+ deadline o +:+ url o in
  MD5.hexdigest (Py.encode content).

End Models.

(** ** plugins/base_plugin.py, plugins/federal_opportunities.py,
       plugins/govtech_scraper.py: field derivation *)

Module BasePlugin.

#[local] Open Scope Z_scope.
Import Py Datetime.

(** [BaseRFPPlugin.determine_urgency]; [now] is the reading of
    [datetime.now()]. *)
Definition determine_urgency (now : datetime) (deadline : string) : string :=
  if is_empty deadline then "medium"
  else
    match strptime deadline "%Y-%m-%d" with
    | Return deadline_date =>
        let days_until := sub_days deadline_date now in
        if days_until <=? 7 then "high"
        else if days_until <=? 30 then "medium"
        else "low"
    | Raise _ => "medium"
    end.

Definition tech_terms : list string :=
  ["software"; "technology"; "digital"; "cloud"; "api";
   "payment"; "fintech"; "database"; "security"; "ai";
   "machine learning"; "analytics"; "mobile"; "web"].

(** [BaseRFPPlugin.extract_keywords]. *)
Definition extract_keywords (text : string) : list string :=
  let text_lower := lower text in
  List.filter (fun term => contains term text_lower) tech_terms.

End BasePlugin.

Module FederalPlugin.

#[local] Open Scope Z_scope.
Import Py Datetime.

Definition federal_formats : list string :=
  ["%Y-%m-%d"; "%m/%d/%Y"; "%Y-%m-%dT%H:%M:%S"; "%b %d, %Y"; "%B %d, %Y"].

(** The loop over the formats: [Some] is a [return] from inside the loop,
    [None] is falling out of it.  A [ValueError] continues with the next
    format; any other exception reaches the outer bare [except]. *)
Fixpoint try_formats (fmts : list string) (text : string) : Result (option string) :=
  match fmts with
  | [] => Return None
  | fmt :: fmts' =>
      match strptime text fmt with
      | Return parsed_date => Return (Some (strftime_ymd parsed_date))
      | Raise e =>
          if String.eqb (exn_class e) "ValueError" then try_formats fmts' text
          else Raise e
      end
  end.

(** [RFPPlugin._parse_federal_date]. *)
Definition _parse_federal_date (date_str : string) : string :=
  if is_empty date_str then "TBD"
  else
    match try_formats federal_formats (strip date_str) with
    | Return (Some rendered) => rendered
    | Return None => date_str
    | Raise _ => "TBD"
    end.

(** [RFPPlugin._calculate_federal_urgency]. *)
Definition _calculate_federal_urgency (now : datetime) (deadline_str : string) : string :=
  if is_empty deadline_str then "medium"
  else
    match strptime deadline_str "%Y-%m-%d" with
    | Return deadline_date =>
        let days_until := sub_days deadline_date now in
        if days_until <=? 10 then "high"
        else if days_until <=? 30 then "medium"
        else "low"
    | Raise _ => "medium"
    end.

End FederalPlugin.

Module GovtechPlugin.

Import Py Datetime.

Definition date_formats : list string :=
  ["%Y-%m-%d"; "%m/%d/%Y"; "%d/%m/%Y"; "%B %d, %Y"; "%b %d, %Y"; "%Y-%m-%d %H:%M:%S"].

(** [RFPPlugin._normalize_date]: the original text when no format matches. *)
Definition _normalize_date (date_str : string) : string :=
  match FederalPlugin.try_formats date_formats (strip date_str) with
  | Return (Some rendered) => rendered
  | Return None => date_str
  | Raise _ => date_str
  end.

End GovtechPlugin.

(** ** core/main_application.py: rule-based scoring;
       ml/opportunity_scorer.py: fallback scoring *)

Module Scoring.

Import Py Datetime Models.
#[local] Open Scope float_scope.

(** Python's [min(a, b)] and [max(a, b)] on floats: the first argument
    unless the second is strictly smaller (greater). *)
Definition py_min (a b : float) : float := if b <? a then b else a.
Definition py_max (a b : float) : float := if a <? b then b else a.

(** [d.get(key, fallback)]. *)
Definition get (d : gmap string float) (key : string) (fallback : float) : float :=
  default fallback (d !! key).

Definition relevant_keywords : list string :=
  ["payment"; "fintech"; "technology"; "digital"; "software"].

(** The body of the keyword loop for one keyword. *)
Definition keyword_step (keyword_weight : float) (title_lower description_lower : string)
    (score : float) (keyword : string) : float :=
  let score := if contains keyword title_lower then score + keyword_weight else score in
  if contains keyword description_lower then score + keyword_weight * 0.5 else score.

(** The body of the loop of [_score_opportunities] for one opportunity:
    the score it assigns. *)
Definition rule_score (scoring_config : gmap string float) (now : datetime)
    (opp : RFPOpportunity) : float :=
  let score := 0.0 in
  (* Urgency scoring *)
  let urgency_weight := get scoring_config "urgency_weight" 3.0 in
  let score :=
    if String.eqb (lower (urgency opp)) "high" then score + urgency_weight
    else if String.eqb (lower (urgency opp)) "medium" then score + urgency_weight * 0.67
    else score + urgency_weight * 0.33 in
  (* Value scoring *)
  let value_weight := get scoring_config "value_weight" 2.0 in
  let value_str := lower (value opp) in
  let score :=
    if contains "million" value_str then score + value_weight
    else if any_in ["thousand"; "k"] value_str then score + value_weight * 0.5
    else score in
  (* Keyword relevance scoring *)
  let keyword_weight := get scoring_config "keyword_weight" 1.5 in
  let title_lower := lower (title opp) in
  let description_lower := lower (description opp) in
  let score :=
    fold_left (keyword_step keyword_weight title_lower description_lower)
              relevant_keywords score in
  (* Deadline urgency *)
  let deadline_weight := get scoring_config "deadline_weight" 2.0 in
  let score :=
    match strptime (deadline opp) "%Y-%m-%d" with
    | Return deadline_date =>
        let days_until_deadline := sub_days deadline_date now in
        if (days_until_deadline <=? 7)%Z then score + deadline_weight
        else if (days_until_deadline <=? 30)%Z then score + deadline_weight * 0.5
        else score
    | Raise _ => score
    end in
  py_min score 10.0.

Definition set_score (opp : RFPOpportunity) (s : float) : RFPOpportunity :=
  mkOpp (title opp) (agency opp) (deadline opp) (value opp) (urgency opp)
        (contact opp) (url opp) (description opp) (keywords opp)
        (discovered_at opp) s.

(** [RFPScraperEnhanced._score_opportunities]: every opportunity of the
    list gets its score; [clock i] is the reading of [datetime.now()] while
    the [i]-th opportunity is scored. *)
Fixpoint score_from (scoring_config : gmap string float) (clock : nat -> datetime)
    (i : nat) (opportunities : list RFPOpportunity) : list RFPOpportunity :=
  match opportunities with
  | [] => []
  | opp :: rest =>
      set_score opp (rule_score scoring_config (clock i) opp)
      :: score_from scoring_config clock (S i) rest
  end.

Definition _score_opportunities (scoring_config : gmap string float)
    (clock : nat -> datetime) (opportunities : list RFPOpportunity)
    : list RFPOpportunity :=
  score_from scoring_config clock 0 opportunities.

(** *** The scorer of [MLOpportunityScorer] *)

(** [str.replace(old, '')] for a one-character [old]. *)
Fixpoint remove_char (old : ascii) (s : string) : string :=
  match s with
  | EmptyString => EmptyString
  | String c t => if Ascii.eqb c old then remove_char old t else String c (remove_char old t)
  end.

(** The longest run of digits at the start of [s], and what follows. *)
Fixpoint span_digits (s : string) : string * string :=
  match s with
  | EmptyString => (EmptyString, EmptyString)
  | String c t =>
      if isdigit c then let '(ds, r) := span_digits t in (String c ds, r)
      else (EmptyString, s)
  end.

(** [re.findall(r'\d+(?:\.\d+)?', s)[0]] when there is a match. *)
Fixpoint first_number (s : string) : option string :=
  match s with
  | EmptyString => None
  | String c t =>
      if isdigit c then
        let '(ds, r) := span_digits s in
        match r with
        | String dot r' =>
            let '(fs, _) := span_digits r' in
            if Ascii.eqb dot "." && negb (is_empty fs)
            then Some (ds +:+ "." +:+ fs) else Some ds
        | EmptyString => Some ds
        end
      else first_number t
  end.

Section Scorer.

(** The builtin [float(s)] on a decimal numeral. *)
Variable float_of_numeral : string -> float.

(** [MLOpportunityScorer._extract_numeric_value]. *)
Definition _extract_numeric_value (value_str : string) : float :=
  if is_empty value_str then 0
  else
    let value_str := remove_char "$" (remove_char "," (lower value_str)) in
    match first_number value_str with
    | None => 0
    | Some number =>
        let base_value := float_of_numeral number in
        if contains "million" value_str || contains "m" value_str
        then base_value * 1000000
        else if contains "thousand" value_str || contains "k" value_str
        then base_value * 1000
        else base_value
    end.

Definition urgency_scores (u : string) : float :=
  if String.eqb u "high" then 3.0
  else if String.eqb u "medium" then 2.0
  else if String.eqb u "low" then 1.0
  else 1.0.

Definition fallback_keywords : list string :=
  ["technology"; "software"; "digital"; "payment"; "fintech"].

(** [MLOpportunityScorer._fallback_scoring]. *)
Definition _fallback_scoring (opportunity : RFPOpportunity) : float :=
  let score := 0.0 in
  let score := score + urgency_scores (lower (urgency opportunity)) in
  let value_numeric := _extract_numeric_value (value opportunity) in
  let score :=
    if 1000000 <? value_numeric then score + 3.0
    else if 100000 <? value_numeric then score + 2.0
    else if 10000 <? value_numeric then score + 1.0
    else score in
  let text := lower (title opportunity +:+ " " +:+ description opportunity) in
  let score :=
    fold_left (fun score keyword => if contains keyword text then score + 0.5 else score)
              fallback_keywords score in
  py_min score 10.0.

(** [MLOpportunityScorer.score_opportunity].  [predict] stands for the
    model's part of the [try] block: the weighted score from the
    classifier's probabilities, or the exception it raised. *)
Definition score_opportunity (ML_AVAILABLE model_trained : bool)
    (predict : RFPOpportunity -> Result float) (opportunity : RFPOpportunity) : float :=
  if negb ML_AVAILABLE || negb model_trained then _fallback_scoring opportunity
  else
    match predict opportunity with
    | Return weighted_score => py_min (py_max weighted_score 0) 10
    | Raise _ => _fallback_scoring opportunity
    end.

End Scorer.

End Scoring.

(** ** core/circuit_breaker.py *)

Module CircuitBreaker.

#[local] Open Scope Z_scope.
Import Py.

Inductive State : Type := CLOSED | OPEN | HALF_OPEN.

Record t : Type := mkBreaker {
  failure_threshold : Z;
  recovery_timeout : Z;
  expected_exception : Exn -> bool;   (* [isinstance(e, expected_exception)] *)
  failure_count : Z;
  last_failure_time : option Z;
  state : State
}.

Definition seconds (n : Z) : Z := n * 1000000.

(** [CircuitBreaker.__init__]. *)
Definition __init__ (failure_threshold recovery_timeout : Z)
    (expected_exception : Exn -> bool) : t :=
  mkBreaker failure_threshold recovery_timeout expected_exception 0 None CLOSED.

(** [CircuitBreaker()] with the defaults of the signature. *)
Definition default : t := __init__ 5 (seconds 60) (fun _ => true).

(** [CircuitBreaker.record_failure]; [now] is the reading of [time.time()]. *)
Definition record_failure (cb : t) (now : Z) : t :=
  let count := failure_count cb + 1 in
  mkBreaker (failure_threshold cb) (recovery_timeout cb) (expected_exception cb)
            count (Some now)
            (if failure_threshold cb <=? count then OPEN else state cb).

(** [CircuitBreaker.reset]. *)
Definition reset (cb : t) : t :=
  mkBreaker (failure_threshold cb) (recovery_timeout cb) (expected_exception cb)
            0 (last_failure_time cb) CLOSED.

Definition set_state (cb : t) (s : State) : t :=
  mkBreaker (failure_threshold cb) (recovery_timeout cb) (expected_exception cb)
            (failure_count cb) (last_failure_time cb) s.

Definition get_state (cb : t) : State := state cb.

Definition breaker_open : Exn := mkExn "Exception" "Circuit breaker is OPEN".

(** The test at the head of the wrapper: the breaker to go on with, or
    the rejection. *)
Definition check_open (cb : t) (now : Z) : Result t :=
  match state cb with
  | OPEN =>
      match last_failure_time cb with
      | Some last =>
          if recovery_timeout cb <? now - last then Return (set_state cb HALF_OPEN)
          else Raise breaker_open
      | None => Raise (mkExn "TypeError" "unsupported operand type(s) for -")
      end
  | _ => Return cb
  end.

Section Wrapper.

(** The world the wrapped operation runs in, with its clock. *)
Context {W A : Type}.
Variable time : W -> Z.

(** A wrapped operation: its outcome and the world it leaves. *)
Definition operation : Type := W -> Result A * W.

(** The wrapper [CircuitBreaker.__call__] returns, called once. *)
Definition wrapper (cb : t) (func : operation) (w : W) : Result A * t * W :=
  match check_open cb (time w) with
  | Raise e => (Raise e, cb, w)
  | Return cb1 =>
      let '(r, w') := func w in
      match r with
      | Return result => (Return result, reset cb1, w')
      | Raise e =>
          if expected_exception cb1 e
          then (Raise e, record_failure cb1 (time w'), w')
          else (Raise e, cb1, w')
      end
  end.

(** Calls one after the other; before each call the world moves on
    ([fst]), then the operation ([snd]) is called through the breaker. *)
Fixpoint calls (cb : t) (ops : list ((W -> W) * operation)) (w : W)
    : list (Result A) * t * W :=
  match ops with
  | [] => ([], cb, w)
  | (pass, func) :: ops' =>
      let '(r, cb', w') := wrapper cb func (pass w) in
      let '(rs, cb'', w'') := calls cb' ops' w' in
      (r :: rs, cb'', w'')
  end.

(** The operation raises an expected exception whatever the world. *)
Definition fails (cb : t) (func : operation) : Prop :=
  forall w, exists e w', func w = (Raise e, w') /\ expected_exception cb e = true.

End Wrapper.

Arguments operation : clear implicits.

End CircuitBreaker.

(** ** plugins/plugin_manager.py *)

Module PluginManager.

#[local] Open Scope Z_scope.
Import Py Models.

(** What a plugin's [scrape] may return. *)
Inductive PyValue : Type :=
| VList (records : list RFPOpportunity)
| VNone.

(** A coroutine: the time it needs and how it completes. *)
Record Coroutine : Type := mkCoroutine {
  duration : Z;
  completion : Result PyValue
}.

Record PluginsConfig : Type := mkPluginsConfig {
  enabled : option (list string);
  plugin_timeout : option Z
}.

Record Config : Type := mkConfig {
  plugins_section : option PluginsConfig;
  scoring_section : gmap string float
}.

Record Plugin : Type := mkPlugin {
  name : string;
  scrape : Config -> Coroutine
}.

(** [PluginManager.plugins]. *)
Definition registry : Type := gmap string Plugin.

Definition timeout_error : Exn := mkExn "TimeoutError" "".

(** [asyncio.wait_for(coro, timeout)], [timeout] in seconds: the result of
    a coroutine that is done before the timeout expires, [TimeoutError]
    otherwise. *)
Definition wait_for (coro : Coroutine) (timeout : Z) : Result PyValue :=
  if duration coro <? timeout * 1000000 then completion coro
  else Raise timeout_error.

(** [config.get('plugins', {}).get('plugin_timeout', 60)]. *)
Definition get_plugin_timeout (config : Config) : Z :=
  default 60 (plugins_section config ≫= plugin_timeout).

(** [config.get('plugins', {}).get('enabled', [])]. *)
Definition get_enabled (config : Config) : list string :=
  default [] (plugins_section config ≫= enabled).

(** [PluginManager._scrape_with_timeout]. *)
Definition _scrape_with_timeout (plugin : Plugin) (config : Config) : Result PyValue :=
  let timeout := get_plugin_timeout config in
  match wait_for (scrape plugin config) timeout with
  | Return v => Return v
  | Raise e =>
      if String.eqb (exn_class e) "TimeoutError" then Return (VList [])
      else Raise e
  end.

(** [asyncio.gather] with its [return_exceptions] flag on finished tasks:
    with [return_exceptions] the exceptions are results like the values,
    without it the first one is raised. *)
Fixpoint first_raise (tasks : list (Result PyValue)) : option Exn :=
  match tasks with
  | [] => None
  | Raise e :: _ => Some e
  | Return _ :: tasks' => first_raise tasks'
  end.

Definition gather (tasks : list (Result PyValue)) (return_exceptions : bool)
    : Result (list (Result PyValue)) :=
  if return_exceptions then Return tasks
  else match first_raise tasks with
       | Some e => Raise e
       | None => Return tasks
       end.

(** The tasks created for the enabled names the registry knows. *)
Fixpoint create_tasks (plugins : registry) (config : Config) (names : list string)
    : list (Result PyValue) :=
  match names with
  | [] => []
  | plugin_name :: names' =>
      match plugins !! plugin_name with
      | Some plugin => _scrape_with_timeout plugin config :: create_tasks plugins config names'
      | None => create_tasks plugins config names'
      end
  end.

(** The loop over the results. *)
Fixpoint merge (results : list (Result PyValue)) : list RFPOpportunity :=
  match results with
  | [] => []
  | Return (VList records) :: results' => records ++ merge results'
  | _ :: results' => merge results'
  end.

(** [PluginManager.scrape_all_sources]. *)
Definition scrape_all_sources (plugins : registry) (config : Config)
    : Result (list RFPOpportunity) :=
  let enabled_plugins := get_enabled config in
  let tasks := create_tasks plugins config enabled_plugins in
  match gather tasks true with
  | Return results => Return (merge results)
  | Raise e => Raise e
  end.

End PluginManager.

(** ** monitoring/alerting_system.py: throttle and dispatch *)

Module Alerting.

#[local] Open Scope Z_scope.
Import Py Datetime.

Record Alert : Type := mkAlert {
  severity : string;
  message : string;
  metric : string;
  value : float;
  timestamp : datetime
}.

(** The options the alerting code reads:
    [config.get('email', {}).get('sender_email')] and
    [config.get('notifications', {}).get('slack_webhook')]. *)
Record Config : Type := mkConfig {
  sender_email : option string;
  slack_webhook : option string
}.

(** The transports: the SMTP conversation and the HTTP POST (its status). *)
Record Transport : Type := mkTransport {
  smtp_send : Alert -> Result unit;
  http_post : string -> Alert -> Result Z
}.

Inductive Event : Type :=
| Dispatch (alert : Alert)          (* [_send_alert_notification] entered *)
| Info (text : string)
| Error (text : string).

Record t : Type := mkAlerting {
  alert_history : gmap string datetime;
  events : list Event                (* oldest first *)
}.

Definition emit (st : t) (e : Event) : t :=
  mkAlerting (alert_history st) (events st ++ [e]).

(** An option is set when it is present and not the empty string. *)
Definition configured (o : option string) : option string :=
  match o with
  | Some s => if is_empty s then None else Some s
  | None => None
  end.

(** [AlertingSystem._send_email_alert]. *)
Definition _send_email_alert (tr : Transport) (alert : Alert) (st : t) : t :=
  match smtp_send tr alert with
  | Return _ => emit st (Info "Email alert sent successfully")
  | Raise e => emit st (Error ("Email alert failed: " +:+ exn_msg e))
  end.

(** [AlertingSystem._send_slack_alert]. *)
Definition _send_slack_alert (tr : Transport) (alert : Alert) (webhook_url : string)
    (st : t) : t :=
  match http_post tr webhook_url alert with
  | Return status =>
      if status =? 200 then emit st (Info "Slack alert sent successfully")
      else emit st (Error ("Slack alert failed: " +:+ decimal status))
  | Raise e => emit st (Error ("Slack alert error: " +:+ exn_msg e))
  end.

(** [AlertingSystem._send_alert_notification]. *)
Definition _send_alert_notification (config : Config) (tr : Transport) (alert : Alert)
    (st : t) : t :=
  let st := emit st (Dispatch alert) in
  let st :=
    match configured (sender_email config) with
    | Some _ => _send_email_alert tr alert st
    | None => st
    end in
  let st :=
    match configured (slack_webhook config) with
    | Some webhook => _send_slack_alert tr alert webhook st
    | None => st
    end in
  emit st (Info ("Alert sent: " +:+ severity alert +:+ " - " +:+ message alert)).

(** [{'critical': 1, 'warning': 4, 'info': 12}.get(severity, 4)]. *)
Definition throttle_hours (severity : string) : Z :=
  if String.eqb severity "critical" then 1
  else if String.eqb severity "warning" then 4
  else if String.eqb severity "info" then 12
  else 4.

(** [timedelta(hours=h)] in microseconds. *)
Definition hours (h : Z) : Z := h * 3600 * 1000000.

Definition alert_key (alert : Alert) : string :=
  metric alert +:+ "_" +:+ severity alert.

(** The throttle's test: [true] when the alert is inside its window. *)
Definition throttled (st : t) (now : datetime) (alert : Alert) : bool :=
  match alert_history st !! alert_key alert with
  | Some last_sent =>
      micros now - micros last_sent <? hours (throttle_hours (severity alert))
  | None => false
  end.

(** [AlertingSystem._send_alert_with_throttling]; [now] is the reading of
    [datetime.now()]. *)
Definition _send_alert_with_throttling (config : Config) (tr : Transport)
    (now : datetime) (alert : Alert) (st : t) : t :=
  if throttled st now alert then st
  else
    let st := _send_alert_notification config tr alert st in
    mkAlerting (<[alert_key alert := now]> (alert_history st)) (events st).

(** The alerts dispatched so far. *)
Definition dispatched (st : t) : list Alert :=
  flat_map (fun e => match e with Dispatch a => [a] | _ => [] end) (events st).

End Alerting.

(** ** core/main_application.py: the scraping session *)

Module Session.

#[local] Open Scope Z_scope.
Import Py Datetime Models.

(** [ScrapeSession]. [duration_seconds] is kept in microseconds. *)
Record ScrapeSession : Type := mkSession {
  start_time : datetime;
  end_time : option datetime;
  status : string;
  opportunities_found : Z;
  errors : string;
  duration_seconds : Z;
  source : string
}.

Definition set_status (s : ScrapeSession) (st : string) : ScrapeSession :=
  mkSession (start_time s) (end_time s) st (opportunities_found s) (errors s)
            (duration_seconds s) (source s).

Definition set_errors (s : ScrapeSession) (e : string) : ScrapeSession :=
  mkSession (start_time s) (end_time s) (status s) (opportunities_found s) e
            (duration_seconds s) (source s).

Definition set_found (s : ScrapeSession) (n : Z) : ScrapeSession :=
  mkSession (start_time s) (end_time s) (status s) n (errors s)
            (duration_seconds s) (source s).

Definition set_end (s : ScrapeSession) (t : datetime) (d : Z) : ScrapeSession :=
  mkSession (start_time s) (Some t) (status s) (opportunities_found s) (errors s)
            d (source s).

(** What one run meets: the clock, the configuration, and the outcome of
    each collaborator's call.  [_health_check] catches every exception it
    meets and answers with a boolean, which is what the run sees of it
    (as the module stands the name [sqlite3] is not bound where
    [_health_check] uses it, so that its answer there is [False]);
    [save_opportunity] does the same.  The CSV report and the e-mail
    notification can raise; so can [record_scrape_session], which has no
    handler of its own. *)
Record Env : Type := mkEnv {
  session_start : datetime;                    (* [datetime.now()], first line *)
  scoring_clock : nat -> datetime;             (* [datetime.now()] while scoring *)
  session_end : datetime;                      (* [datetime.now()] in [finally] *)
  config : PluginManager.Config;
  plugins : PluginManager.registry;
  _health_check : bool;
  save_opportunity : RFPOpportunity -> bool;
  _generate_enhanced_csv_report : list RFPOpportunity -> Result string;
  send_email_notification : list RFPOpportunity -> string -> Result unit;
  record_scrape_session : ScrapeSession -> Result unit
}.

(** The calls that leave the run, in order. *)
Inductive Event : Type :=
| Counter (label : string)                      (* [SCRAPE_COUNTER.labels(status=..).inc()] *)
| Saved (opp : RFPOpportunity) (ok : bool)
| Found (n : Z)                                 (* [OPPORTUNITIES_FOUND.set] *)
| Csv
| Email
| Slack
| Recorded (s : ScrapeSession)                  (* [record_scrape_session] called *)
| Health (v : Z).                               (* [SYSTEM_HEALTH.set] *)

(** The [for] loop that saves: the count of saved records and the calls. *)
Fixpoint save_all (env : Env) (opportunities : list RFPOpportunity) : Z * list Event :=
  match opportunities with
  | [] => (0, [])
  | opp :: rest =>
      let ok := save_opportunity env opp in
      let '(n, evs) := save_all env rest in
      ((if ok then 1 else 0) + n, Saved opp ok :: evs)
  end.

(** The [try] block: how it ends ([Return] is a [return]), the session
    and the calls made.  The log calls and [collect_system_metrics], which
    catches what it meets, leave the session alone and are not shown;
    [send_slack_notification] catches the errors of its request. *)
Definition body (env : Env) (session : ScrapeSession)
    : Result bool * ScrapeSession * list Event :=
  if negb (_health_check env) then
    (Return false, set_status session "health_check_failed", [Counter "failed"])
  else
    match PluginManager.scrape_all_sources (plugins env) (config env) with
    | Raise e => (Raise e, session, [])
    | Return [] =>
        (Return true, set_status session "no_data", [Counter "no_data"])
    | Return scraped =>
        let opportunities :=
          Scoring._score_opportunities (PluginManager.scoring_section (config env))
                                       (scoring_clock env) scraped in
        let '(saved_count, saves) := save_all env opportunities in
        let session := set_found session saved_count in
        let evs := saves ++ [Found saved_count] in
        match _generate_enhanced_csv_report env opportunities with
        | Raise e => (Raise e, session, evs ++ [Csv])
        | Return csv_file =>
            match send_email_notification env opportunities csv_file with
            | Raise e => (Raise e, session, evs ++ [Csv; Email])
            | Return _ =>
                (Return true, set_status session "completed",
                 evs ++ [Csv; Email; Slack; Counter "success"])
            end
        end
    end.

(** The [except Exception] clause. *)
Definition handler (e : Exn) (session : ScrapeSession)
    : Result bool * ScrapeSession * list Event :=
  (Return false, set_errors (set_status session "failed") (exn_msg e), [Counter "error"]).

Definition healthy (s : ScrapeSession) : Z :=
  if String.eqb (status s) "completed" || String.eqb (status s) "no_data" then 1 else 0.

(** [RFPScraperEnhanced.run_scraping_session]: what the caller gets, and
    the calls made. An exception raised in the [finally] clause replaces
    the pending [return]. *)
Definition run_scraping_session (env : Env) : Result bool * list Event :=
  let session_start := session_start env in
  let session := mkSession session_start None "started" 0 "" 0 "automated" in
  let '(outcome, session, evs) :=
    match body env session with
    | (Raise e, session, evs) =>
        let '(r, session, evs') := handler e session in (r, session, evs ++ evs')
    | done => done
    end in
  let session :=
    set_end session (session_end env) (micros (session_end env) - micros session_start) in
  match record_scrape_session env session with
  | Raise e => (Raise e, evs ++ [Recorded session])
  | Return _ => (outcome, evs ++ [Recorded session; Health (healthy session)])
  end.

(** The sessions handed to the persistence collaborator. *)
Definition recorded (evs : list Event) : list ScrapeSession :=
  flat_map (fun e => match e with Recorded s => [s] | _ => [] end) evs.

End Session.

(** ** plugins/base_plugin.py: value texts *)

Module Values.

Import Py.
#[local] Open Scope Z_scope.

(** [str.isdigit] below 256: the decimal digits and the superscripts
    one, two and three. *)
Definition str_isdigit (c : ascii) : bool :=
  let n := code c in
  between 48 57 n || (n =? 178) || (n =? 179) || (n =? 185).

(** [any(p(char) for char in s)]. *)
Fixpoint any_char (p : ascii -> bool) (s : string) : bool :=
  match s with
  | EmptyString => false
  | String c t => p c || any_char p t
  end.

(** [BaseRFPPlugin.parse_value]. *)
Definition parse_value (value_text : string) : string :=
  if is_empty value_text then "Not specified"
  else
    let value_text :=
      Scoring.remove_char "," (Scoring.remove_char "$" (strip value_text)) in
    if any_char str_isdigit value_text then
      if negb (startswith "$" value_text) then "$" +:+ value_text else value_text
    else value_text.

End Values.

(** ** database/database_manager.py: the opportunities table *)

Module Database.

Import Py Datetime Models.
#[local] Open Scope Z_scope.

(** A row of [opportunities].  The columns from [title] to [discovered_at]
    are those of the opportunity ([row_data]); [row_status], [notified_at]
    and [metadata] have the defaults of the schema in a new row. *)
Record OpportunityRow : Type := mkRow {
  row_id : Z;
  row_hash : string;
  row_data : RFPOpportunity;
  last_updated : datetime;
  row_status : string;
  notified_at : option datetime;
  metadata : option string
}.

(** The table and the counter of its [AUTOINCREMENT] key. *)
Record t : Type := mkDb {
  opportunities : list OpportunityRow;
  sequence : Z
}.

(** After [init_database] on a new file. *)
Definition empty : t := mkDb [] 0.

(** [INSERT OR REPLACE] on a table whose [hash] is [UNIQUE]: the rows in
    conflict are deleted and the new row is inserted with the next key. *)
Definition insert_or_replace (h : string) (data : RFPOpportunity) (now : datetime)
    (db : t) : t :=
  let kept :=
    List.filter (fun r => negb (String.eqb (row_hash r) h)) (opportunities db) in
  let id := sequence db + 1 in
  mkDb (kept ++ [mkRow id h data now "active" None None]) id.

(** [DatabaseManager.save_opportunity]: [fault] is the exception the
    connection or the statement raises, if any ([with conn] then rolls
    back); [now] is [CURRENT_TIMESTAMP]. *)
Definition save_opportunity (fault : option Exn) (now : datetime)
    (opportunity : RFPOpportunity) (db : t) : t * bool :=
  match fault with
  | Some _ => (db, false)
  | None =>
      let opp_hash := generate_hash opportunity in
      (insert_or_replace opp_hash opportunity now db, true)
  end.

(** The rows with a given hash. *)
Definition select_hash (h : string) (db : t) : list OpportunityRow :=
  List.filter (fun r => String.eqb (row_hash r) h) (opportunities db).

(** Calls of [save_opportunity] one after the other, and their answers. *)
Fixpoint save_each (calls : list (option Exn * datetime * RFPOpportunity)) (db : t)
    : t * list bool :=
  match calls with
  | [] => (db, [])
  | (fault, now, opp) :: rest =>
      let '(db1, ok) := save_opportunity fault now opp db in
      let '(db2, oks) := save_each rest db1 in
      (db2, ok :: oks)
  end.

End Database.

(** ** monitoring/metrics_collector.py: the health score;
       monitoring/alerting_system.py: conditions and the alert loop *)

Module Monitoring.

Import Py Datetime Alerting.
#[local] Open Scope float_scope.

(** [MetricsCollector.get_health_score].  [psutil] is what the three
    readings of the system give (CPU, memory and disk percent) or the
    exception they raise; [db_ok] whether the connectivity check passes;
    [recent_runs] the count of the activity query or its exception. *)
Definition get_health_score (psutil : Result (float * float * float)) (db_ok : bool)
    (recent_runs : Result Z) : float :=
  match psutil with
  | Raise _ => Scoring.py_max 0 0.0
  | Return (cpu_percent, memory_percent, disk_percent) =>
      let score := 100.0 in
      let score :=
        if 90 <? cpu_percent then score - 20
        else if 70 <? cpu_percent then score - 10
        else score in
      let score :=
        if 90 <? memory_percent then score - 20
        else if 70 <? memory_percent then score - 10
        else score in
      let score :=
        if 95 <? disk_percent then score - 30
        else if 85 <? disk_percent then score - 15
        else score in
      let score := if db_ok then score else score - 25 in
      let score :=
        match recent_runs with
        | Return n => if (n =? 0)%Z then score - 20 else score
        | Raise _ => score - 10
        end in
      Scoring.py_max score 0.0
  end.

Section Conditions.

(** [format(x, '.1f')]. *)
Variable format_1f : float -> string.

(** [AlertingSystem._check_health_alerts]; [now] is the time the alert is
    created at. *)
Definition _check_health_alerts (now : datetime) (health_score : float) : list Alert :=
  if health_score <? 50 then
    [mkAlert "critical"
             ("System health critically low: " +:+ format_1f health_score +:+ "%")
             "health_score" health_score now]
  else if health_score <? 80 then
    [mkAlert "warning"
             ("System health below normal: " +:+ format_1f health_score +:+ "%")
             "health_score" health_score now]
  else [].

End Conditions.

(** The loop of [AlertingSystem.check_alert_conditions] over the alerts it
    has collected, each with the reading of the clock in its call of
    [_send_alert_with_throttling]. *)
Fixpoint send_alerts (config : Config) (tr : Transport)
    (alerts : list (datetime * Alert)) (st : Alerting.t) : Alerting.t :=
  match alerts with
  | [] => st
  | (now, alert) :: rest =>
      send_alerts config tr rest (_send_alert_with_throttling config tr now alert st)
  end.

End Monitoring.

(** ** notifications/notification_manager.py: the Slack notification *)

Module Notifications.

Import Py Models.
#[local] Open Scope Z_scope.

(** [s[:n]]. *)
Fixpoint take (n : nat) (s : string) : string :=
  match n, s with
  | S n', String c t => String c (take n' t)
  | _, _ => EmptyString
  end.

Definition newline : string := String (ascii_of_nat 10) EmptyString.

(** A field of the attachment: its title and its value. *)
Definition field (opp : RFPOpportunity) : string * string :=
  (take 50 (title opp) +:+ (if (50 <? String.length (title opp))%nat then "..." else ""),
   "Agency: " +:+ agency opp +:+ newline +:+ "Deadline: " +:+ deadline opp).

Definition urgent_opps (opportunities : list RFPOpportunity) : list RFPOpportunity :=
  List.filter (fun opp => String.eqb (lower (urgency opp)) "high") opportunities.

(** What goes to the webhook: the count in the text, and the fields. *)
Record Payload : Type := mkPayload {
  urgent_count : nat;
  fields : list (string * string)
}.

(** [NotificationManager.send_slack_notification]: the request it prepares
    for the webhook, if any.  The status of the answer and the exceptions
    the request raises are logged and go no further. *)
Definition send_slack_notification (slack_webhook : option string)
    (opportunities : list RFPOpportunity) : list (string * Payload) :=
  match Alerting.configured slack_webhook with
  | None => []
  | Some webhook_url =>
      match urgent_opps opportunities with
      | [] => []
      | urgent =>
          [(webhook_url, mkPayload (List.length urgent) (map field (firstn 5 urgent)))]
      end
  end.

End Notifications.

(** ** core/config_manager.py: the default configuration *)

Module ConfigManager.

(** The [plugins] and [scoring] sections of
    [ConfigManager._create_default_config]. *)
Definition default_scoring : gmap string float :=
  <["urgency_weight" := 3.0%float]>
    (<["value_weight" := 2.0%float]>
       (<["keyword_weight" := 1.5%float]>
          (<["deadline_weight" := 2.0%float]> ∅))).

Definition _create_default_config : PluginManager.Config :=
  PluginManager.mkConfig
    (Some (PluginManager.mkPluginsConfig
             (Some ["govtech_scraper"; "federal_opportunities"]) (Some 60%Z)))
    default_scoring.

End ConfigManager.

(** * Properties *)

(** ** Proof devices *)

(** Truth of a boolean function of [n] booleans on all its inputs. *)
Fixpoint bfun (n : nat) : Type :=
  match n with
  | O => bool
  | S n' => bool -> bfun n'
  end.

Fixpoint ball (n : nat) : bfun n -> bool :=
  match n with
  | O => fun b => b
  | S n' => fun f => ball n' (f true) && ball n' (f false)
  end.

Fixpoint bholds (n : nat) : bfun n -> Prop :=
  match n with
  | O => fun b => b = true
  | S n' => fun f => forall b : bool, bholds n' (f b)
  end.

Lemma ball_spec (n : nat) (f : bfun n) : ball n f = true -> bholds n f.
Proof.
  induction n as [|n IH]; simpl; intros H.
  - exact H.
  - apply andb_true_iff in H as [Ht Hf]. intros [|]; apply IH; assumption.
Qed.

(** ** hashlib.md5: test vectors of RFC 1321 *)

Example md5_empty : MD5.hexdigest [] = "d41d8cd98f00b204e9800998ecf8427e".
Proof. vm_compute. reflexivity. Qed.

Example md5_abc : MD5.hexdigest (Py.encode "abc") = "900150983cd24fb0d6963f7d28e17f72".
Proof. vm_compute. reflexivity. Qed.

Example md5_two_blocks :
  MD5.hexdigest (Py.encode "aaaaaaaaaaaaaaaaaaaaaaaaaaaaaaaaaaaaaaaaaaaaaaaaaaaaaaaaaaaaaaaaaaaaaa")
  = "0f5c6c4e740bfcc08c3c26ccb2673d46".
Proof. vm_compute. reflexivity. Qed.

(** ** Identity hash *)

Section Identity.

Import Models.

(** C1. Two opportunities with the same title, agency, deadline and URL
    have the same identity hash, whatever their description, score,
    keywords, contact, value, urgency or discovery time.  *)
Theorem generate_hash_same_identity (a b : RFPOpportunity) :
  title a = title b -> agency a = agency b ->
  deadline a = deadline b -> url a = url b ->
  generate_hash a = generate_hash b.
Proof.
  intros Ht Ha Hd Hu. unfold generate_hash. rewrite Ht, Ha, Hd, Hu. reflexivity.
Qed.

Definition hash_opp_a : RFPOpportunity :=
  mkOpp "Payment gateway" "Treasury" "2026-12-01" "$2.5 million" "high"
        "a@example.gov" "https://sam.gov/opp/17" "Card processing platform"
        ["payment"] 17 8.5%float.

Definition hash_opp_b : RFPOpportunity :=
  mkOpp "Payment gateway" "Treasury" "2026-12-01" "Not specified" "low"
        "See posting" "https://sam.gov/opp/17" ""
        [] 99 0%float.

Lemma generate_hash_same_identity_witness :
  description hash_opp_a <> description hash_opp_b /\
  generate_hash hash_opp_a = generate_hash hash_opp_b.
Proof.
  split.
  - discriminate.
  - apply (generate_hash_same_identity hash_opp_a hash_opp_b); reflexivity.
Defined.

Example generate_hash_value :
  generate_hash hash_opp_a = "d1f5b266a29fac6c86ed0eb5c1c81b5e".
Proof. vm_compute. reflexivity. Qed.

End Identity.

(** ** Scores *)

Section Scores.

Import Py Datetime Models Scoring.

Definition in_range_b (s : float) : bool := ((0 <=? s) && (s <=? 10))%float.

(** A score in the closed interval from 0 to 10. *)
Definition in_range (s : float) : Prop := in_range_b s = true.

Lemma get_default (key : string) (fallback : float) : get ∅ key fallback = fallback.
Proof. unfold get. rewrite lookup_empty. reflexivity. Qed.

(** The keyword loop on the outcomes of its tests: for each keyword,
    whether the title has it and whether the description has it. *)
Definition keyword_step_on (keyword_weight : float) (score : float)
    (hit : bool * bool) : float :=
  let score := if fst hit then (score + keyword_weight)%float else score in
  if snd hit then (score + keyword_weight * 0.5)%float else score.

Definition hits (title_lower description_lower : string) (kws : list string)
    : list (bool * bool) :=
  map (fun k => (contains k title_lower, contains k description_lower)) kws.

Lemma keyword_loop_hits (w : float) (tl dl : string) (kws : list string) (s : float) :
  fold_left (keyword_step w tl dl) kws s
  = fold_left (keyword_step_on w) (hits tl dl kws) s.
Proof.
  revert s. induction kws as [|k kws IH]; intros s; simpl.
  - reflexivity.
  - rewrite IH. reflexivity.
Qed.

(** The tests of the rule-based scorer on the texts of [opp], as
    booleans. *)
Ltac signals opp :=
  generalize (String.eqb (lower (urgency opp)) "high");
  generalize (String.eqb (lower (urgency opp)) "medium");
  generalize (contains "million" (lower (value opp)));
  generalize (any_in ["thousand"; "k"] (lower (value opp)));
  generalize (contains "payment" (lower (title opp)));
  generalize (contains "payment" (lower (description opp)));
  generalize (contains "fintech" (lower (title opp)));
  generalize (contains "fintech" (lower (description opp)));
  generalize (contains "technology" (lower (title opp)));
  generalize (contains "technology" (lower (description opp)));
  generalize (contains "digital" (lower (title opp)));
  generalize (contains "digital" (lower (description opp)));
  generalize (contains "software" (lower (title opp)));
  generalize (contains "software" (lower (description opp))).

Lemma rule_score_in_range (now : datetime) (opp : RFPOpportunity) :
  in_range (rule_score ∅ now opp).
Proof.
  unfold in_range, rule_score. cbv zeta.
  rewrite !get_default, keyword_loop_hits.
  unfold hits, relevant_keywords. cbn [map].
  destruct (strptime (deadline opp) "%Y-%m-%d") as [deadline_date|e].
  - generalize (sub_days deadline_date now <=? 7)%Z.
    generalize (sub_days deadline_date now <=? 30)%Z.
    signals opp. apply (ball_spec 16). vm_compute. reflexivity.
  - signals opp. apply (ball_spec 14). vm_compute. reflexivity.
Qed.

Lemma fallback_loop_hits (text : string) (kws : list string) (s : float) :
  fold_left (fun score keyword => if contains keyword text then score + 0.5 else score)%float
            kws s
  = fold_left (fun score (hit : bool) => if hit then score + 0.5 else score)%float
              (map (fun k => contains k text) kws) s.
Proof.
  revert s. induction kws as [|k kws IH]; intros s; simpl.
  - reflexivity.
  - rewrite IH. reflexivity.
Qed.

Lemma fallback_in_range (float_of_numeral : string -> float) (opp : RFPOpportunity) :
  in_range (_fallback_scoring float_of_numeral opp).
Proof.
  unfold in_range, _fallback_scoring, urgency_scores. cbv zeta.
  rewrite fallback_loop_hits. unfold fallback_keywords. cbn [map].
  generalize (_extract_numeric_value float_of_numeral (value opp)). intros v.
  generalize (1000000 <? v)%float. generalize (100000 <? v)%float.
  generalize (10000 <? v)%float.
  generalize (String.eqb (lower (urgency opp)) "high").
  generalize (String.eqb (lower (urgency opp)) "medium").
  generalize (String.eqb (lower (urgency opp)) "low").
  generalize (lower (title opp +:+ " " +:+ description opp)). intros text.
  generalize (contains "technology" text). generalize (contains "software" text).
  generalize (contains "digital" text). generalize (contains "payment" text).
  generalize (contains "fintech" text).
  apply (ball_spec 11). vm_compute. reflexivity.
Qed.

Lemma score_from_in_range (clock : nat -> datetime) (opps : list RFPOpportunity) (i : nat) :
  Forall (fun o => in_range (score o)) (score_from ∅ clock i opps).
Proof.
  revert i. induction opps as [|opp opps IH]; intros i; simpl.
  - constructor.
  - constructor.
    + apply rule_score_in_range.
    + apply IH.
Qed.

(** C2. The score of the scoring stage is between 0 and 10: for every
    opportunity the rule-based scorer with the default weights scores, at
    whatever time, and for the fallback scorer, also as
    [score_opportunity] uses it when the ML libraries or the trained model
    are missing. *)
Theorem scores_in_range (float_of_numeral : string -> float)
    (clock : nat -> datetime) (opportunities : list RFPOpportunity)
    (predict : RFPOpportunity -> Result float) (flag : bool)
    (now : datetime) (opp : RFPOpportunity) :
  Forall (fun o => in_range (score o)) (_score_opportunities ∅ clock opportunities)
  /\ in_range (rule_score ∅ now opp)
  /\ in_range (_fallback_scoring float_of_numeral opp)
  /\ in_range (score_opportunity float_of_numeral false flag predict opp)
  /\ in_range (score_opportunity float_of_numeral flag false predict opp).
Proof.
  repeat split.
  - apply score_from_in_range.
  - apply rule_score_in_range.
  - apply fallback_in_range.
  - apply fallback_in_range.
  - unfold score_opportunity. rewrite orb_true_r. apply fallback_in_range.
Qed.

(** *** The scenario of the specification *)

(** The directives of a pattern, in order. *)
Fixpoint directives (p : list item) : list directive :=
  match p with
  | [] => []
  | Dir d :: p' => d :: directives p'
  | _ :: p' => directives p'
  end.

Lemma match_items_directives (p : list item) :
  forall s caps rest, In (caps, rest) (match_items p s) -> map fst caps = directives p.
Proof.
  induction p as [|it p IH]; intros s caps rest Hin.
  - simpl in Hin. destruct Hin as [H|[]]. inversion H. reflexivity.
  - destruct it as [c| |d]; simpl in Hin.
    + destruct s as [|x t]; [contradiction|].
      destruct (ci c x); [|contradiction]. simpl. eapply IH; eassumption.
    + apply in_flat_map in Hin as [t [_ Hin]]. simpl. eapply IH; eassumption.
    + apply in_flat_map in Hin as [alt [_ Hin]].
      destruct (match_classes alt s) as [[m r]|]; [|contradiction].
      apply in_map_iff in Hin as [[caps' rest'] [Heq Hin]].
      inversion Heq; subst. simpl. f_equal. eapply IH; eassumption.
Qed.

(** A date parsed with ["%Y-%m-%d"] is at midnight. *)
Lemma strptime_ymd_midnight (data : string) (d : datetime) :
  strptime data "%Y-%m-%d" = Return d ->
  hour d = 0%Z /\ minute d = 0%Z /\ second d = 0%Z /\ microsecond d = 0%Z.
Proof.
  unfold strptime.
  change (pattern "%Y-%m-%d") with (Some [Dir dY; Lit "-"; Dir dm; Lit "-"; Dir dd]).
  cbv iota beta.
  destruct (match_items _ data) as [|[caps rest] others] eqn:E; [discriminate|].
  assert (Hd : map fst caps = [dY; dm; dd]).
  { apply (match_items_directives [Dir dY; Lit "-"; Dir dm; Lit "-"; Dir dd] data caps rest).
    rewrite E. left. reflexivity. }
  destruct caps as [|[d1 m1] [|[d2 m2] [|[d3 m3] [|? ?]]]]; try discriminate.
  simpl in Hd. inversion Hd; subst.
  destruct (is_empty rest); [|discriminate].
  cbn [fold_left store defaults f_year f_month f_day f_hour f_minute f_second].
  unfold make.
  repeat match goal with
         | |- context [if ?b then _ else _] => destruct b; try discriminate
         end.
  intros H. inversion H. simpl. repeat split; reflexivity.
Qed.

(** A reading of the clock: its time of day is in range. *)
Definition time_of_day_ok (t : datetime) : Prop :=
  (0 <= hour t <= 23 /\ 0 <= minute t <= 59 /\ 0 <= second t <= 59
   /\ 0 <= microsecond t <= 999999)%Z.

Lemma days_until_calendar (d now : datetime) (n : Z) :
  hour d = 0%Z -> minute d = 0%Z -> second d = 0%Z -> microsecond d = 0%Z ->
  time_of_day_ok now ->
  toordinal d = (toordinal now + n)%Z ->
  (n - 1 <= sub_days d now <= n)%Z.
Proof.
  intros Hh Hm Hs Hu (Hh' & Hm' & Hs' & Hu') Ho.
  unfold sub_days, micros, day_micros. rewrite Hh, Hm, Hs, Hu, Ho.
  split.
  - apply Z.div_le_lower_bound; lia.
  - apply Z.div_le_upper_bound; lia.
Qed.

(** C9. Urgency high, a value text with "million", a deadline three days
    after today's date, "software" in the title and no other relevance
    keyword in title or description: the rule-based scorer with the
    default weights gives exactly 8.5. *)
Theorem scenario_score (now : datetime) (opp : RFPOpportunity) (deadline_date : datetime) :
  urgency opp = "high" ->
  contains "million" (lower (value opp)) = true ->
  contains "software" (lower (title opp)) = true ->
  (forall k, In k ["payment"; "fintech"; "technology"; "digital"] ->
             contains k (lower (title opp)) = false) ->
  (forall k, In k relevant_keywords -> contains k (lower (description opp)) = false) ->
  strptime (deadline opp) "%Y-%m-%d" = Return deadline_date ->
  time_of_day_ok now ->
  toordinal deadline_date = (toordinal now + 3)%Z ->
  rule_score ∅ now opp = 8.5%float.
Proof.
  intros Hu Hv Hs Ht Hd Hp Hnow Hdays.
  destruct (strptime_ymd_midnight _ _ Hp) as (Hh & Hm & Hsec & Hmic).
  pose proof (days_until_calendar _ _ 3 Hh Hm Hsec Hmic Hnow Hdays) as Hn.
  assert (H7 : (sub_days deadline_date now <=? 7)%Z = true) by (apply Z.leb_le; lia).
  unfold rule_score. cbv zeta.
  rewrite !get_default, keyword_loop_hits, Hp, H7, Hu, Hv.
  unfold hits, relevant_keywords. cbn [map].
  rewrite Hs.
  rewrite !Ht by (simpl; tauto).
  rewrite !Hd by (simpl; tauto).
  vm_compute. reflexivity.
Qed.

Definition scenario_opp : RFPOpportunity :=
  mkOpp "Software modernisation" "General Services" "2026-11-09" "$2.5 million" "high"
        "See posting" "https://sam.gov/opp/42" "Replacement of a records system"
        [] 0 0%float.

Definition scenario_now : datetime := mkDatetime 2026 11 6 9 30 0 0.

Lemma scenario_score_witness :
  strptime (deadline scenario_opp) "%Y-%m-%d" = Return (mkDatetime 2026 11 9 0 0 0 0)
  /\ rule_score ∅ scenario_now scenario_opp = 8.5%float.
Proof.
  split.
  - vm_compute. reflexivity.
  - apply (scenario_score scenario_now scenario_opp (mkDatetime 2026 11 9 0 0 0 0)).
    + reflexivity.
    + vm_compute. reflexivity.
    + vm_compute. reflexivity.
    + intros k Hk. simpl in Hk.
      destruct Hk as [<-|[<-|[<-|[<-|[]]]]]; vm_compute; reflexivity.
    + intros k Hk. simpl in Hk.
      destruct Hk as [<-|[<-|[<-|[<-|[<-|[]]]]]]; vm_compute; reflexivity.
    + vm_compute. reflexivity.
    + unfold time_of_day_ok, scenario_now. simpl. lia.
    + vm_compute. reflexivity.
Defined.

End Scores.


(** ** Circuit breaker *)

Section Breaker.

Import Py CircuitBreaker.

Context {W A : Type}.
Variable time : W -> Z.

#[local] Open Scope Z_scope.

(** What a call leaves untouched. *)
Definition same_settings (cb cb' : t) : Prop :=
  failure_threshold cb' = failure_threshold cb
  /\ recovery_timeout cb' = recovery_timeout cb
  /\ expected_exception cb' = expected_exception cb.

Lemma fails_same_settings (cb cb' : t) (func : operation W A) :
  expected_exception cb' = expected_exception cb -> fails cb func -> fails cb' func.
Proof.
  intros He Hf w. destruct (Hf w) as (e & w' & Hr & Hx).
  exists e, w'. rewrite He. split; assumption.
Qed.

(** A failing call through a closed breaker: the operation is called, its
    exception is raised again, and the failure is recorded. *)
Lemma wrapper_closed_failure (cb : t) (func : operation W A) (w : W) :
  state cb = CLOSED -> fails cb func ->
  exists e w',
    func w = (Raise e, w')
    /\ wrapper time cb func w = (Raise e, record_failure cb (time w'), w').
Proof.
  intros Hs Hf. destruct (Hf w) as (e & w' & Hr & Hx).
  exists e, w'. split; [assumption|].
  unfold wrapper, check_open. rewrite Hs, Hr, Hx. reflexivity.
Qed.

(** Failing calls through a closed breaker, no more of them than are left
    before the threshold: each is counted, and the breaker opens exactly
    when the count reaches the threshold. *)
Lemma calls_failures (ops : list ((W -> W) * operation W A)) :
  forall (cb : t) (w : W) rs cb' w',
    state cb = CLOSED ->
    Forall (fun op => fails cb (snd op)) ops ->
    failure_count cb + Z.of_nat (length ops) <= failure_threshold cb ->
    calls time cb ops w = (rs, cb', w') ->
    same_settings cb cb'
    /\ failure_count cb' = failure_count cb + Z.of_nat (length ops)
    /\ (ops <> [] ->
        state cb' = (if failure_threshold cb <=? failure_count cb' then OPEN else CLOSED)
        /\ exists last, last_failure_time cb' = Some last).
Proof.
  induction ops as [|[pass func] ops IH]; intros cb w rs cb' w' Hs Hf Hn Hc.
  - simpl in Hc. inversion Hc; subst. unfold same_settings.
    repeat split; try reflexivity; [simpl; lia | congruence | congruence].
  - simpl in Hc. inversion Hf as [|? ? Hfunc Hrest]; subst. simpl in Hfunc.
    destruct (wrapper_closed_failure cb func (pass w) Hs Hfunc) as (e & w1 & _ & Hw).
    rewrite Hw in Hc. set (cb1 := record_failure cb (time w1)) in *.
    destruct (calls time cb1 ops w1) as [[rs2 cb2] w2] eqn:E.
    inversion Hc; subst rs cb' w'. clear Hc.
    simpl length in Hn. rewrite Nat2Z.inj_succ in Hn.
    destruct ops as [|op ops'].
    + simpl in E. inversion E; subst. unfold same_settings. simpl. rewrite Hs.
      repeat split; try reflexivity; try lia.
      eexists. reflexivity.
    + assert (Hclosed : state cb1 = CLOSED).
      { unfold cb1, record_failure. simpl.
        simpl length in Hn. rewrite Nat2Z.inj_succ in Hn.
        destruct (Z.leb_spec (failure_threshold cb) (failure_count cb + 1)); [lia|assumption]. }
      assert (Hf1 : Forall (fun op => fails cb1 (snd op)) (op :: ops')).
      { eapply Forall_impl; [exact Hrest|]. intros o Ho.
        apply (fails_same_settings cb); [reflexivity|assumption]. }
      destruct (IH cb1 w1 rs2 cb2 w2 Hclosed Hf1) as ((Ht & Hr & He) & Hcount & Hopen).
      { unfold cb1. simpl failure_count. simpl failure_threshold. lia. }
      { exact E. }
      unfold cb1 in *. simpl in Ht, Hr, He, Hcount, Hopen.
      repeat split; try assumption.
      * simpl length. rewrite Nat2Z.inj_succ. rewrite Hcount. simpl length.
        rewrite Nat2Z.inj_succ. lia.
      * apply Hopen. discriminate.
      * apply Hopen. discriminate.
Qed.

(** An open breaker rejects a call made while no more than the recovery
    timeout has passed since the last failure: the wrapped operation does
    not run, and neither the breaker nor the world changes. *)
Lemma wrapper_open_rejects (cb : t) (last : Z) (func : operation W A) (w : W) :
  state cb = OPEN -> last_failure_time cb = Some last ->
  time w - last <= recovery_timeout cb ->
  wrapper time cb func w = (Raise breaker_open, cb, w).
Proof.
  intros Hs Hl Ht. unfold wrapper, check_open. rewrite Hs, Hl.
  destruct (Z.ltb_spec (recovery_timeout cb) (time w - last)); [lia|reflexivity].
Qed.

(** After the timeout an open breaker turns half-open and lets the call
    through. *)
Lemma check_open_half_open (cb : t) (last now : Z) :
  state cb = OPEN -> last_failure_time cb = Some last ->
  recovery_timeout cb < now - last ->
  check_open cb now = Return (set_state cb HALF_OPEN).
Proof.
  intros Hs Hl Ht. unfold check_open. rewrite Hs, Hl.
  destruct (Z.ltb_spec (recovery_timeout cb) (now - last)); [reflexivity|lia].
Qed.

Lemma wrapper_half_open_success (cb : t) (last : Z) (func : operation W A) (w w' : W)
    (result : A) :
  state cb = OPEN -> last_failure_time cb = Some last ->
  recovery_timeout cb < time w - last ->
  func w = (Return result, w') ->
  wrapper time cb func w = (Return result, reset (set_state cb HALF_OPEN), w').
Proof.
  intros Hs Hl Ht Hf. unfold wrapper.
  rewrite (check_open_half_open cb last (time w) Hs Hl Ht), Hf. reflexivity.
Qed.

(** A failure of the trial call opens the breaker again, with a new time
    of last failure. *)
Lemma wrapper_half_open_failure (cb : t) (last : Z) (func : operation W A) (w w' : W)
    (e : Exn) :
  state cb = OPEN -> last_failure_time cb = Some last ->
  recovery_timeout cb < time w - last ->
  failure_threshold cb <= failure_count cb + 1 ->
  func w = (Raise e, w') -> expected_exception cb e = true ->
  exists cb',
    wrapper time cb func w = (Raise e, cb', w')
    /\ state cb' = OPEN /\ last_failure_time cb' = Some (time w').
Proof.
  intros Hs Hl Ht Hn Hf Hx. unfold wrapper.
  rewrite (check_open_half_open cb last (time w) Hs Hl Ht), Hf. simpl.
  rewrite Hx. eexists. split; [reflexivity|].
  unfold record_failure. simpl.
  destruct (Z.leb_spec (failure_threshold cb) (failure_count cb + 1)); [|lia].
  split; reflexivity.
Qed.

(** C3. From the initial closed breaker, as many consecutive failing calls
    as the threshold says leave it open.  While open, a call made before
    the recovery timeout has passed since the last failure (or exactly at
    it) is rejected with the breaker-open error, the wrapped operation
    not being called.  A call made after the timeout turns the breaker
    half-open and calls the operation; when that call succeeds the failure
    count is 0 and the breaker is closed. *)
Theorem breaker_protocol (threshold timeout : Z) (expected : Exn -> bool)
    (ops : list ((W -> W) * operation W A)) (w : W) rs (cb : t) (w' : W) :
  0 < threshold ->
  Z.of_nat (length ops) = threshold ->
  Forall (fun op => fails (__init__ threshold timeout expected) (snd op)) ops ->
  calls time (__init__ threshold timeout expected) ops w = (rs, cb, w') ->
  state cb = OPEN
  /\ failure_count cb = threshold
  /\ exists last,
      last_failure_time cb = Some last
      /\ (forall (func : operation W A) (w1 : W),
             time w1 - last <= timeout ->
             wrapper time cb func w1 = (Raise breaker_open, cb, w1))
      /\ (forall (func : operation W A) (w1 w2 : W) (result : A),
             timeout < time w1 - last ->
             func w1 = (Return result, w2) ->
             check_open cb (time w1) = Return (set_state cb HALF_OPEN)
             /\ exists cb',
                 wrapper time cb func w1 = (Return result, cb', w2)
                 /\ failure_count cb' = 0 /\ state cb' = CLOSED).
Proof.
  intros Hpos Hlen Hfails Hcalls.
  assert (Hne : ops <> []) by (intros ->; simpl in Hlen; lia).
  destruct (calls_failures ops (__init__ threshold timeout expected) w rs cb w'
              eq_refl Hfails) as ((_ & Hr & _) & Hcount & Hopen).
  { simpl. lia. }
  { exact Hcalls. }
  simpl in Hr, Hcount. destruct (Hopen Hne) as (Hstate & last & Hlast).
  simpl in Hstate. rewrite Hcount, Hlen in Hstate.
  rewrite Z.leb_refl in Hstate.
  split; [assumption|]. split; [lia|].
  exists last. split; [assumption|]. split.
  - intros func w1 Ht. apply (wrapper_open_rejects cb last); try assumption. lia.
  - intros func w1 w2 result Ht Hf. split.
    + apply (check_open_half_open cb last); try assumption. lia.
    + exists (reset (set_state cb HALF_OPEN)). split; [|split; reflexivity].
      apply (wrapper_half_open_success cb last); try assumption. lia.
Qed.

End Breaker.

(** A resource that is down: every call takes a second and raises. *)
Definition down : CircuitBreaker.operation Z unit :=
  fun w => (Py.Raise (Py.mkExn "ConnectionError" "refused"), (w + 1000000)%Z).

Definition five_calls : list ((Z -> Z) * CircuitBreaker.operation Z unit) :=
  repeat (fun w : Z => w, down) 5.

Lemma breaker_protocol_witness :
  CircuitBreaker.state (snd (fst (CircuitBreaker.calls (fun w : Z => w)
     CircuitBreaker.default five_calls 0%Z))) = CircuitBreaker.OPEN.
Proof.
  destruct (CircuitBreaker.calls (fun w : Z => w) CircuitBreaker.default five_calls 0%Z)
    as [[rs cb] w'] eqn:E.
  refine (proj1 (breaker_protocol (fun w : Z => w) 5 (CircuitBreaker.seconds 60)
                   (fun _ => true) five_calls 0%Z rs cb w' _ _ _ E)).
  - reflexivity.
  - reflexivity.
  - unfold five_calls. simpl. repeat constructor;
      intros w0; exists (Py.mkExn "ConnectionError" "refused"), (w0 + 1000000)%Z;
      split; reflexivity.
Defined.


(** ** Plugin orchestration *)

Section Orchestrator.

Import Py Models PluginManager.

#[local] Open Scope Z_scope.

Variable plugins : registry.
Variable config : Config.

(** The plugin is not done when its timeout expires. *)
Definition timed_out (p : Plugin) : Prop :=
  get_plugin_timeout config * 1000000 <= duration (scrape p config).

(** The plugin is done in time with [v] as its result. *)
Definition returned (p : Plugin) (v : PyValue) : Prop :=
  duration (scrape p config) < get_plugin_timeout config * 1000000
  /\ completion (scrape p config) = Return v.

(** The plugin raises. *)
Definition raised (p : Plugin) : Prop :=
  exists e, completion (scrape p config) = Raise e.

(** The merged result the specification asks for, along the enabled names:
    the records of the plugins that returned a list, in order; nothing
    for a name the registry does not know, for a plugin that timed out or
    raised, or for a result that is not a list. *)
Inductive merged : list string -> list RFPOpportunity -> Prop :=
| merged_nil : merged [] []
| merged_unknown name names l :
    plugins !! name = None -> merged names l -> merged (name :: names) l
| merged_timed_out name p names l :
    plugins !! name = Some p -> timed_out p -> merged names l ->
    merged (name :: names) l
| merged_raised name p names l :
    plugins !! name = Some p -> raised p -> merged names l ->
    merged (name :: names) l
| merged_returned name p names records l :
    plugins !! name = Some p -> returned p (VList records) -> merged names l ->
    merged (name :: names) (records ++ l)
| merged_not_a_list name p names l :
    plugins !! name = Some p -> returned p VNone -> merged names l ->
    merged (name :: names) l.

(** What a task adds to the merged result. *)
Definition contribution (r : Result PyValue) : list RFPOpportunity :=
  match r with
  | Return (VList records) => records
  | _ => []
  end.

Lemma merge_cons (r : Result PyValue) (results : list (Result PyValue)) :
  merge (r :: results) = contribution r ++ merge results.
Proof. destruct r as [[records|]|e]; reflexivity. Qed.

Lemma scrape_with_timeout_timed_out (p : Plugin) :
  timed_out p -> _scrape_with_timeout p config = Return (VList []).
Proof.
  unfold timed_out, _scrape_with_timeout, wait_for. intros H.
  destruct (Z.ltb_spec (duration (scrape p config)) (get_plugin_timeout config * 1000000));
    [lia|reflexivity].
Qed.

Lemma scrape_with_timeout_returned (p : Plugin) (v : PyValue) :
  returned p v -> _scrape_with_timeout p config = Return v.
Proof.
  unfold returned, _scrape_with_timeout, wait_for. intros [Ht Hc].
  destruct (Z.ltb_spec (duration (scrape p config)) (get_plugin_timeout config * 1000000));
    [|lia].
  rewrite Hc. reflexivity.
Qed.

Lemma scrape_with_timeout_raised (p : Plugin) :
  raised p -> contribution (_scrape_with_timeout p config) = [].
Proof.
  unfold raised, _scrape_with_timeout, wait_for. intros [e Hc].
  destruct (_ <? _).
  - rewrite Hc. destruct (String.eqb _ _); reflexivity.
  - reflexivity.
Qed.

(** Every plugin's run is in one of the cases of [merged]. *)
Lemma plugin_cases (p : Plugin) :
  timed_out p \/ raised p \/ exists v, returned p v.
Proof.
  unfold timed_out, raised, returned.
  destruct (Z.lt_ge_cases (duration (scrape p config)) (get_plugin_timeout config * 1000000))
    as [Hlt|Hge].
  - destruct (completion (scrape p config)) as [v|e] eqn:E.
    + right. right. exists v. split; [assumption|reflexivity].
    + right. left. exists e. reflexivity.
  - left. assumption.
Qed.

Lemma merge_tasks_merged (names : list string) :
  merged names (merge (create_tasks plugins config names)).
Proof.
  induction names as [|name names IH]; simpl.
  - constructor.
  - destruct (plugins !! name) as [p|] eqn:E.
    + rewrite merge_cons.
      destruct (plugin_cases p) as [Ht|[Hr|[v Hv]]].
      * rewrite (scrape_with_timeout_timed_out p Ht). simpl.
        eapply merged_timed_out; eassumption.
      * rewrite (scrape_with_timeout_raised p Hr). simpl.
        eapply merged_raised; eassumption.
      * rewrite (scrape_with_timeout_returned p v Hv).
        destruct v as [records|]; simpl.
        -- eapply merged_returned; eassumption.
        -- eapply merged_not_a_list; eassumption.
    + apply merged_unknown; assumption.
Qed.

(** The cases of [merged] exclude one another: the merged result is
    determined. *)
Lemma merged_functional (names : list string) (l1 l2 : list RFPOpportunity) :
  merged names l1 -> merged names l2 -> l1 = l2.
Proof.
  intros H1. revert l2.
  induction H1 as [|n ns l Hn _ IH|n p ns l Hp Ht _ IH|n p ns l Hp Hr _ IH
                   |n p ns rec l Hp Hv _ IH|n p ns l Hp Hv _ IH];
    intros l2 H2; inversion H2; subst;
    try reflexivity;
    repeat match goal with
           | Ha : plugins !! ?k = Some ?x, Hb : plugins !! ?k = Some ?y |- _ =>
               assert (x = y) by congruence; subst y; clear Hb
           | Ha : plugins !! ?k = Some _, Hb : plugins !! ?k = None |- _ => congruence
           end;
    try (apply IH; assumption);
    try (f_equal; apply IH; assumption);
    unfold timed_out, raised, returned in *;
    repeat match goal with
           | H : _ /\ _ |- _ => destruct H
           | H : exists _, _ |- _ => destruct H
           end;
    try lia; try congruence.
  assert (rec = records) by congruence. subst. f_equal. apply IH. assumption.
Qed.

Lemma failed_not_returned (p : Plugin) (v : PyValue) :
  timed_out p \/ raised p -> returned p v -> False.
Proof.
  unfold timed_out, raised, returned. intros [Ht|[e He]] [Hd Hc]; [lia|congruence].
Qed.

(** Taking the name of a failed plugin out of the enabled names leaves the
    merged result as it is. *)
Lemma merged_without_failed (before after : list string) (name : string) (p : Plugin)
    (l : list RFPOpportunity) :
  plugins !! name = Some p -> timed_out p \/ raised p ->
  merged (before ++ name :: after) l -> merged (before ++ after) l.
Proof.
  intros Hp Hfail. revert l.
  induction before as [|b before IH]; intros l H; simpl in *.
  - inversion H; subst; try assumption; try congruence.
    exfalso. assert (p0 = p) by congruence. subst.
    eapply failed_not_returned; eassumption.
  - inversion H; subst.
    + apply merged_unknown; [assumption|]. apply IH. assumption.
    + eapply merged_timed_out; [eassumption|assumption|]. apply IH. assumption.
    + eapply merged_raised; [eassumption|assumption|]. apply IH. assumption.
    + eapply merged_returned; [eassumption|assumption|]. apply IH. assumption.
    + eapply merged_not_a_list; [eassumption|assumption|]. apply IH. assumption.
Qed.

(** C4. [scrape_all_sources] does not raise, and what it returns is the
    concatenation of the records of the enabled plugins that returned a
    list: a plugin that timed out or raised adds nothing, and the result
    is what the other enabled plugins give without it. *)
Theorem scrape_all_sources_isolates_failures :
  exists records,
    scrape_all_sources plugins config = Return records
    /\ merged (get_enabled config) records
    /\ (forall before name after p,
          get_enabled config = before ++ name :: after ->
          plugins !! name = Some p -> timed_out p \/ raised p ->
          merged (before ++ after) records).
Proof.
  unfold scrape_all_sources, gather.
  eexists. split; [reflexivity|].
  pose proof (merge_tasks_merged (get_enabled config)) as Hm.
  split; [exact Hm|].
  intros before name after p He Hp Hfail.
  apply (merged_without_failed before after name p); try assumption.
  rewrite <- He. exact Hm.
Qed.

End Orchestrator.


(** ** Alert throttle *)

Section Throttle.

Import Py Datetime Alerting.

#[local] Open Scope Z_scope.

Variable config : Config.

Lemma dispatched_emit (st : t) (e : Event) :
  dispatched (emit st e)
  = dispatched st ++ match e with Dispatch a => [a] | _ => [] end.
Proof.
  unfold dispatched, emit. simpl. rewrite flat_map_app. simpl.
  rewrite app_nil_r. reflexivity.
Qed.

Lemma history_emit (st : t) (e : Event) : alert_history (emit st e) = alert_history st.
Proof. reflexivity. Qed.

Lemma email_keeps (tr : Transport) (alert : Alert) (st : t) :
  dispatched (_send_email_alert tr alert st) = dispatched st
  /\ alert_history (_send_email_alert tr alert st) = alert_history st.
Proof.
  unfold _send_email_alert.
  destruct (smtp_send tr alert); rewrite dispatched_emit, app_nil_r; split; reflexivity.
Qed.

Lemma slack_keeps (tr : Transport) (alert : Alert) (hook : string) (st : t) :
  dispatched (_send_slack_alert tr alert hook st) = dispatched st
  /\ alert_history (_send_slack_alert tr alert hook st) = alert_history st.
Proof.
  unfold _send_slack_alert.
  destruct (http_post tr hook alert) as [status|e];
    [destruct (status =? 200)|]; rewrite dispatched_emit, app_nil_r; split; reflexivity.
Qed.

(** The notification step is one dispatch and leaves the history alone,
    whatever the channels do. *)
Lemma notification_dispatches (tr : Transport) (alert : Alert) (st : t) :
  dispatched (_send_alert_notification config tr alert st) = dispatched st ++ [alert]
  /\ alert_history (_send_alert_notification config tr alert st) = alert_history st.
Proof.
  unfold _send_alert_notification.
  set (st0 := emit st (Dispatch alert)).
  assert (H0 : dispatched st0 = dispatched st ++ [alert] /\ alert_history st0 = alert_history st).
  { unfold st0. rewrite dispatched_emit. split; reflexivity. }
  set (st1 := match configured (sender_email config) with
              | Some _ => _send_email_alert tr alert st0
              | None => st0
              end).
  assert (H1 : dispatched st1 = dispatched st0 /\ alert_history st1 = alert_history st0).
  { unfold st1. destruct (configured (sender_email config)); [apply email_keeps|split; reflexivity]. }
  set (st2 := match configured (slack_webhook config) with
              | Some webhook => _send_slack_alert tr alert webhook st1
              | None => st1
              end).
  assert (H2 : dispatched st2 = dispatched st1 /\ alert_history st2 = alert_history st1).
  { unfold st2. destruct (configured (slack_webhook config)); [apply slack_keeps|split; reflexivity]. }
  rewrite dispatched_emit, app_nil_r, history_emit.
  destruct H0 as [H0d H0h], H1 as [H1d H1h], H2 as [H2d H2h].
  rewrite H2d, H1d, H0d, H2h, H1h, H0h. split; reflexivity.
Qed.

(** An alert outside its window is dispatched and the time recorded. *)
Lemma throttle_passes (tr : Transport) (now : datetime) (alert : Alert) (st : t) :
  throttled st now alert = false ->
  dispatched (_send_alert_with_throttling config tr now alert st) = dispatched st ++ [alert]
  /\ alert_history (_send_alert_with_throttling config tr now alert st)
     = <[alert_key alert := now]> (alert_history st).
Proof.
  intros H. unfold _send_alert_with_throttling. rewrite H.
  destruct (notification_dispatches tr alert st) as [Hd Hh].
  split; [exact Hd|]. cbn [alert_history]. rewrite Hh. reflexivity.
Qed.

(** An alert inside its window is dropped: nothing changes. *)
Lemma throttle_drops (tr : Transport) (now : datetime) (alert : Alert) (st : t) :
  throttled st now alert = true ->
  _send_alert_with_throttling config tr now alert st = st.
Proof. intros H. unfold _send_alert_with_throttling. rewrite H. reflexivity. Qed.

Lemma throttled_after_sent (st : t) (sent now : datetime) (alert : Alert) :
  alert_history st !! alert_key alert = Some sent ->
  throttled st now alert
  = (micros now - micros sent <? hours (throttle_hours (severity alert))).
Proof. intros H. unfold throttled. rewrite H. reflexivity. Qed.

Lemma same_key (a b : Alert) :
  metric a = metric b -> severity a = severity b -> alert_key a = alert_key b.
Proof. intros Hm Hs. unfold alert_key. rewrite Hm, Hs. reflexivity. Qed.

(** The cool-down window of an alert, in microseconds. *)
Definition window (alert : Alert) : Z := hours (throttle_hours (severity alert)).

(** C5. The windows are 1, 4 and 12 hours for critical, warning and info.
    An alert that passes the throttle at [t1] is dispatched and [t1]
    recorded under its key; an alert with the same metric and severity
    presented at [t2], inside the window, is dropped without dispatch and
    changes nothing; presented at [t3], when the window has passed, it is
    dispatched, the second dispatch in all, and [t3] recorded. *)
Theorem throttle_window (tr1 tr2 tr3 : Transport) (a1 a2 a3 : Alert)
    (t1 t2 t3 : datetime) (st : t) :
  metric a2 = metric a1 -> severity a2 = severity a1 ->
  metric a3 = metric a1 -> severity a3 = severity a1 ->
  throttled st t1 a1 = false ->
  micros t2 - micros t1 < window a1 ->
  window a1 <= micros t3 - micros t1 ->
  let st1 := _send_alert_with_throttling config tr1 t1 a1 st in
  let st2 := _send_alert_with_throttling config tr2 t2 a2 st1 in
  let st3 := _send_alert_with_throttling config tr3 t3 a3 st2 in
  (throttle_hours "critical" = 1 /\ throttle_hours "warning" = 4 /\ throttle_hours "info" = 12)
  /\ dispatched st1 = dispatched st ++ [a1]
  /\ alert_history st1 !! alert_key a1 = Some t1
  /\ st2 = st1
  /\ dispatched st3 = dispatched st ++ [a1; a3]
  /\ alert_history st3 !! alert_key a1 = Some t3.
Proof.
  intros Hm2 Hs2 Hm3 Hs3 Hpass Hin Hout st1 st2 st3.
  destruct (throttle_passes tr1 t1 a1 st Hpass) as [Hd1 Hh1]. fold st1 in Hd1, Hh1.
  assert (Hk1 : alert_history st1 !! alert_key a1 = Some t1).
  { rewrite Hh1. apply lookup_insert_eq. }
  assert (H2 : st2 = st1).
  { unfold st2. apply throttle_drops.
    rewrite (throttled_after_sent st1 t1).
    - rewrite Hs2. apply Z.ltb_lt. exact Hin.
    - rewrite (same_key a2 a1 Hm2 Hs2). exact Hk1. }
  assert (Hpass3 : throttled st2 t3 a3 = false).
  { rewrite H2, (throttled_after_sent st1 t1).
    - rewrite Hs3. apply Z.ltb_ge. exact Hout.
    - rewrite (same_key a3 a1 Hm3 Hs3). exact Hk1. }
  destruct (throttle_passes tr3 t3 a3 st2 Hpass3) as [Hd3 Hh3]. fold st3 in Hd3, Hh3.
  split; [repeat split; reflexivity|].
  split; [exact Hd1|]. split; [exact Hk1|]. split; [exact H2|]. split.
  - rewrite Hd3, H2, Hd1, <- app_assoc. reflexivity.
  - rewrite Hh3, (same_key a3 a1 Hm3 Hs3). apply lookup_insert_eq.
Qed.

(** C10. An alert that passes the throttle has the time recorded under its
    key whatever the channels do.  When the e-mail and the webhook are
    configured and both raise, the two errors are logged and the time is
    recorded all the same, so that the alert is dropped for the whole
    window after it. *)
Theorem throttle_records_failed_delivery (tr tr' : Transport) (alert : Alert)
    (now later : datetime) (st : t) (sender hook : string) (e_mail e_hook : Exn) :
  throttled st now alert = false ->
  configured (sender_email config) = Some sender ->
  configured (slack_webhook config) = Some hook ->
  smtp_send tr alert = Raise e_mail ->
  http_post tr hook alert = Raise e_hook ->
  micros later - micros now < window alert ->
  let st' := _send_alert_with_throttling config tr now alert st in
  events st' = events st ++ [Dispatch alert;
                             Error ("Email alert failed: " +:+ exn_msg e_mail);
                             Error ("Slack alert error: " +:+ exn_msg e_hook);
                             Info ("Alert sent: " +:+ severity alert +:+ " - " +:+ message alert)]
  /\ alert_history st' !! alert_key alert = Some now
  /\ _send_alert_with_throttling config tr' later alert st' = st'.
Proof.
  intros Hpass Hmail Hhook Hsmtp Hpost Hin st'.
  destruct (throttle_passes tr now alert st Hpass) as [_ Hh]. fold st' in Hh.
  assert (Hk : alert_history st' !! alert_key alert = Some now).
  { rewrite Hh. apply lookup_insert_eq. }
  split; [|split].
  - unfold st', _send_alert_with_throttling. rewrite Hpass.
    unfold _send_alert_notification. rewrite Hmail, Hhook.
    unfold _send_email_alert, _send_slack_alert. simpl. rewrite Hsmtp, Hpost.
    simpl. rewrite <- !app_assoc. reflexivity.
  - exact Hk.
  - apply throttle_drops. rewrite (throttled_after_sent st' now later alert Hk).
    apply Z.ltb_lt. exact Hin.
Qed.

(** Whatever the channels do, a passed alert is recorded and then dropped
    inside its window. *)
Lemma throttle_records_any_delivery (tr tr' : Transport) (alert : Alert)
    (now later : datetime) (st : t) :
  throttled st now alert = false ->
  micros later - micros now < window alert ->
  let st' := _send_alert_with_throttling config tr now alert st in
  alert_history st' !! alert_key alert = Some now
  /\ _send_alert_with_throttling config tr' later alert st' = st'.
Proof.
  intros Hpass Hin st'.
  destruct (throttle_passes tr now alert st Hpass) as [_ Hh]. fold st' in Hh.
  assert (Hk : alert_history st' !! alert_key alert = Some now).
  { rewrite Hh. apply lookup_insert_eq. }
  split; [exact Hk|].
  apply throttle_drops. rewrite (throttled_after_sent st' now later alert Hk).
  apply Z.ltb_lt. exact Hin.
Qed.

End Throttle.


(** ** Deadlines: normalisation and urgency *)

Section Deadlines.

Import Py Datetime.

#[local] Open Scope Z_scope.

(** [strptime] raises nothing but [ValueError]. *)
Lemma strptime_raises_value_error (data fmt : string) (e : Exn) :
  strptime data fmt = Raise e -> exn_class e = "ValueError".
Proof.
  unfold strptime, make.
  destruct (pattern fmt) as [p|]; [|intros H; inversion H; reflexivity].
  destruct (match_items p data) as [|[caps rest] others];
    [intros H; inversion H; reflexivity|].
  destruct (is_empty rest); [|intros H; inversion H; reflexivity].
  repeat match goal with
         | |- context [if ?b then _ else _] => destruct b
         end;
    intros H; inversion H; reflexivity.
Qed.

(** The formats are tried in order: the first that parses gives the date. *)
Lemma try_formats_first (before after : list string) (fmt text : string)
    (parsed : datetime) :
  (forall f, In f before -> exists e, strptime text f = Raise e) ->
  strptime text fmt = Return parsed ->
  FederalPlugin.try_formats (before ++ fmt :: after) text
  = Return (Some (strftime_ymd parsed)).
Proof.
  intros Hb Hp. induction before as [|f before IH]; simpl.
  - rewrite Hp. reflexivity.
  - destruct (Hb f) as [e He]; [left; reflexivity|]. rewrite He.
    rewrite (strptime_raises_value_error _ _ _ He). simpl.
    apply IH. intros g Hg. apply Hb. right. exact Hg.
Qed.

Lemma try_formats_none (fmts : list string) (text : string) :
  (forall f, In f fmts -> exists e, strptime text f = Raise e) ->
  FederalPlugin.try_formats fmts text = Return None.
Proof.
  intros Hb. induction fmts as [|f fmts IH]; simpl.
  - reflexivity.
  - destruct (Hb f) as [e He]; [left; reflexivity|]. rewrite He.
    rewrite (strptime_raises_value_error _ _ _ He). simpl.
    apply IH. intros g Hg. apply Hb. right. exact Hg.
Qed.

Lemma not_empty (s : string) : s <> "" -> is_empty s = false.
Proof. destruct s; [congruence|reflexivity]. Qed.

(** C7, as the code has it. The date normalisation of the federal plugin
    tries its formats in order on the stripped text and returns the first
    date that parses, rendered with [%Y-%m-%d]; for the empty text it
    returns "TBD"; a text that is not empty and matches none of the formats
    is returned as it is. *)
Theorem parse_federal_date_cases (date_str : string) :
  (date_str = "" -> FederalPlugin._parse_federal_date date_str = "TBD")
  /\ (date_str <> "" ->
      forall before fmt after parsed,
        FederalPlugin.federal_formats = before ++ fmt :: after ->
        (forall f, In f before -> exists e, strptime (strip date_str) f = Raise e) ->
        strptime (strip date_str) fmt = Return parsed ->
        FederalPlugin._parse_federal_date date_str = strftime_ymd parsed)
  /\ (date_str <> "" ->
      (forall f, In f FederalPlugin.federal_formats ->
                 exists e, strptime (strip date_str) f = Raise e) ->
      FederalPlugin._parse_federal_date date_str = date_str).
Proof.
  split; [|split].
  - intros ->. reflexivity.
  - intros Hne before fmt after parsed Hf Hb Hp.
    unfold FederalPlugin._parse_federal_date. rewrite (not_empty _ Hne), Hf.
    rewrite (try_formats_first before after fmt _ parsed Hb Hp). reflexivity.
  - intros Hne Hall.
    unfold FederalPlugin._parse_federal_date. rewrite (not_empty _ Hne).
    rewrite (try_formats_none _ _ Hall). reflexivity.
Qed.

Lemma parse_federal_date_cases_witness :
  FederalPlugin._parse_federal_date "" = "TBD"
  /\ FederalPlugin._parse_federal_date " Nov 9, 2026 " = "2026-11-09"
  /\ FederalPlugin._parse_federal_date "next week" = "next week".
Proof.
  split; [|split].
  - apply (proj1 (parse_federal_date_cases "")). reflexivity.
  - refine (proj1 (proj2 (parse_federal_date_cases " Nov 9, 2026 ")) _
             ["%Y-%m-%d"; "%m/%d/%Y"; "%Y-%m-%dT%H:%M:%S"] "%b %d, %Y" ["%B %d, %Y"]
             (mkDatetime 2026 11 9 0 0 0 0) _ _ _).
    + discriminate.
    + reflexivity.
    + intros f Hf. simpl in Hf.
      destruct Hf as [<-|[<-|[<-|[]]]]; eexists; vm_compute; reflexivity.
    + vm_compute. reflexivity.
  - apply (proj2 (proj2 (parse_federal_date_cases "next week"))).
    + discriminate.
    + intros f Hf. simpl in Hf.
      destruct Hf as [<-|[<-|[<-|[<-|[<-|[]]]]]]; eexists; vm_compute; reflexivity.
Defined.

(** The text "next week" is not empty and matches none of the formats, and
    the normalisation does not return "TBD" for it. *)
Lemma parse_federal_date_not_tbd :
  "next week" <> ""
  /\ (forall f, In f FederalPlugin.federal_formats ->
                exists e, strptime (strip "next week") f = Raise e)
  /\ FederalPlugin._parse_federal_date "next week" <> "TBD".
Proof.
  split; [discriminate|]. split.
  - intros f Hf. simpl in Hf.
    destruct Hf as [<-|[<-|[<-|[<-|[<-|[]]]]]]; eexists; vm_compute; reflexivity.
  - assert (H : FederalPlugin._parse_federal_date "next week" = "next week")
      by (vm_compute; reflexivity).
    rewrite H. discriminate.
Qed.

(** The other plugin does the same on purpose. *)
Example normalize_date_keeps_text : GovtechPlugin._normalize_date "next week" = "next week".
Proof. vm_compute. reflexivity. Qed.

(** The days until the deadline as the plugins compute them: the days of
    [deadline - now] when the deadline parses with [%Y-%m-%d]. *)
Definition days_until (now : datetime) (deadline : string) : option Z :=
  match strptime deadline "%Y-%m-%d" with
  | Return deadline_date => Some (sub_days deadline_date now)
  | Raise _ => None
  end.

(** The urgency of the plugin contract, in the words of the specification:
    at most 7 days high, at most 30 medium, else low; medium when the
    deadline is unknown. *)
Definition contract_urgency (days : option Z) : string :=
  match days with
  | None => "medium"
  | Some d => if d <=? 7 then "high" else if d <=? 30 then "medium" else "low"
  end.

(** The same with the federal plugin's first threshold, 10 days. *)
Definition federal_urgency (days : option Z) : string :=
  match days with
  | None => "medium"
  | Some d => if d <=? 10 then "high" else if d <=? 30 then "medium" else "low"
  end.

Lemma strptime_ymd_empty :
  strptime "" "%Y-%m-%d" = Raise (value_error "time data does not match format").
Proof. vm_compute. reflexivity. Qed.

(** C8, as the code has it. The base plugin derives the urgency of the
    contract (7 and 30 days, medium for an empty or unparseable deadline);
    the federal plugin's calculation is high up to 10 days, and like the
    contract otherwise. *)
Theorem urgency_thresholds (now : datetime) (deadline : string) :
  BasePlugin.determine_urgency now deadline = contract_urgency (days_until now deadline)
  /\ FederalPlugin._calculate_federal_urgency now deadline
     = federal_urgency (days_until now deadline).
Proof.
  unfold BasePlugin.determine_urgency, FederalPlugin._calculate_federal_urgency,
    days_until, contract_urgency, federal_urgency.
  destruct deadline as [|c rest].
  - rewrite strptime_ymd_empty. split; reflexivity.
  - cbn [is_empty].
    destruct (strptime (String c rest) "%Y-%m-%d") as [d|e]; split; reflexivity.
Qed.

(** A deadline 8 days off: the federal plugin says high where the contract
    says medium. *)
Lemma federal_urgency_differs :
  days_until (mkDatetime 2026 11 6 9 30 0 0) "2026-11-15" = Some 8
  /\ FederalPlugin._calculate_federal_urgency (mkDatetime 2026 11 6 9 30 0 0) "2026-11-15"
     = "high"
  /\ contract_urgency (days_until (mkDatetime 2026 11 6 9 30 0 0) "2026-11-15") = "medium"
  /\ FederalPlugin._calculate_federal_urgency (mkDatetime 2026 11 6 9 30 0 0) "2026-11-15"
     <> contract_urgency (days_until (mkDatetime 2026 11 6 9 30 0 0) "2026-11-15").
Proof.
  assert (Hf : FederalPlugin._calculate_federal_urgency (mkDatetime 2026 11 6 9 30 0 0)
                 "2026-11-15" = "high") by (vm_compute; reflexivity).
  assert (Hc : contract_urgency (days_until (mkDatetime 2026 11 6 9 30 0 0) "2026-11-15")
               = "medium") by (vm_compute; reflexivity).
  split; [vm_compute; reflexivity|]. split; [exact Hf|]. split; [exact Hc|].
  rewrite Hf, Hc. discriminate.
Qed.

End Deadlines.


(** ** Scraping session *)

Section SessionRun.

Import Py Datetime Models Session.

#[local] Open Scope Z_scope.

(** The session a run starts with. *)
Definition initial (env : Env) : ScrapeSession :=
  mkSession (session_start env) None "started" 0 "" 0 "automated".

(** A finalised session of the run: end time, duration and a final status. *)
Definition finalized (env : Env) (s : ScrapeSession) : Prop :=
  start_time s = session_start env
  /\ end_time s = Some (session_end env)
  /\ duration_seconds s = micros (session_end env) - micros (session_start env)
  /\ In (status s) ["completed"; "no_data"; "health_check_failed"; "failed"].

Lemma recorded_app (a b : list Event) : recorded (a ++ b) = recorded a ++ recorded b.
Proof. unfold recorded. apply flat_map_app. Qed.

Lemma save_all_not_recorded (env : Env) (opportunities : list RFPOpportunity) :
  recorded (snd (save_all env opportunities)) = [].
Proof.
  induction opportunities as [|opp rest IH]; simpl.
  - reflexivity.
  - destruct (save_all env rest) as [n evs]. simpl in *. exact IH.
Qed.

(** The [try] block hands no session to the persistence collaborator, and
    ends in one of four ways. *)
Lemma body_paths (env : Env) :
  forall r s evs, body env (initial env) = (r, s, evs) ->
    recorded evs = []
    /\ start_time s = session_start env
    /\ match r with
       | Return false => _health_check env = false /\ status s = "health_check_failed"
       | Return true =>
           _health_check env = true
           /\ ((PluginManager.scrape_all_sources (plugins env) (config env) = Return []
                /\ status s = "no_data")
               \/ (PluginManager.scrape_all_sources (plugins env) (config env) <> Return []
                   /\ status s = "completed"))
       | Raise e => _health_check env = true /\ status s = "started"
       end.
Proof.
  intros r s evs. unfold body.
  destruct (_health_check env); cbn [negb].
  2: { intros H. inversion H; subst. simpl. repeat split; reflexivity. }
  destruct (PluginManager.scrape_all_sources (plugins env) (config env)) as [[|o os]|e].
  - intros H. inversion H; subst. simpl. repeat split; try reflexivity.
    left. split; reflexivity.
  - pose proof (save_all_not_recorded env
                  (Scoring._score_opportunities (PluginManager.scoring_section (config env))
                     (scoring_clock env) (o :: os))) as Hsave.
    destruct (save_all env _) as [n saves]. simpl in Hsave.
    destruct (_generate_enhanced_csv_report env _) as [csv_file|e].
    + destruct (send_email_notification env _ csv_file) as [u|e];
        intros H; inversion H; subst; simpl;
        rewrite !recorded_app, Hsave; simpl; repeat split; try reflexivity.
      right. split; [discriminate|reflexivity].
    + intros H; inversion H; subst; simpl.
      rewrite !recorded_app, Hsave; simpl; repeat split; reflexivity.
  - intros H. inversion H; subst. simpl. repeat split; reflexivity.
Qed.

(** The paths of a run. Every run calls [record_scrape_session] once,
    on every path, with the finalised session: end time, duration and a
    final status.  When that call returns: a failed health check gives
    "health_check_failed" and [False]; empty merged results give "no_data"
    and [True]; an exception raised in the [try] block gives "failed", its
    text in [errors], and [False]; otherwise "completed" and [True].  When
    that call raises, the exception is the outcome of the run. *)
Theorem session_paths (env : Env) :
  exists s,
    recorded (snd (run_scraping_session env)) = [s]
    /\ finalized env s
    /\ (forall e, record_scrape_session env s = Raise e ->
                  fst (run_scraping_session env) = Raise e)
    /\ (forall u, record_scrape_session env s = Return u ->
          (_health_check env = false ->
             status s = "health_check_failed"
             /\ fst (run_scraping_session env) = Return false)
          /\ (_health_check env = true ->
              PluginManager.scrape_all_sources (plugins env) (config env) = Return [] ->
              status s = "no_data" /\ fst (run_scraping_session env) = Return true)
          /\ (forall e s0 evs, body env (initial env) = (Raise e, s0, evs) ->
                status s = "failed" /\ errors s = exn_msg e
                /\ fst (run_scraping_session env) = Return false)
          /\ (forall s0 evs, body env (initial env) = (Return true, s0, evs) ->
                PluginManager.scrape_all_sources (plugins env) (config env) <> Return [] ->
                status s = "completed" /\ fst (run_scraping_session env) = Return true)).
Proof.
  unfold run_scraping_session. fold (initial env).
  destruct (body env (initial env)) as [[r s0] evs] eqn:B.
  destruct (body_paths env r s0 evs B) as (Hrec & Hstart & Hpath).
  destruct r as [b|e].
  - (* the [try] block returned *)
    set (s := set_end s0 (session_end env) (micros (session_end env) - micros (session_start env))).
    exists s.
    assert (Hfin : finalized env s).
    { unfold finalized, s. simpl. repeat split; try assumption.
      destruct b.
      - destruct Hpath as [_ [[_ ->]|[_ ->]]]; simpl; tauto.
      - destruct Hpath as [_ ->]; simpl; tauto. }
    destruct (record_scrape_session env s) as [u|e] eqn:R; simpl;
      rewrite recorded_app, Hrec; simpl.
    + split; [reflexivity|]. split; [exact Hfin|]. split; [discriminate|].
      intros u0 _. split; [|split; [|split]].
      * intros Hh. destruct b; [destruct Hpath as [Hh' _]; congruence|].
        destruct Hpath as [_ Hst]. split; [exact Hst|reflexivity].
      * intros Hh Hs. destruct b; [|destruct Hpath; congruence].
        destruct Hpath as [_ [[_ Hst]|[Hne _]]]; [|congruence].
        split; [exact Hst|reflexivity].
      * intros e s0' evs' H. discriminate H.
      * intros s0' evs' H Hne. destruct b; [|discriminate H].
        destruct Hpath as [_ [[Hs _]|[_ Hst]]]; [congruence|].
        split; [exact Hst|reflexivity].
    + split; [reflexivity|]. split; [exact Hfin|]. split.
      * intros e' He'. congruence.
      * intros u Hu. discriminate.
  - (* the [try] block raised: the handler runs *)
    set (s := set_end (set_errors (set_status s0 "failed") (exn_msg e)) (session_end env)
                      (micros (session_end env) - micros (session_start env))).
    exists s.
    assert (Hfin : finalized env s).
    { unfold finalized, s. simpl. repeat split; try assumption. tauto. }
    simpl. fold s.
    destruct (record_scrape_session env s) as [u|e'] eqn:R; simpl;
      rewrite !recorded_app, Hrec; simpl.
    + split; [reflexivity|]. split; [exact Hfin|]. split; [discriminate|].
      intros u0 _. destruct Hpath as [Hh _]. split; [|split; [|split]].
      * intros Hh'. congruence.
      * intros _ Hs. unfold body in B. rewrite Hh, Hs in B. simpl in B. discriminate.
      * intros e0 s0' evs' H. injection H as He _ _. rewrite <- He.
        split; [reflexivity|]. split; reflexivity.
      * intros s0' evs' H. discriminate H.
    + split; [reflexivity|]. split; [exact Hfin|]. split.
      * intros e'' He''. congruence.
      * intros u Hu. discriminate.
Qed.

End SessionRun.


(** ** Concrete runs *)

Section Runs.

Import Py Datetime Models.

#[local] Open Scope Z_scope.

Definition morning : datetime := mkDatetime 2026 11 6 9 30 0 0.

(** *** The throttle on a critical CPU alert *)

Definition cpu_alert : Alerting.Alert :=
  Alerting.mkAlert "critical" "High CPU usage: 97.0%" "cpu_usage" 97%float morning.

Definition both_channels : Alerting.Config :=
  Alerting.mkConfig (Some "rfp@example.gov") (Some "https://hooks.example.com/T0").

(** Transports that work. *)
Definition delivering : Alerting.Transport :=
  Alerting.mkTransport (fun _ => Return tt) (fun _ _ => Return 200).

(** Transports that are down. *)
Definition unreachable : Alerting.Transport :=
  Alerting.mkTransport
    (fun _ => Raise (mkExn "SMTPConnectError" "connection refused"))
    (fun _ _ => Raise (mkExn "ClientConnectorError" "cannot connect to host")).

Definition no_history : Alerting.t := Alerting.mkAlerting ∅ [].

Definition half_past_nine : datetime := mkDatetime 2026 11 6 9 30 0 0.
Definition ten_o_clock : datetime := mkDatetime 2026 11 6 10 0 0 0.
Definition half_past_ten : datetime := mkDatetime 2026 11 6 10 30 0 0.

Lemma throttle_window_witness :
  let st1 := Alerting._send_alert_with_throttling both_channels delivering
               half_past_nine cpu_alert no_history in
  let st2 := Alerting._send_alert_with_throttling both_channels delivering
               ten_o_clock cpu_alert st1 in
  let st3 := Alerting._send_alert_with_throttling both_channels delivering
               half_past_ten cpu_alert st2 in
  (Alerting.throttle_hours "critical" = 1 /\ Alerting.throttle_hours "warning" = 4
   /\ Alerting.throttle_hours "info" = 12)
  /\ Alerting.dispatched st1 = Alerting.dispatched no_history ++ [cpu_alert]
  /\ Alerting.alert_history st1 !! Alerting.alert_key cpu_alert = Some half_past_nine
  /\ st2 = st1
  /\ Alerting.dispatched st3 = Alerting.dispatched no_history ++ [cpu_alert; cpu_alert]
  /\ Alerting.alert_history st3 !! Alerting.alert_key cpu_alert = Some half_past_ten.
Proof.
  apply (throttle_window both_channels delivering delivering delivering
           cpu_alert cpu_alert cpu_alert half_past_nine ten_o_clock half_past_ten
           no_history);
    first [ reflexivity | apply Z.leb_le; vm_compute; reflexivity ].
Defined.

Lemma throttle_records_failed_delivery_witness :
  let st' := Alerting._send_alert_with_throttling both_channels unreachable
               half_past_nine cpu_alert no_history in
  Alerting.events st'
  = Alerting.events no_history
    ++ [Alerting.Dispatch cpu_alert;
        Alerting.Error ("Email alert failed: " +:+ "connection refused");
        Alerting.Error ("Slack alert error: " +:+ "cannot connect to host");
        Alerting.Info ("Alert sent: " +:+ Alerting.severity cpu_alert +:+ " - "
                       +:+ Alerting.message cpu_alert)]
  /\ Alerting.alert_history st' !! Alerting.alert_key cpu_alert = Some half_past_nine
  /\ Alerting._send_alert_with_throttling both_channels delivering ten_o_clock cpu_alert st'
     = st'.
Proof.
  apply (throttle_records_failed_delivery both_channels unreachable delivering cpu_alert
           half_past_nine ten_o_clock no_history
           "rfp@example.gov" "https://hooks.example.com/T0"
           (mkExn "SMTPConnectError" "connection refused")
           (mkExn "ClientConnectorError" "cannot connect to host"));
    reflexivity.
Defined.

(** *** Two plugins, one of which times out *)

Definition record_of (n : Z) : RFPOpportunity :=
  mkOpp ("Notice " +:+ decimal n) "General Services" "TBD" "Not specified" "medium"
        "See posting" ("https://sam.gov/opp/" +:+ decimal n) "" [] n 0%float.

(** Done in two seconds with three records. *)
Definition plugin_a : PluginManager.Plugin :=
  PluginManager.mkPlugin "A"
    (fun _ => PluginManager.mkCoroutine 2000000
                (Return (PluginManager.VList [record_of 1; record_of 2; record_of 3]))).

(** Would be done after ninety seconds. *)
Definition plugin_b : PluginManager.Plugin :=
  PluginManager.mkPlugin "B"
    (fun _ => PluginManager.mkCoroutine 90000000
                (Return (PluginManager.VList [record_of 4]))).

Definition two_plugins : PluginManager.registry :=
  <["A" := plugin_a]> (<["B" := plugin_b]> ∅).

Definition a_and_b : PluginManager.Config :=
  PluginManager.mkConfig (Some (PluginManager.mkPluginsConfig (Some ["A"; "B"]) None)) ∅.

Example one_plugin_times_out :
  PluginManager.scrape_all_sources two_plugins a_and_b
  = Return [record_of 1; record_of 2; record_of 3].
Proof. vm_compute. reflexivity. Qed.

Lemma scrape_all_sources_isolates_failures_witness :
  exists records,
    PluginManager.scrape_all_sources two_plugins a_and_b = Return records
    /\ merged two_plugins a_and_b ["A"] records.
Proof.
  destruct (scrape_all_sources_isolates_failures two_plugins a_and_b)
    as (records & Hret & _ & Hiso).
  exists records. split; [exact Hret|].
  apply (Hiso ["A"] "B" [] plugin_b).
  - reflexivity.
  - vm_compute. reflexivity.
  - left. unfold timed_out. vm_compute. discriminate.
Defined.

Definition database_locked : Exn := mkExn "OperationalError" "database is locked".

(** A run in which everything outside the plugins works. *)
Definition working (plugins : PluginManager.registry) (config : PluginManager.Config)
  : Session.Env :=
  Session.mkEnv half_past_nine (fun _ => half_past_nine) ten_o_clock config plugins
    true (fun _ => true) (fun _ => Return "output/rfp_opportunities.csv")
    (fun _ _ => Return tt) (fun _ => Return tt).

Example one_plugin_times_out_session :
  fst (Session.run_scraping_session (working two_plugins a_and_b)) = Return true
  /\ map (fun s => (Session.status s, Session.opportunities_found s))
         (Session.recorded (snd (Session.run_scraping_session (working two_plugins a_and_b))))
     = [("completed", 3)].
Proof. split; vm_compute; reflexivity. Qed.

(** *** A run that cannot record its session *)

(** No plugin is enabled; the database is locked when the session is
    recorded; [healthy] is the verdict of the health check. *)
Definition cannot_record (healthy : bool) : Session.Env :=
  Session.mkEnv half_past_nine (fun _ => half_past_nine) ten_o_clock
    (PluginManager.mkConfig None ∅) ∅
    healthy (fun _ => false) (fun _ => Return "output/rfp_opportunities.csv")
    (fun _ _ => Return tt) (fun _ => Raise database_locked).

(** C6, where the code departs from it. The health check passes, the merged
    results are empty and the session has status "no_data", yet the run
    does not return success; and whatever the health check says, the error
    of the database is not turned into the failure signal: it is raised
    to the caller, and the session is not stored. *)
Lemma session_record_failure_escapes :
  PluginManager.scrape_all_sources (Session.plugins (cannot_record true))
    (Session.config (cannot_record true)) = Return []
  /\ map Session.status
         (Session.recorded (snd (Session.run_scraping_session (cannot_record true))))
     = ["no_data"]
  /\ fst (Session.run_scraping_session (cannot_record true)) = Raise database_locked
  /\ fst (Session.run_scraping_session (cannot_record true)) <> Return true
  /\ map Session.status
         (Session.recorded (snd (Session.run_scraping_session (cannot_record false))))
     = ["health_check_failed"]
  /\ fst (Session.run_scraping_session (cannot_record false)) = Raise database_locked
  /\ fst (Session.run_scraping_session (cannot_record false)) <> Return false.
Proof.
  assert (Ht : fst (Session.run_scraping_session (cannot_record true)) = Raise database_locked)
    by (vm_compute; reflexivity).
  assert (Hf : fst (Session.run_scraping_session (cannot_record false)) = Raise database_locked)
    by (vm_compute; reflexivity).
  split; [vm_compute; reflexivity|]. split; [vm_compute; reflexivity|].
  split; [exact Ht|]. split; [rewrite Ht; discriminate|].
  split; [vm_compute; reflexivity|]. split; [exact Hf|].
  rewrite Hf. discriminate.
Qed.

(** A run whose e-mail notification raises after three retries. *)
Definition mail_down : Session.Env :=
  Session.mkEnv half_past_nine (fun _ => half_past_nine) ten_o_clock a_and_b two_plugins
    true (fun _ => true) (fun _ => Return "output/rfp_opportunities.csv")
    (fun _ _ => Raise (mkExn "SMTPServerDisconnected" "connection unexpectedly closed"))
    (fun _ => Return tt).

Lemma session_paths_witness :
  exists s,
    Session.recorded (snd (Session.run_scraping_session mail_down)) = [s]
    /\ finalized mail_down s
    /\ Session.status s = "failed"
    /\ Session.errors s = "connection unexpectedly closed"
    /\ fst (Session.run_scraping_session mail_down) = Return false.
Proof.
  destruct (session_paths mail_down) as (s & Hrec & Hfin & _ & Hret).
  exists s. split; [exact Hrec|]. split; [exact Hfin|].
  destruct (Hret tt eq_refl) as (_ & _ & Hraise & _).
  eapply (Hraise (mkExn "SMTPServerDisconnected" "connection unexpectedly closed")).
  vm_compute. reflexivity.
Defined.

End Runs.


(** * Further properties of the code *)

(** ** The identity hash *)

Section HashFormat.

Import Py Models MD5.

#[local] Open Scope Z_scope.

Lemma le_bytes_length (n : nat) (x : Z) : List.length (le_bytes n x) = n.
Proof. revert x. induction n as [|n IH]; intros x; simpl; [reflexivity|]. rewrite IH. reflexivity. Qed.

Lemma le_bytes_range (n : nat) (x : Z) : Forall (fun b => 0 <= b < 256) (le_bytes n x).
Proof.
  revert x. induction n as [|n IH]; intros x; simpl; constructor.
  - apply Z.mod_pos_bound. lia.
  - apply IH.
Qed.

Lemma hex_length (bs : list Z) : String.length (hex bs) = (2 * List.length bs)%nat.
Proof. induction bs as [|b bs IH]; simpl; [reflexivity|]. rewrite IH. lia. Qed.

(** A lower-case hexadecimal digit. *)
Definition hex_digit (c : ascii) : bool := Datetime.one_of "0123456789abcdef" c.

Lemma hex_char_digit (n : Z) : 0 <= n < 16 -> hex_digit (hex_char n) = true.
Proof.
  intros H.
  assert (A : forallb (fun k => hex_digit (hex_char (Z.of_nat k))) (seq 0 16) = true)
    by (vm_compute; reflexivity).
  rewrite forallb_forall in A.
  rewrite <- (Z2Nat.id n) by lia. apply A. apply in_seq. lia.
Qed.

Lemma hex_digits (bs : list Z) :
  Forall (fun b => 0 <= b < 256) bs ->
  Forall (fun c => hex_digit c = true) (list_ascii_of_string (hex bs)).
Proof.
  induction 1 as [|b bs Hb _ IH]; simpl; [constructor|].
  constructor; [|constructor; [|exact IH]].
  - apply hex_char_digit. split; [apply Z.div_pos; lia|apply Z.div_lt_upper_bound; lia].
  - apply hex_char_digit. apply Z.mod_pos_bound. lia.
Qed.

Lemma digest_shape (msg : list Z) :
  List.length (digest msg) = 16%nat /\ Forall (fun b => 0 <= b < 256) (digest msg).
Proof.
  unfold digest. destruct (blocks _ init (pad msg)) as [[[a b] c] d]. split.
  - rewrite !length_app, !le_bytes_length. reflexivity.
  - repeat (apply Forall_app; split); apply le_bytes_range.
Qed.

(** X1. The identity hash of every opportunity is a text of 32 lower-case
    hexadecimal digits. *)
Theorem generate_hash_format (o : RFPOpportunity) :
  String.length (generate_hash o) = 32%nat
  /\ Forall (fun c => hex_digit c = true) (list_ascii_of_string (generate_hash o)).
Proof.
  unfold generate_hash, hexdigest.
  destruct (digest_shape (encode (title o +:+ agency o +:+ deadline o +:+ url o))) as [Hl Hr].
  split.
  - rewrite hex_length, Hl. reflexivity.
  - apply hex_digits. exact Hr.
Qed.

Lemma score_from_identity (cfg : gmap string float) (clock : nat -> Datetime.datetime)
    (opps : list RFPOpportunity) (i : nat) :
  map (fun o => (generate_hash o, title o, agency o, deadline o, value o, urgency o,
                 contact o, url o, description o, keywords o, discovered_at o))
      (Scoring.score_from cfg clock i opps)
  = map (fun o => (generate_hash o, title o, agency o, deadline o, value o, urgency o,
                   contact o, url o, description o, keywords o, discovered_at o)) opps.
Proof.
  revert i. induction opps as [|o opps IH]; intros i; simpl; [reflexivity|].
  rewrite IH. reflexivity.
Qed.

(** X2. Scoring changes nothing but the score: the scored list has the
    opportunities of the input in the same order, each with its identity
    hash and its other fields as they were, whatever the weights and the
    clock. *)
Theorem scoring_keeps_identity (cfg : gmap string float) (clock : nat -> Datetime.datetime)
    (opps : list RFPOpportunity) :
  map (fun o => (generate_hash o, title o, agency o, deadline o, value o, urgency o,
                 contact o, url o, description o, keywords o, discovered_at o))
      (Scoring._score_opportunities cfg clock opps)
  = map (fun o => (generate_hash o, title o, agency o, deadline o, value o, urgency o,
                   contact o, url o, description o, keywords o, discovered_at o)) opps.
Proof. apply score_from_identity. Qed.

End HashFormat.

(** ** The opportunities table *)

Section Table.

Import Py Datetime Models Database.

#[local] Open Scope Z_scope.

(** The table is well formed: one row for a hash, one row for a key, the
    keys are those the counter has given out, and the hash of a row is the
    identity hash of its data. *)
Definition well_formed (db : t) : Prop :=
  List.NoDup (map row_hash (opportunities db))
  /\ List.NoDup (map row_id (opportunities db))
  /\ 0 <= sequence db
  /\ Forall (fun r => 1 <= row_id r <= sequence db) (opportunities db)
  /\ Forall (fun r => row_hash r = generate_hash (row_data r)) (opportunities db).

Lemma NoDup_snoc {X : Type} (l : list X) (x : X) :
  List.NoDup l -> ~ In x l -> List.NoDup (l ++ [x]).
Proof.
  induction l as [|y l IH]; intros Hn Hx; simpl.
  - constructor; [intros []|constructor].
  - inversion Hn as [|? ? Hy Hl]; subst. constructor.
    + rewrite in_app_iff. intros [H|[H|[]]]; [contradiction|].
      apply Hx. left. symmetry. exact H.
    + apply IH; [exact Hl|]. intros H. apply Hx. right. exact H.
Qed.

Lemma NoDup_map_filter {X Y : Type} (f : X -> Y) (p : X -> bool) (l : list X) :
  List.NoDup (map f l) -> List.NoDup (map f (List.filter p l)).
Proof.
  induction l as [|x l IH]; simpl; intros Hn; [constructor|].
  inversion Hn as [|? ? Hx Hl]; subst.
  destruct (p x); simpl; [|apply IH; exact Hl].
  constructor; [|apply IH; exact Hl].
  intros H. apply Hx. apply in_map_iff in H as (y & Hy & Hin).
  apply filter_In in Hin as [Hin _]. apply in_map_iff. exists y. split; assumption.
Qed.

Lemma insert_or_replace_well_formed (data : RFPOpportunity) (now : datetime) (db : t) :
  well_formed db -> well_formed (insert_or_replace (generate_hash data) data now db).
Proof.
  intros (Hh & Hi & Hs & Hr & Hd). unfold well_formed, insert_or_replace. simpl.
  rewrite !map_app. simpl.
  rewrite List.Forall_forall in Hr. rewrite List.Forall_forall in Hd.
  split; [|split; [|split; [|split]]].
  - apply NoDup_snoc; [apply NoDup_map_filter; exact Hh|].
    intros H. apply in_map_iff in H as (r & Hr' & Hin).
    apply filter_In in Hin as [_ Hne]. rewrite Hr', String.eqb_refl in Hne. discriminate.
  - apply NoDup_snoc; [apply NoDup_map_filter; exact Hi|].
    intros H. apply in_map_iff in H as (r & Hr' & Hin).
    apply filter_In in Hin as [Hin _]. specialize (Hr r Hin). simpl in Hr. lia.
  - lia.
  - apply List.Forall_forall. intros r Hin. apply in_app_iff in Hin as [Hin|[<-|[]]].
    + apply filter_In in Hin as [Hin _]. specialize (Hr r Hin). simpl in Hr. lia.
    + simpl. lia.
  - apply List.Forall_forall. intros r Hin. apply in_app_iff in Hin as [Hin|[<-|[]]].
    + apply filter_In in Hin as [Hin _]. apply Hd. exact Hin.
    + reflexivity.
Qed.

Lemma save_opportunity_well_formed (fault : option Exn) (now : datetime)
    (opp : RFPOpportunity) (db : t) :
  well_formed db -> well_formed (fst (save_opportunity fault now opp db)).
Proof.
  intros H. unfold save_opportunity. destruct fault; simpl; [exact H|].
  apply insert_or_replace_well_formed. exact H.
Qed.

Lemma save_each_well_formed (calls : list (option Exn * datetime * RFPOpportunity)) :
  forall db, well_formed db -> well_formed (fst (save_each calls db)).
Proof.
  induction calls as [|[[fault now] opp] calls IH]; intros db H; simpl; [exact H|].
  pose proof (save_opportunity_well_formed fault now opp db H) as H1.
  destruct (save_opportunity fault now opp db) as [db1 ok]. simpl in H1.
  specialize (IH db1 H1). destruct (save_each calls db1) as [db2 oks]. exact IH.
Qed.

Lemma empty_well_formed : well_formed empty.
Proof.
  unfold well_formed, empty. simpl.
  split; [constructor|]. split; [constructor|]. split; [lia|]. split; constructor.
Qed.

(** X3. Whatever opportunities are saved into a new table, in whatever
    order and with whatever failures between them, the table keeps one row
    for an identity hash and one row for a key, every key is one the
    counter has given out, and the hash of each row is the identity hash
    of the data in it. *)
Theorem saves_keep_table_well_formed
    (calls : list (option Exn * datetime * RFPOpportunity)) :
  well_formed (fst (save_each calls empty)).
Proof. apply save_each_well_formed. apply empty_well_formed. Qed.

Lemma select_kept (h h' : string) (rows : list OpportunityRow) :
  List.filter (fun r => String.eqb (row_hash r) h')
              (List.filter (fun r => negb (String.eqb (row_hash r) h)) rows)
  = if String.eqb h h' then [] else List.filter (fun r => String.eqb (row_hash r) h') rows.
Proof.
  induction rows as [|r rows IH]; simpl.
  - destruct (String.eqb h h'); reflexivity.
  - destruct (String.eqb (row_hash r) h) eqn:E1; simpl.
    + apply String.eqb_eq in E1. rewrite IH, E1.
      destruct (String.eqb h h'); reflexivity.
    + destruct (String.eqb (row_hash r) h') eqn:E2; rewrite IH.
      * apply String.eqb_eq in E2. rewrite <- E2.
        rewrite String.eqb_sym, E1. reflexivity.
      * destruct (String.eqb h h'); reflexivity.
Qed.

(** X4. A save that succeeds answers [True] and leaves exactly one row with
    the hash of the opportunity: the opportunity as saved now, all its
    columns including [discovered_at], with the time of this save, status
    "active" and no notification time, whatever the row it replaces had;
    the rows of every other hash are as before.  A save that fails answers
    [False] and changes nothing. *)
Theorem save_opportunity_last_write_wins (now : datetime) (opp : RFPOpportunity)
    (db : t) (e : Exn) :
  (let '(db', ok) := save_opportunity None now opp db in
   ok = true
   /\ select_hash (generate_hash opp) db'
      = [mkRow (sequence db + 1) (generate_hash opp) opp now "active" None None]
   /\ forall h, h <> generate_hash opp -> select_hash h db' = select_hash h db)
  /\ save_opportunity (Some e) now opp db = (db, false).
Proof.
  split; [|reflexivity].
  unfold save_opportunity, insert_or_replace, select_hash. simpl.
  split; [reflexivity|]. split.
  - rewrite List.filter_app, select_kept, String.eqb_refl. simpl.
    rewrite String.eqb_refl. reflexivity.
  - intros h Hne. rewrite List.filter_app, select_kept. simpl.
    destruct (String.eqb (generate_hash opp) h) eqn:E.
    + apply String.eqb_eq in E. congruence.
    + rewrite app_nil_r. reflexivity.
Qed.

(** X5. The identity hash reads the four identity fields as one text: two
    opportunities whose title, agency, deadline and URL give the same text
    when put end to end have the same hash, and saving the second replaces
    the row of the first. *)
Theorem same_text_one_row (a b : RFPOpportunity) (t1 t2 : datetime) (db : t) :
  title a +:+ agency a +:+ deadline a +:+ url a
  = title b +:+ agency b +:+ deadline b +:+ url b ->
  generate_hash a = generate_hash b
  /\ select_hash (generate_hash a)
       (fst (save_opportunity None t2 b (fst (save_opportunity None t1 a db))))
     = [mkRow (sequence db + 2) (generate_hash b) b t2 "active" None None].
Proof.
  intros H.
  assert (Hh : generate_hash a = generate_hash b).
  { unfold generate_hash. rewrite H. reflexivity. }
  split; [exact Hh|]. rewrite Hh.
  unfold save_opportunity, insert_or_replace, select_hash. simpl.
  rewrite List.filter_app, select_kept, String.eqb_refl. simpl.
  rewrite String.eqb_refl. f_equal. f_equal. lia.
Qed.

Definition boundary_a : RFPOpportunity :=
  mkOpp "Cloud" "Services Agency" "TBD" "Not specified" "medium" "See posting"
        "https://example.gov/rfps" "" [] 1 0%float.

Definition boundary_b : RFPOpportunity :=
  mkOpp "CloudServices" " Agency" "TBD" "$4M" "high" "See posting"
        "https://example.gov/rfps" "Another notice" [] 2 0%float.

Lemma same_text_one_row_witness :
  title boundary_a <> title boundary_b
  /\ generate_hash boundary_a = generate_hash boundary_b
  /\ select_hash (generate_hash boundary_a)
       (fst (save_opportunity None (mkDatetime 2026 11 6 10 0 0 0) boundary_b
          (fst (save_opportunity None (mkDatetime 2026 11 6 9 0 0 0) boundary_a empty))))
     = [mkRow (sequence empty + 2) (generate_hash boundary_b) boundary_b
              (mkDatetime 2026 11 6 10 0 0 0) "active" None None].
Proof.
  split; [discriminate|].
  apply (same_text_one_row boundary_a boundary_b (mkDatetime 2026 11 6 9 0 0 0)
           (mkDatetime 2026 11 6 10 0 0 0) empty).
  reflexivity.
Defined.

End Table.

(** ** Bounds of the scores *)

Section ScoreBounds.

Import Py Datetime Models Scoring.

(** The tests of the rule-based scorer on the texts of [opp], as booleans. *)
Ltac score_signals opp :=
  generalize (String.eqb (lower (urgency opp)) "high");
  generalize (String.eqb (lower (urgency opp)) "medium");
  generalize (contains "million" (lower (value opp)));
  generalize (any_in ["thousand"; "k"] (lower (value opp)));
  generalize (contains "payment" (lower (title opp)));
  generalize (contains "payment" (lower (description opp)));
  generalize (contains "fintech" (lower (title opp)));
  generalize (contains "fintech" (lower (description opp)));
  generalize (contains "technology" (lower (title opp)));
  generalize (contains "technology" (lower (description opp)));
  generalize (contains "digital" (lower (title opp)));
  generalize (contains "digital" (lower (description opp)));
  generalize (contains "software" (lower (title opp)));
  generalize (contains "software" (lower (description opp))).

Lemma andb_both (a b : bool) : a && b = true -> a = true /\ b = true.
Proof. destruct a, b; simpl; intros H; try discriminate; split; reflexivity. Qed.

(** X6. The fallback score is never below 1.0 and never above 8.5: the cap
    at 10.0 is never reached. *)
Theorem fallback_score_bounds (float_of_numeral : string -> float) (opp : RFPOpportunity) :
  (1 <=? _fallback_scoring float_of_numeral opp)%float = true
  /\ (_fallback_scoring float_of_numeral opp <=? 8.5)%float = true.
Proof.
  apply andb_both.
  unfold _fallback_scoring, urgency_scores. cbv zeta.
  rewrite fallback_loop_hits. unfold fallback_keywords. cbn [map].
  generalize (_extract_numeric_value float_of_numeral (value opp)). intros v.
  generalize (1000000 <? v)%float. generalize (100000 <? v)%float.
  generalize (10000 <? v)%float.
  generalize (String.eqb (lower (urgency opp)) "high").
  generalize (String.eqb (lower (urgency opp)) "medium").
  generalize (String.eqb (lower (urgency opp)) "low").
  generalize (lower (title opp +:+ " " +:+ description opp)). intros text.
  generalize (contains "technology" text). generalize (contains "software" text).
  generalize (contains "digital" text). generalize (contains "payment" text).
  generalize (contains "fintech" text).
  apply (ball_spec 11). vm_compute. reflexivity.
Qed.

(** No relevance keyword occurs in the title or the description. *)
Definition no_keyword (opp : RFPOpportunity) : Prop :=
  forall k, In k relevant_keywords ->
    contains k (lower (title opp)) = false
    /\ contains k (lower (description opp)) = false.

(** Every relevance keyword occurs in the title and in the description. *)
Definition every_keyword (opp : RFPOpportunity) : Prop :=
  forall k, In k relevant_keywords ->
    contains k (lower (title opp)) = true
    /\ contains k (lower (description opp)) = true.

Ltac keyword_facts H :=
  destruct (H "payment") as [? ?]; [simpl; tauto|];
  destruct (H "fintech") as [? ?]; [simpl; tauto|];
  destruct (H "technology") as [? ?]; [simpl; tauto|];
  destruct (H "digital") as [? ?]; [simpl; tauto|];
  destruct (H "software") as [? ?]; [simpl; tauto|].

Ltac rewrite_keywords :=
  repeat match goal with
         | H : contains _ _ = _ |- _ => rewrite H; clear H
         end.

(** X7. With the default weights the rule-based score is at least 0.99, the
    least urgency contribution, so that no scored opportunity keeps the
    initial 0.0; and an opportunity without a relevance keyword in title
    and description scores at most 7.0. *)
Theorem rule_score_bounds (now : datetime) (opp : RFPOpportunity) :
  (0.99 <=? rule_score ∅ now opp)%float = true
  /\ (no_keyword opp -> (rule_score ∅ now opp <=? 7)%float = true).
Proof.
  split.
  - unfold rule_score. cbv zeta.
    rewrite !get_default, keyword_loop_hits.
    unfold hits, relevant_keywords. cbn [map].
    destruct (strptime (deadline opp) "%Y-%m-%d") as [deadline_date|e].
    + generalize (sub_days deadline_date now <=? 7)%Z.
      generalize (sub_days deadline_date now <=? 30)%Z.
      score_signals opp. apply (ball_spec 16). vm_compute. reflexivity.
    + score_signals opp. apply (ball_spec 14). vm_compute. reflexivity.
  - intros H. keyword_facts H.
    unfold rule_score. cbv zeta.
    rewrite !get_default, keyword_loop_hits.
    unfold hits, relevant_keywords. cbn [map]. rewrite_keywords.
    destruct (strptime (deadline opp) "%Y-%m-%d") as [deadline_date|e].
    + generalize (sub_days deadline_date now <=? 7)%Z.
      generalize (sub_days deadline_date now <=? 30)%Z.
      score_signals opp. apply (ball_spec 16). vm_compute. reflexivity.
    + score_signals opp. apply (ball_spec 14). vm_compute. reflexivity.
Qed.

Definition plain_opp : RFPOpportunity :=
  mkOpp "Road resurfacing" "County of Kent" "TBD" "Not specified" "low" "See posting"
        "https://example.gov/bids/7" "Asphalt works on county roads" [] 0 0%float.

Lemma rule_score_bounds_witness :
  (rule_score ∅ (mkDatetime 2026 11 6 9 0 0 0) plain_opp <=? 7)%float = true.
Proof.
  apply (proj2 (rule_score_bounds (mkDatetime 2026 11 6 9 0 0 0) plain_opp)).
  intros k Hk. simpl in Hk.
  destruct Hk as [<-|[<-|[<-|[<-|[<-|[]]]]]]; split; vm_compute; reflexivity.
Defined.

(** X8. An opportunity with every relevance keyword in its title and in its
    description scores exactly 10.0 with the default weights, whatever its
    urgency, value and deadline: the sum is over the cap. *)
Theorem rule_score_saturates (now : datetime) (opp : RFPOpportunity) :
  every_keyword opp -> rule_score ∅ now opp = 10%float.
Proof.
  intros H. keyword_facts H.
  unfold rule_score. cbv zeta.
  rewrite !get_default, keyword_loop_hits.
  unfold hits, relevant_keywords. cbn [map]. rewrite_keywords.
  destruct (strptime (deadline opp) "%Y-%m-%d") as [deadline_date|e];
    [destruct (sub_days deadline_date now <=? 7)%Z;
     destruct (sub_days deadline_date now <=? 30)%Z|];
    destruct (String.eqb (lower (urgency opp)) "high");
    destruct (String.eqb (lower (urgency opp)) "medium");
    destruct (contains "million" (lower (value opp)));
    destruct (any_in ["thousand"; "k"] (lower (value opp)));
    vm_compute; reflexivity.
Qed.

Definition keyword_opp : RFPOpportunity :=
  mkOpp "Digital payment software and fintech technology" "Treasury" "TBD"
        "Not specified" "low" "See posting" "https://example.gov/bids/8"
        "Technology for digital payment: fintech software" [] 0 0%float.

Lemma rule_score_saturates_witness :
  rule_score ∅ (mkDatetime 2026 11 6 9 0 0 0) keyword_opp = 10%float.
Proof.
  apply (rule_score_saturates (mkDatetime 2026 11 6 9 0 0 0) keyword_opp).
  intros k Hk. simpl in Hk.
  destruct Hk as [<-|[<-|[<-|[<-|[<-|[]]]]]]; split; vm_compute; reflexivity.
Defined.

Lemma default_weight (key : string) (w : float) :
  In (key, w) [("urgency_weight", 3.0%float); ("value_weight", 2.0%float);
               ("keyword_weight", 1.5%float); ("deadline_weight", 2.0%float)] ->
  get ConfigManager.default_scoring key w = w.
Proof.
  simpl. intros [H|[H|[H|[H|[]]]]]; inversion H; subst; vm_compute; reflexivity.
Qed.

(** X9. The default configuration changes nothing for the scorer and the
    orchestrator: its scoring weights are the weights the scorer uses when
    the section is missing, so that every opportunity gets the same score,
    and its plugin timeout is the 60 seconds used when the option is
    missing. *)
Theorem default_config_is_fallback (now : datetime) (opp : RFPOpportunity) :
  rule_score (PluginManager.scoring_section ConfigManager._create_default_config) now opp
  = rule_score ∅ now opp
  /\ PluginManager.get_plugin_timeout ConfigManager._create_default_config
     = PluginManager.get_plugin_timeout (PluginManager.mkConfig None ∅).
Proof.
  split; [|reflexivity].
  unfold rule_score. cbv zeta. cbn [PluginManager.scoring_section ConfigManager._create_default_config].
  rewrite !get_default.
  rewrite !default_weight by (simpl; tauto).
  reflexivity.
Qed.

Lemma isdigit_lower (c : ascii) : isdigit (lower_char c) = isdigit c.
Proof. destruct c as [[] [] [] [] [] [] [] []]; vm_compute; reflexivity. Qed.

Lemma no_digit_lower (s : string) :
  Values.any_char isdigit (lower s) = Values.any_char isdigit s.
Proof. induction s as [|c s IH]; simpl; [reflexivity|]. rewrite isdigit_lower, IH. reflexivity. Qed.

Lemma no_digit_remove (old : ascii) (s : string) :
  Values.any_char isdigit s = false ->
  Values.any_char isdigit (remove_char old s) = false.
Proof.
  induction s as [|c s IH]; simpl; [reflexivity|]. intros H.
  apply orb_false_iff in H as [Hc Hs].
  destruct (Ascii.eqb c old); simpl; [apply IH; exact Hs|].
  rewrite Hc. apply IH. exact Hs.
Qed.

Lemma no_digit_no_number (s : string) :
  Values.any_char isdigit s = false -> first_number s = None.
Proof.
  induction s as [|c s IH]; simpl; [reflexivity|]. intros H.
  apply orb_false_iff in H as [Hc Hs]. rewrite Hc. apply IH. exact Hs.
Qed.

(** X10. A value text without a decimal digit, such as "Not specified", is
    worth 0 to the scorer of the ML module, whatever words it has, so that
    it adds nothing to the fallback score. *)
Theorem value_without_digit (float_of_numeral : string -> float) (value_str : string) :
  Values.any_char isdigit value_str = false ->
  _extract_numeric_value float_of_numeral value_str = 0%float.
Proof.
  intros H. unfold _extract_numeric_value.
  destruct (is_empty value_str); [reflexivity|].
  rewrite no_digit_no_number; [reflexivity|].
  apply no_digit_remove, no_digit_remove. rewrite no_digit_lower. exact H.
Qed.

Lemma value_without_digit_witness :
  _extract_numeric_value (fun _ => 1%float) "Not specified (multi-million programme)"
  = 0%float.
Proof.
  apply (value_without_digit (fun _ => 1%float)). vm_compute. reflexivity.
Defined.

End ScoreBounds.

(** ** Keywords and value texts of the plugins *)

Section PluginTexts.

Import Py.

Lemma lower_char_idempotent (c : ascii) : lower_char (lower_char c) = lower_char c.
Proof. destruct c as [[] [] [] [] [] [] [] []]; vm_compute; reflexivity. Qed.

Lemma lower_idempotent (s : string) : lower (lower s) = lower s.
Proof.
  induction s as [|c s IH]; simpl; [reflexivity|].
  rewrite lower_char_idempotent, IH. reflexivity.
Qed.

Lemma tech_terms_distinct : List.NoDup BasePlugin.tech_terms.
Proof.
  unfold BasePlugin.tech_terms.
  repeat (constructor; [simpl; intuition discriminate|]). constructor.
Qed.

(** X11. The keywords extracted from a text have no duplicates; they are
    exactly the technical terms that occur in the text when its case is
    ignored, in the order of the vocabulary; and the case of the text makes
    no difference. *)
Theorem extract_keywords_set (text : string) :
  List.NoDup (BasePlugin.extract_keywords text)
  /\ (forall k, In k (BasePlugin.extract_keywords text)
                <-> In k BasePlugin.tech_terms /\ contains k (lower text) = true)
  /\ sublist (BasePlugin.extract_keywords text) BasePlugin.tech_terms
  /\ BasePlugin.extract_keywords (lower text) = BasePlugin.extract_keywords text.
Proof.
  unfold BasePlugin.extract_keywords. cbv zeta. split; [|split; [|split]].
  - apply List.NoDup_filter. apply tech_terms_distinct.
  - intros k. rewrite filter_In. reflexivity.
  - generalize BasePlugin.tech_terms. intros l.
    induction l as [|x l IH]; simpl; [constructor|].
    destruct (contains x (lower text)); [apply sublist_skip|apply sublist_cons]; exact IH.
  - rewrite lower_idempotent. reflexivity.
Qed.

(** The character [x] occurs in [s]. *)
Definition has_char (x : ascii) (s : string) : bool :=
  Values.any_char (fun c => Ascii.eqb c x) s.

Lemma remove_char_gone (old : ascii) (s : string) :
  has_char old (Scoring.remove_char old s) = false.
Proof.
  unfold has_char. induction s as [|c s IH]; simpl; [reflexivity|].
  destruct (Ascii.eqb c old) eqn:E; simpl; [exact IH|]. rewrite E. exact IH.
Qed.

Lemma remove_char_keeps_absent (x old : ascii) (s : string) :
  has_char x s = false -> has_char x (Scoring.remove_char old s) = false.
Proof.
  unfold has_char. induction s as [|c s IH]; simpl; [reflexivity|]. intros H.
  apply orb_false_iff in H as [Hc Hs].
  destruct (Ascii.eqb c old); simpl; [apply IH; exact Hs|].
  rewrite Hc. apply IH. exact Hs.
Qed.

Lemma startswith_dollar (s : string) : has_char "$" s = false -> startswith "$" s = false.
Proof.
  unfold has_char. destruct s as [|c s]; [reflexivity|].
  cbn [Values.any_char]. intros H. apply orb_false_iff in H as [Hc _].
  change (startswith "$" (String c s)) with (Ascii.eqb "$" c && startswith "" s).
  rewrite Ascii.eqb_sym, Hc. reflexivity.
Qed.

(** X12. The normalised value text of a text that is not empty has no
    comma; it starts with a dollar sign exactly when it has a digit, and
    has no other dollar sign.  The empty text gives "Not specified". *)
Theorem parse_value_shape (value_text : string) :
  Values.parse_value "" = "Not specified"
  /\ (value_text <> "" ->
      has_char "," (Values.parse_value value_text) = false
      /\ startswith "$" (Values.parse_value value_text)
         = Values.any_char Values.str_isdigit (Values.parse_value value_text)
      /\ forall rest, Values.parse_value value_text = String "$" rest ->
                      has_char "$" rest = false).
Proof.
  split; [reflexivity|]. intros Hne.
  unfold Values.parse_value. rewrite (not_empty _ Hne).
  set (body := Scoring.remove_char "," (Scoring.remove_char "$" (strip value_text))).
  assert (Hc : has_char "," body = false) by apply remove_char_gone.
  assert (Hd : has_char "$" body = false).
  { apply remove_char_keeps_absent. apply remove_char_gone. }
  rewrite (startswith_dollar body Hd). cbn [negb].
  destruct (Values.any_char Values.str_isdigit body) eqn:E.
  - split; [|split].
    + unfold has_char in *. simpl. exact Hc.
    + simpl. exact (eq_sym E).
    + intros rest Hr. simpl in Hr. inversion Hr. subst. exact Hd.
  - split; [exact Hc|]. split.
    + rewrite (startswith_dollar body Hd), E. reflexivity.
    + intros rest Hr. rewrite Hr in Hd. unfold has_char in Hd. simpl in Hd. discriminate.
Qed.

Lemma parse_value_shape_witness :
  Values.parse_value " $1,200,000 " = "$1200000"
  /\ has_char "," (Values.parse_value " $1,200,000 ") = false.
Proof.
  split; [vm_compute; reflexivity|].
  apply (proj2 (parse_value_shape " $1,200,000 ")). discriminate.
Defined.

End PluginTexts.

(** ** Dates: rendering and parsing again *)

Section DateRoundTrip.

Import Py Datetime.

#[local] Open Scope Z_scope.

(** A date the constructor [datetime] accepts. *)
Definition valid_date (y m d : Z) : Prop :=
  1 <= y <= 9999 /\ 1 <= m <= 12 /\ 1 <= d <= days_in_month y m.

Lemma between_true (lo hi n : Z) : lo <= n <= hi -> between lo hi n = true.
Proof. intros [H1 H2]. unfold between. apply andb_true_iff. split; apply Z.leb_le; assumption. Qed.

Lemma between_inv (lo hi n : Z) : between lo hi n = true -> lo <= n <= hi.
Proof. unfold between. intros H. apply andb_true_iff in H as [H1 H2]. split; apply Z.leb_le; assumption. Qed.

Lemma make_valid (y m d H M S : Z) (dt : datetime) :
  make y m d H M S = Return dt ->
  valid_date y m d /\ dt = mkDatetime y m d H M S 0.
Proof.
  unfold make, valid_date.
  destruct (between 1 9999 y) eqn:Ey; [|discriminate].
  destruct (between 1 12 m) eqn:Em; [|discriminate].
  destruct (between 1 (days_in_month y m) d) eqn:Ed; [|discriminate].
  destruct (between 0 23 H); [|discriminate].
  destruct (between 0 59 M); [|discriminate].
  destruct (between 0 59 S); [|discriminate].
  simpl. intros E. inversion E.
  apply between_inv in Ey, Em, Ed. repeat split; lia.
Qed.

(** What [strptime] returns is a date the calendar has. *)
Lemma strptime_valid (data fmt : string) (dt : datetime) :
  strptime data fmt = Return dt -> valid_date (year dt) (month dt) (day dt).
Proof.
  unfold strptime.
  destruct (pattern fmt) as [p|]; [|discriminate].
  destruct (match_items p data) as [|[caps rest] others]; [discriminate|].
  destruct (is_empty rest); [|discriminate].
  intros H. apply make_valid in H as [Hv ->]. exact Hv.
Qed.

(** The year of a rendered date, when it has four digits. *)
Definition year_check (y : Z) : bool :=
  match decimal y with
  | String a (String b (String c (String e EmptyString))) =>
      isdigit a && isdigit b && isdigit c && isdigit e
      && (int_of (String a (String b (String c (String e EmptyString)))) =? y)
  | _ => false
  end.

Definition four_digit_years : list Z :=
  map (fun n => 1000 + Z.of_nat n) (seq 0 (Z.to_nat 9000)).

Lemma years_checked : forallb year_check four_digit_years = true.
Proof. vm_compute. reflexivity. Qed.

Lemma year_checked (y : Z) : 1000 <= y <= 9999 -> year_check y = true.
Proof.
  intros H. pose proof years_checked as C. rewrite forallb_forall in C. apply C.
  unfold four_digit_years. apply in_map_iff. exists (Z.to_nat (y - 1000)). split; [lia|].
  apply in_seq. lia.
Qed.

(** The rest of a rendered date: month and day. *)
Definition month_day (m d : Z) : string := "-" +:+ decimal2 m +:+ "-" +:+ decimal2 d.

Definition month_day_check (md : Z * Z) : bool :=
  let '(m, d) := md in
  match match_items [Lit "-"; Dir dm; Lit "-"; Dir dd] (month_day m d) with
  | ([(dm, sm); (dd, sd)], EmptyString) :: _ =>
      (int_of sm =? m) && (int_of sd =? d)
      && String.eqb (rstrip (month_day m d)) (month_day m d)
      && negb (is_empty (month_day m d))
  | _ => false
  end.

Definition months_days : list (Z * Z) :=
  list_prod (map Z.of_nat (seq 1 12)) (map Z.of_nat (seq 1 31)).

Lemma months_days_checked : forallb month_day_check months_days = true.
Proof. vm_compute. reflexivity. Qed.

Lemma month_day_checked (m d : Z) :
  1 <= m <= 12 -> 1 <= d <= 31 -> month_day_check (m, d) = true.
Proof.
  intros Hm Hd. pose proof months_days_checked as C. rewrite forallb_forall in C. apply C.
  unfold months_days. apply in_prod; apply in_map_iff.
  - exists (Z.to_nat m). split; [lia|]. apply in_seq. lia.
  - exists (Z.to_nat d). split; [lia|]. apply in_seq. lia.
Qed.

Lemma days_in_month_31 (y m : Z) : days_in_month y m <= 31.
Proof.
  unfold days_in_month.
  destruct (m =? 2); [destruct (is_leap y); lia|].
  destruct ((m =? 4) || (m =? 6) || (m =? 9) || (m =? 11)); lia.
Qed.

Lemma match_year (a b c e : ascii) (rest : string) (p : list item) :
  isdigit a = true -> isdigit b = true -> isdigit c = true -> isdigit e = true ->
  match_items (Dir dY :: p) (String a (String b (String c (String e rest))))
  = map (fun '(caps, r) =>
           ((dY, String a (String b (String c (String e EmptyString)))) :: caps, r))
        (match_items p rest).
Proof.
  intros Ha Hb Hc He.
  cbn [match_items alternatives flat_map match_classes].
  rewrite Ha, Hb, Hc, He. rewrite app_nil_r. reflexivity.
Qed.

(** The text [strftime] writes is read back by [strptime]. *)
Lemma strptime_rendered (y m d H M S us : Z) :
  1000 <= y -> valid_date y m d ->
  strptime (strftime_ymd (mkDatetime y m d H M S us)) "%Y-%m-%d"
  = Return (mkDatetime y m d 0 0 0 0).
Proof.
  intros Hy (Hy' & Hm & Hd).
  pose proof (days_in_month_31 y m) as H31.
  pose proof (year_checked y (conj Hy (proj2 Hy'))) as Cy.
  pose proof (month_day_checked m d Hm (conj (proj1 Hd) (Z.le_trans _ _ _ (proj2 Hd) H31))) as Cmd.
  unfold strftime_ymd. cbn [year month day]. fold (month_day m d).
  unfold year_check in Cy.
  destruct (decimal y) as [|a [|b [|c [|e [|? ?]]]]]; try discriminate.
  apply andb_true_iff in Cy as [Cy Hint]. apply andb_true_iff in Cy as [Cy He].
  apply andb_true_iff in Cy as [Cy Hc]. apply andb_true_iff in Cy as [Ha Hb].
  apply Z.eqb_eq in Hint.
  unfold strptime.
  change (pattern "%Y-%m-%d") with (Some [Dir dY; Lit "-"; Dir dm; Lit "-"; Dir dd]).
  cbv iota beta.
  change (String a (String b (String c (String e EmptyString))) +:+ month_day m d)
    with (String a (String b (String c (String e (month_day m d))))).
  rewrite (match_year a b c e _ _ Ha Hb Hc He).
  unfold month_day_check in Cmd.
  destruct (match_items [Lit "-"; Dir dm; Lit "-"; Dir dd] (month_day m d))
    as [|[caps rest] others]; [discriminate|].
  destruct caps as [|[d1 sm] [|[d2 sd] [|? ?]]]; try discriminate;
    destruct d1; try discriminate; destruct d2; try discriminate.
  destruct rest; [|discriminate].
  apply andb_true_iff in Cmd as [Cmd _]. apply andb_true_iff in Cmd as [Cmd _].
  apply andb_true_iff in Cmd as [Hsm Hsd].
  apply Z.eqb_eq in Hsm. apply Z.eqb_eq in Hsd.
  cbn [map is_empty fold_left store defaults f_year f_month f_day f_hour f_minute f_second].
  rewrite Hint, Hsm, Hsd. unfold make.
  rewrite (between_true 1 9999 y), (between_true 1 12 m),
    (between_true 1 (days_in_month y m) d) by lia.
  reflexivity.
Qed.

(** X13. Rendering and parsing are inverse on the dates with a year of four
    digits: [strptime] with [%Y-%m-%d] reads the text [strftime] writes
    with the same format as the same date, at midnight. *)
Theorem strptime_strftime (y m d H M S us : Z) :
  1000 <= y -> valid_date y m d ->
  strptime (strftime_ymd (mkDatetime y m d H M S us)) "%Y-%m-%d"
  = Return (mkDatetime y m d 0 0 0 0).
Proof. apply strptime_rendered. Qed.

Lemma strptime_strftime_witness :
  strptime (strftime_ymd (mkDatetime 2028 2 29 17 45 0 0)) "%Y-%m-%d"
  = Return (mkDatetime 2028 2 29 0 0 0 0).
Proof.
  apply (strptime_strftime 2028 2 29 17 45 0 0); [lia|].
  unfold valid_date. vm_compute. intuition discriminate.
Defined.

End DateRoundTrip.

Section DateNormalForm.

Import Py Datetime.

#[local] Open Scope Z_scope.

Lemma digit_not_space (c : ascii) : isdigit c = true -> isspace c = false.
Proof. destruct c as [[] [] [] [] [] [] [] []]; vm_compute; intros H; congruence. Qed.

Lemma rstrip_cons (c : ascii) (t : string) :
  rstrip t = t -> is_empty t = false -> rstrip (String c t) = String c t.
Proof.
  intros Ht Hne. cbn [rstrip]. rewrite Ht. destruct t; [discriminate|reflexivity].
Qed.

(** A rendered date with a year of four digits has no blank at its ends, and
    is not empty. *)
Lemma rendered_stripped (y m d H M S us : Z) :
  1000 <= y -> valid_date y m d ->
  strip (strftime_ymd (mkDatetime y m d H M S us)) = strftime_ymd (mkDatetime y m d H M S us)
  /\ is_empty (strftime_ymd (mkDatetime y m d H M S us)) = false.
Proof.
  intros Hy (Hy' & Hm & Hd).
  pose proof (days_in_month_31 y m) as H31.
  pose proof (year_checked y (conj Hy (proj2 Hy'))) as Cy.
  pose proof (month_day_checked m d Hm (conj (proj1 Hd) (Z.le_trans _ _ _ (proj2 Hd) H31))) as Cmd.
  unfold strftime_ymd. cbn [year month day]. fold (month_day m d).
  unfold year_check in Cy.
  destruct (decimal y) as [|a [|b [|c [|e [|? ?]]]]]; try discriminate.
  apply andb_true_iff in Cy as [Cy _]. apply andb_true_iff in Cy as [Cy He].
  apply andb_true_iff in Cy as [Cy Hc]. apply andb_true_iff in Cy as [Ha Hb].
  change (String a (String b (String c (String e EmptyString))) +:+ month_day m d)
    with (String a (String b (String c (String e (month_day m d))))).
  unfold month_day_check in Cmd.
  destruct (match_items [Lit "-"; Dir dm; Lit "-"; Dir dd] (month_day m d))
    as [|[caps rest] others]; [discriminate|].
  destruct caps as [|[d1 sm] [|[d2 sd] [|? ?]]]; try discriminate;
    destruct d1; try discriminate; destruct d2; try discriminate.
  destruct rest; [|discriminate].
  apply andb_true_iff in Cmd as [Cmd Hne]. apply andb_true_iff in Cmd as [_ Hr].
  apply String.eqb_eq in Hr. apply negb_true_iff in Hne.
  split; [|reflexivity].
  unfold strip. cbn [lstrip]. rewrite (digit_not_space a Ha).
  repeat (rewrite rstrip_cons; [|try assumption|try reflexivity]); try reflexivity.
  all: try (apply rstrip_cons; try reflexivity; try assumption).
Qed.

(** The loop over the formats ends with a rendered date or falls through:
    it raises nothing. *)
Lemma try_formats_outcome (fmts : list string) (text : string) :
  FederalPlugin.try_formats fmts text = Return None
  \/ exists fmt parsed,
       In fmt fmts /\ strptime text fmt = Return parsed
       /\ FederalPlugin.try_formats fmts text = Return (Some (strftime_ymd parsed)).
Proof.
  induction fmts as [|fmt fmts IH]; simpl; [left; reflexivity|].
  destruct (strptime text fmt) as [parsed|e] eqn:E.
  - right. exists fmt, parsed. repeat split; [left; reflexivity|exact E].
  - rewrite (strptime_raises_value_error _ _ _ E). simpl.
    destruct IH as [IH|(f & p & Hin & Hp & IH)]; [left; exact IH|].
    right. exists f, p. repeat split; [right; exact Hin|exact Hp|exact IH].
Qed.

(** A rendered date is a fixed point of the normalisation. *)
Lemma parse_federal_date_rendered (y m d H M S us : Z) :
  1000 <= y -> valid_date y m d ->
  FederalPlugin._parse_federal_date (strftime_ymd (mkDatetime y m d H M S us))
  = strftime_ymd (mkDatetime y m d H M S us).
Proof.
  intros Hy Hv. destruct (rendered_stripped y m d H M S us Hy Hv) as [Hs Hne].
  unfold FederalPlugin._parse_federal_date. rewrite Hne, Hs.
  unfold FederalPlugin.federal_formats. cbn [FederalPlugin.try_formats].
  rewrite (strptime_rendered y m d H M S us Hy Hv). reflexivity.
Qed.

Lemma tbd_fixed : FederalPlugin._parse_federal_date "TBD" = "TBD".
Proof. vm_compute. reflexivity. Qed.

(** X14. Normalising a deadline twice gives what normalising it once gives,
    for every text that parses to no date before the year 1000: a
    normalised deadline is in its final form. *)
Theorem parse_federal_date_idempotent (date_str : string) :
  (forall fmt parsed, In fmt FederalPlugin.federal_formats ->
     strptime (strip date_str) fmt = Return parsed -> 1000 <= year parsed) ->
  FederalPlugin._parse_federal_date (FederalPlugin._parse_federal_date date_str)
  = FederalPlugin._parse_federal_date date_str.
Proof.
  intros Hyear.
  destruct date_str as [|c0 rest0] eqn:Es.
  - change (FederalPlugin._parse_federal_date "") with "TBD". apply tbd_fixed.
  - rewrite <- Es in *.
    assert (Hne : is_empty date_str = false) by (rewrite Es; reflexivity).
    destruct (try_formats_outcome FederalPlugin.federal_formats (strip date_str))
      as [Hnone|(fmt & parsed & Hin & Hp & Hsome)].
    + assert (Hid : FederalPlugin._parse_federal_date date_str = date_str).
      { unfold FederalPlugin._parse_federal_date. rewrite Hne, Hnone. reflexivity. }
      rewrite Hid. exact Hid.
    + assert (Hr : FederalPlugin._parse_federal_date date_str = strftime_ymd parsed).
      { unfold FederalPlugin._parse_federal_date. rewrite Hne, Hsome. reflexivity. }
      rewrite Hr.
      pose proof (strptime_valid _ _ _ Hp) as Hv.
      pose proof (Hyear fmt parsed Hin Hp) as Hy.
      destruct parsed as [y m d H M S us]. cbn [year month day] in Hv, Hy.
      apply parse_federal_date_rendered; assumption.
Qed.

Lemma parse_federal_date_idempotent_witness :
  FederalPlugin._parse_federal_date (FederalPlugin._parse_federal_date " Nov 9, 2026 ")
  = FederalPlugin._parse_federal_date " Nov 9, 2026 ".
Proof.
  apply parse_federal_date_idempotent.
  intros fmt parsed Hin. simpl in Hin.
  destruct Hin as [<-|[<-|[<-|[<-|[<-|[]]]]]]; vm_compute; intros E;
    inversion E; subst; discriminate.
Defined.

End DateNormalForm.

(** ** The circuit breaker on every run of calls *)

Section BreakerRuns.

Import Py CircuitBreaker.

Context {W A : Type}.
Variable time : W -> Z.

#[local] Open Scope Z_scope.

(** What holds of a breaker however it has been used: the count is not
    negative, and a breaker that is not closed has reached its threshold
    and has the time of its last failure. *)
Definition sound (cb : t) : Prop :=
  0 <= failure_count cb
  /\ (state cb <> CLOSED ->
      failure_threshold cb <= failure_count cb
      /\ exists last, last_failure_time cb = Some last).

Lemma init_sound (threshold timeout : Z) (expected : Exn -> bool) :
  sound (__init__ threshold timeout expected).
Proof. unfold sound, __init__. simpl. split; [lia|]. intros H. congruence. Qed.

Lemma reset_sound (cb : t) : sound cb -> sound (reset cb).
Proof. intros _. unfold sound, reset. simpl. split; [lia|]. intros H. congruence. Qed.

Lemma record_failure_sound (cb : t) (now : Z) : sound cb -> sound (record_failure cb now).
Proof.
  intros [Hc Hs]. unfold sound, record_failure. simpl. split; [lia|].
  destruct (Z.leb_spec (failure_threshold cb) (failure_count cb + 1)) as [Hle|Hgt].
  - intros _. split; [exact Hle|]. exists now. reflexivity.
  - intros Hn. destruct (Hs Hn) as [Hle _]. lia.
Qed.

Lemma set_state_sound (cb : t) (s : State) :
  sound cb -> state cb <> CLOSED -> sound (set_state cb s).
Proof.
  intros [Hc Hs] Hn. unfold sound, set_state. simpl. split; [exact Hc|].
  intros _. apply Hs. exact Hn.
Qed.

Lemma check_open_sound (cb cb1 : t) (now : Z) :
  sound cb -> check_open cb now = Return cb1 -> sound cb1.
Proof.
  intros H. unfold check_open.
  destruct (state cb) eqn:Es; try (intros E; inversion E; subst; exact H).
  destruct (last_failure_time cb) as [last|]; [|discriminate].
  destruct (recovery_timeout cb <? now - last); [|discriminate].
  intros E. inversion E. apply set_state_sound; [exact H|]. congruence.
Qed.

Lemma wrapper_sound (cb : t) (func : operation W A) (w : W) :
  sound cb -> sound (snd (fst (wrapper time cb func w))).
Proof.
  intros H. unfold wrapper.
  destruct (check_open cb (time w)) as [cb1|e] eqn:E; [|exact H].
  pose proof (check_open_sound cb cb1 (time w) H E) as H1.
  destruct (func w) as [[result|e] w']; simpl.
  - apply reset_sound. exact H1.
  - destruct (expected_exception cb1 e); simpl; [apply record_failure_sound|]; exact H1.
Qed.

Lemma calls_sound (ops : list ((W -> W) * operation W A)) :
  forall cb w, sound cb -> sound (snd (fst (calls time cb ops w))).
Proof.
  induction ops as [|[pass func] ops IH]; intros cb w H; simpl; [exact H|].
  pose proof (wrapper_sound cb func (pass w) H) as H1.
  destruct (wrapper time cb func (pass w)) as [[r cb1] w1]. simpl in H1.
  specialize (IH cb1 w1 H1). destruct (calls time cb1 ops w1) as [[rs cb2] w2].
  exact IH.
Qed.

(** X15. Whatever calls have gone through a breaker since it was made, with
    whatever outcomes, its failure count is not negative, and when it is
    open or half-open the count has reached the threshold and the time of
    the last failure is set: the test of an open breaker never meets a
    missing time, and either lets the call through or rejects it with the
    breaker-open error. *)
Theorem breaker_always_sound (threshold timeout : Z) (expected : Exn -> bool)
    (ops : list ((W -> W) * operation W A)) (w : W) (now : Z) :
  let cb := snd (fst (calls time (__init__ threshold timeout expected) ops w)) in
  sound cb
  /\ (check_open cb now = Raise breaker_open \/ exists cb1, check_open cb now = Return cb1).
Proof.
  intros cb.
  assert (H : sound cb) by (apply calls_sound, init_sound).
  split; [exact H|].
  unfold check_open. destruct (state cb) eqn:Es.
  - right. eexists. reflexivity.
  - destruct H as [_ Hs]. destruct Hs as [_ [last Hl]]; [congruence|]. rewrite Hl.
    destruct (recovery_timeout cb <? now - last); [right; eexists; reflexivity|left; reflexivity].
  - right. eexists. reflexivity.
Qed.

(** X16. A breaker that has been opened by its calls and is tried after the
    timeout: when the trial call fails, the breaker is open again and the
    time of the last failure is that of this failure. *)
Theorem failed_trial_reopens (threshold timeout : Z) (expected : Exn -> bool)
    (ops : list ((W -> W) * operation W A)) (w0 : W)
    (last : Z) (func : operation W A) (w w' : W) (e : Exn) :
  let cb := snd (fst (calls time (__init__ threshold timeout expected) ops w0)) in
  state cb = OPEN -> last_failure_time cb = Some last ->
  recovery_timeout cb < time w - last ->
  func w = (Raise e, w') -> expected_exception cb e = true ->
  exists cb',
    wrapper time cb func w = (Raise e, cb', w')
    /\ state cb' = OPEN
    /\ last_failure_time cb' = Some (time w')
    /\ failure_count cb' = failure_count cb + 1.
Proof.
  intros cb Hs Hl Ht Hf Hx.
  assert (H : sound cb) by (apply calls_sound, init_sound).
  destruct H as [_ Hopen]. destruct Hopen as [Hle _]; [congruence|].
  unfold wrapper. rewrite (check_open_half_open cb last (time w) Hs Hl Ht), Hf. simpl.
  rewrite Hx. eexists. split; [reflexivity|].
  unfold record_failure. simpl.
  destruct (Z.leb_spec (failure_threshold cb) (failure_count cb + 1)); [|lia].
  repeat split; reflexivity.
Qed.

(** The operation returns whatever the world. *)
Definition succeeds (func : operation W A) : Prop :=
  forall w, exists r w', func w = (Return r, w').

Lemma calls_app (ops1 ops2 : list ((W -> W) * operation W A)) :
  forall cb w,
    calls time cb (ops1 ++ ops2) w
    = let '(rs1, cb1, w1) := calls time cb ops1 w in
      let '(rs2, cb2, w2) := calls time cb1 ops2 w1 in
      (rs1 ++ rs2, cb2, w2).
Proof.
  induction ops1 as [|[pass func] ops1 IH]; intros cb w; simpl.
  - destruct (calls time cb ops2 w) as [[rs2 cb2] w2]. reflexivity.
  - destruct (wrapper time cb func (pass w)) as [[r cb1] w1].
    rewrite IH. destruct (calls time cb1 ops1 w1) as [[rs1 cb2] w2].
    destruct (calls time cb2 ops2 w2) as [[rs2 cb3] w3]. reflexivity.
Qed.

Lemma wrapper_closed_success (cb : t) (func : operation W A) (w : W) :
  state cb = CLOSED -> succeeds func ->
  exists r w', wrapper time cb func w = (Return r, reset cb, w').
Proof.
  intros Hs Hf. destruct (Hf w) as (r & w' & Hr). exists r, w'.
  unfold wrapper, check_open. rewrite Hs, Hr. reflexivity.
Qed.

(** X17. The failures that open the breaker are consecutive ones: after
    fewer failing calls than the threshold, one call that succeeds sets
    the count back to 0, and fewer failing calls than the threshold after
    it leave the breaker closed, however many failures there were in
    all. *)
Theorem success_resets_count (threshold timeout : Z) (expected : Exn -> bool)
    (before after : list ((W -> W) * operation W A))
    (pass : W -> W) (good : operation W A) (w : W) :
  Z.of_nat (List.length before) < threshold ->
  Z.of_nat (List.length after) < threshold ->
  Forall (fun op => fails (__init__ threshold timeout expected) (snd op)) before ->
  Forall (fun op => fails (__init__ threshold timeout expected) (snd op)) after ->
  succeeds good ->
  let cb := snd (fst (calls time (__init__ threshold timeout expected)
                        (before ++ (pass, good) :: after) w)) in
  state cb = CLOSED /\ failure_count cb = Z.of_nat (List.length after).
Proof.
  intros Hb Ha Fb Fa Hg. cbv zeta.
  rewrite calls_app.
  destruct (calls time (__init__ threshold timeout expected) before w) as [[rs1 cb1] w1] eqn:E1.
  destruct (calls_failures time before (__init__ threshold timeout expected) w rs1 cb1 w1
              eq_refl Fb) as ((Ht1 & Hr1 & He1) & Hc1 & Ho1).
  { simpl. lia. }
  { exact E1. }
  simpl in Ht1, Hc1.
  assert (Hs1 : state cb1 = CLOSED).
  { destruct before as [|op before'].
    - simpl in E1. inversion E1. reflexivity.
    - destruct Ho1 as [Hst _]; [discriminate|]. rewrite Hst. simpl.
      destruct (Z.leb_spec threshold (failure_count cb1)); [lia|reflexivity]. }
  cbn [calls].
  destruct (wrapper_closed_success cb1 good (pass w1) Hs1 Hg) as (r & w2 & Hw). rewrite Hw.
  destruct (calls time (reset cb1) after w2) as [[rs3 cb3] w3] eqn:E3.
  assert (Fa' : Forall (fun op => fails (reset cb1) (snd op)) after).
  { eapply Forall_impl; [exact Fa|]. intros o Ho.
    apply (fails_same_settings (__init__ threshold timeout expected)); [|exact Ho].
    simpl. exact He1. }
  destruct (calls_failures time after (reset cb1) w2 rs3 cb3 w3 eq_refl Fa') as (_ & Hc3 & Ho3).
  { simpl. rewrite Ht1. lia. }
  { exact E3. }
  simpl in Hc3. simpl. split; [|exact Hc3].
  destruct after as [|op after'].
  - simpl in E3. inversion E3. reflexivity.
  - destruct Ho3 as [Hst _]; [discriminate|]. rewrite Hst. simpl. rewrite Ht1.
    destruct (Z.leb_spec threshold (failure_count cb3)); [|reflexivity].
    rewrite Hc3 in *. lia.
Qed.

End BreakerRuns.

(** Once up: the call returns after a second. *)
Definition up : CircuitBreaker.operation Z unit :=
  fun w => (Py.Return tt, (w + 1000000)%Z).

Lemma down_fails (cb : CircuitBreaker.t) :
  CircuitBreaker.expected_exception cb (Py.mkExn "ConnectionError" "refused") = true ->
  CircuitBreaker.fails cb down.
Proof.
  intros H w0. exists (Py.mkExn "ConnectionError" "refused"), (w0 + 1000000)%Z.
  split; [reflexivity|exact H].
Qed.

Lemma failed_trial_reopens_witness :
  exists cb',
    CircuitBreaker.wrapper (fun w : Z => w)
      (snd (fst (CircuitBreaker.calls (fun w : Z => w) CircuitBreaker.default five_calls 0%Z)))
      down 70000000%Z
    = (Py.Raise (Py.mkExn "ConnectionError" "refused"), cb', 71000000%Z)
    /\ CircuitBreaker.state cb' = CircuitBreaker.OPEN
    /\ CircuitBreaker.last_failure_time cb' = Some 71000000%Z
    /\ CircuitBreaker.failure_count cb'
       = (CircuitBreaker.failure_count
            (snd (fst (CircuitBreaker.calls (fun w : Z => w) CircuitBreaker.default
                         five_calls 0%Z))) + 1)%Z.
Proof.
  apply (failed_trial_reopens (fun w : Z => w) 5 (CircuitBreaker.seconds 60) (fun _ => true)
           five_calls 0%Z 5000000%Z down 70000000%Z 71000000%Z
           (Py.mkExn "ConnectionError" "refused")); reflexivity.
Defined.

Lemma success_resets_count_witness :
  let cb := snd (fst (CircuitBreaker.calls (fun w : Z => w) CircuitBreaker.default
                        (repeat (fun w : Z => w, down) 4
                         ++ (fun w : Z => w, up) :: repeat (fun w : Z => w, down) 4) 0%Z)) in
  CircuitBreaker.state cb = CircuitBreaker.CLOSED
  /\ CircuitBreaker.failure_count cb = 4%Z.
Proof.
  apply (success_resets_count (fun w : Z => w) 5 (CircuitBreaker.seconds 60) (fun _ => true)
           (repeat (fun w : Z => w, down) 4) (repeat (fun w : Z => w, down) 4)
           (fun w : Z => w) up 0%Z).
  - simpl. lia.
  - simpl. lia.
  - simpl. repeat constructor; apply down_fails; reflexivity.
  - simpl. repeat constructor; apply down_fails; reflexivity.
  - intros w0. exists tt, (w0 + 1000000)%Z. reflexivity.
Defined.

(** ** Alert keys, the alert loop and the health score *)

Section AlertKeys.

Import Py Datetime Alerting.

#[local] Open Scope Z_scope.

(** One of the severities the condition checks use. *)
Definition standard (severity : string) : Prop :=
  severity = "critical" \/ severity = "warning" \/ severity = "info".

Lemma chars_append (a b : string) :
  list_ascii_of_string (a +:+ b) = list_ascii_of_string a ++ list_ascii_of_string b.
Proof. induction a as [|c a IH]; simpl; [reflexivity|]. rewrite IH. reflexivity. Qed.

Lemma chars_inj (a b : string) : list_ascii_of_string a = list_ascii_of_string b -> a = b.
Proof.
  intros H. rewrite <- (string_of_list_ascii_of_string a), <- (string_of_list_ascii_of_string b).
  rewrite H. reflexivity.
Qed.

(** The key of an alert with a standard severity tells its metric and its
    severity. *)
Lemma alert_key_injective (a b : Alert) :
  standard (severity a) -> standard (severity b) ->
  alert_key a = alert_key b -> metric a = metric b /\ severity a = severity b.
Proof.
  unfold alert_key. intros Ha Hb H.
  apply (f_equal list_ascii_of_string) in H. rewrite !chars_append in H.
  apply (f_equal (@rev ascii)) in H. rewrite !rev_app_distr in H.
  destruct Ha as [Ha|[Ha|Ha]], Hb as [Hb|[Hb|Hb]]; rewrite Ha, Hb in *;
    try (simpl in H; discriminate H);
    (split; [|reflexivity]);
    apply app_inv_head in H;
    apply chars_inj; rewrite <- (rev_involutive (list_ascii_of_string (metric a))),
      <- (rev_involutive (list_ascii_of_string (metric b))), H; reflexivity.
Qed.

(** X18. Alerts with standard severities that differ in metric or severity
    do not throttle each other: presenting one leaves the throttle's answer
    for the other as it was. *)
Theorem distinct_alerts_independent (config : Config) (tr : Transport)
    (a b : Alert) (now later : datetime) (st : t) :
  standard (severity a) -> standard (severity b) ->
  metric a <> metric b \/ severity a <> severity b ->
  throttled (_send_alert_with_throttling config tr now a st) later b
  = throttled st later b.
Proof.
  intros Ha Hb Hdiff.
  assert (Hk : alert_key a <> alert_key b).
  { intros Hk. destruct (alert_key_injective a b Ha Hb Hk) as [Hm Hs].
    destruct Hdiff; contradiction. }
  destruct (throttled st now a) eqn:E.
  - rewrite (throttle_drops config tr now a st E). reflexivity.
  - destruct (throttle_passes config tr now a st E) as [_ Hh].
    unfold throttled. rewrite Hh, lookup_insert_ne by exact Hk. reflexivity.
Qed.

Definition memory_alert : Alert :=
  mkAlert "critical" "High memory usage: 93.0%" "memory_usage" 93%float
          (mkDatetime 2026 11 6 9 30 0 0).

Lemma distinct_alerts_independent_witness :
  throttled (_send_alert_with_throttling both_channels delivering half_past_nine
               cpu_alert no_history) ten_o_clock memory_alert
  = throttled no_history ten_o_clock memory_alert.
Proof.
  apply (distinct_alerts_independent both_channels delivering cpu_alert memory_alert
           half_past_nine ten_o_clock no_history).
  - left. reflexivity.
  - left. reflexivity.
  - left. discriminate.
Defined.

Lemma send_step (config : Config) (tr : Transport) (now : datetime) (alert : Alert) (st : t) :
  let st' := _send_alert_with_throttling config tr now alert st in
  (forall k, is_Some (alert_history st !! k) -> is_Some (alert_history st' !! k))
  /\ is_Some (alert_history st' !! alert_key alert)
  /\ dispatched st' = dispatched st ++ (if throttled st now alert then [] else [alert]).
Proof.
  cbv zeta. destruct (throttled st now alert) eqn:E.
  - rewrite (throttle_drops config tr now alert st E).
    split; [auto|]. split; [|rewrite app_nil_r; reflexivity].
    unfold throttled in E. destruct (alert_history st !! alert_key alert); [eauto|discriminate].
  - destruct (throttle_passes config tr now alert st E) as [Hd Hh].
    rewrite Hh, Hd. split; [|split; [|reflexivity]].
    + intros k Hk. apply lookup_insert_is_Some.
      destruct (decide (alert_key alert = k)); [left; assumption|right; split; assumption].
    + rewrite lookup_insert_eq. eauto.
Qed.

(** X19. One pass of the alert loop forgets nothing and loses nothing: every
    key of the history before is in the history after; every alert of the
    pass has its key in the history after; and the alerts dispatched so
    far are those dispatched before followed by some of the alerts of the
    pass, in their order. *)
Theorem alert_loop_grows (config : Config) (tr : Transport)
    (alerts : list (datetime * Alert)) (st : t) :
  let st' := Monitoring.send_alerts config tr alerts st in
  (forall k, is_Some (alert_history st !! k) -> is_Some (alert_history st' !! k))
  /\ (forall now alert, In (now, alert) alerts ->
        is_Some (alert_history st' !! alert_key alert))
  /\ exists sent, dispatched st' = dispatched st ++ sent
                  /\ sublist sent (map snd alerts).
Proof.
  cbv zeta. revert st. induction alerts as [|[now alert] alerts IH]; intros st; simpl.
  - split; [auto|]. split; [intros ? ? []|]. exists []. rewrite app_nil_r.
    split; [reflexivity|constructor].
  - destruct (send_step config tr now alert st) as (Hkeep & Hkey & Hd).
    destruct (IH (_send_alert_with_throttling config tr now alert st))
      as (Hkeep' & Hkeys' & sent & Hd' & Hsub).
    split; [|split].
    + intros k Hk. apply Hkeep', Hkeep, Hk.
    + intros now' alert' [E|Hin].
      * inversion E; subst. apply Hkeep', Hkey.
      * eapply Hkeys'. exact Hin.
    + rewrite Hd', Hd. destruct (throttled st now alert).
      * exists sent. rewrite app_nil_r. split; [reflexivity|].
        apply sublist_cons. exact Hsub.
      * exists (alert :: sent). rewrite <- app_assoc. split; [reflexivity|].
        apply sublist_skip. exact Hsub.
Qed.

End AlertKeys.

Section Health.

Import Py Datetime Alerting Monitoring.

Definition percent_b (s : float) : bool := ((0 <=? s) && (s <=? 100))%float.

(** X20. The health score is between 0 and 100 whatever the readings of
    the system are and whatever the database checks give, also when
    reading the system raises. *)
Theorem health_score_range (psutil : Result (float * float * float)) (db_ok : bool)
    (recent_runs : Result Z) :
  (0 <=? get_health_score psutil db_ok recent_runs)%float = true
  /\ (get_health_score psutil db_ok recent_runs <=? 100)%float = true.
Proof.
  apply andb_both. unfold get_health_score.
  destruct psutil as [[[cpu mem] disk]|e]; [|vm_compute; reflexivity].
  cbv zeta.
  destruct recent_runs as [n|e].
  - generalize (n =? 0)%Z. revert db_ok.
    generalize (90 <? cpu)%float. generalize (70 <? cpu)%float.
    generalize (90 <? mem)%float. generalize (70 <? mem)%float.
    generalize (95 <? disk)%float. generalize (85 <? disk)%float.
    apply (ball_spec 8). vm_compute. reflexivity.
  - revert db_ok.
    generalize (90 <? cpu)%float. generalize (70 <? cpu)%float.
    generalize (90 <? mem)%float. generalize (70 <? mem)%float.
    generalize (95 <? disk)%float. generalize (85 <? disk)%float.
    apply (ball_spec 7). vm_compute. reflexivity.
Qed.

Lemma database_down_below_80 (psutil : Result (float * float * float)) (e : Exn) :
  (get_health_score psutil false (Raise e) <? 80)%float = true.
Proof.
  unfold get_health_score.
  destruct psutil as [[[cpu mem] disk]|e']; [|vm_compute; reflexivity].
  cbv zeta.
  generalize (90 <? cpu)%float. generalize (70 <? cpu)%float.
  generalize (90 <? mem)%float. generalize (70 <? mem)%float.
  generalize (95 <? disk)%float. generalize (85 <? disk)%float.
  apply (ball_spec 6). vm_compute. reflexivity.
Qed.

(** X21. When the database cannot be reached, so that the connectivity
    check and the activity query both fail, the health check raises one
    alert on the metric "health_score", critical or warning, whatever the
    load of the system. *)
Theorem database_down_alerts (format_1f : float -> string) (now : datetime)
    (psutil : Result (float * float * float)) (e : Exn) :
  exists alert,
    _check_health_alerts format_1f now (get_health_score psutil false (Raise e)) = [alert]
    /\ metric alert = "health_score"
    /\ (severity alert = "critical" \/ severity alert = "warning").
Proof.
  unfold _check_health_alerts.
  destruct (get_health_score psutil false (Raise e) <? 50)%float.
  - eexists. split; [reflexivity|]. split; [reflexivity|left; reflexivity].
  - rewrite database_down_below_80.
    eexists. split; [reflexivity|]. split; [reflexivity|right; reflexivity].
Qed.

End Health.

(** ** The scraping session and its collaborators *)

Section SessionMore.

Import Py Datetime Models Session.

#[local] Open Scope Z_scope.

(** The opportunities handed to [save_opportunity], in order. *)
Definition saved (evs : list Event) : list RFPOpportunity :=
  flat_map (fun e => match e with Saved opp _ => [opp] | _ => [] end) evs.

(** The values the health gauge was set to. *)
Definition gauges (evs : list Event) : list Z :=
  flat_map (fun e => match e with Health v => [v] | _ => [] end) evs.

(** The opportunities of a run as they are after scoring. *)
Definition scored (env : Env) (scraped : list RFPOpportunity) : list RFPOpportunity :=
  Scoring._score_opportunities (PluginManager.scoring_section (config env))
                               (scoring_clock env) scraped.

Lemma save_all_events (env : Env) (l : list RFPOpportunity) :
  saved (snd (save_all env l)) = l
  /\ gauges (snd (save_all env l)) = []
  /\ fst (save_all env l) = Z.of_nat (List.length (List.filter (save_opportunity env) l)).
Proof.
  induction l as [|opp l (IHs & IHg & IHc)]; simpl; [repeat split; reflexivity|].
  destruct (save_all env l) as [n evs]. simpl in *.
  rewrite IHs, IHg, IHc. repeat split; try reflexivity.
  destruct (save_opportunity env opp); simpl length; lia.
Qed.

Lemma saved_app (a b : list Event) : saved (a ++ b) = saved a ++ saved b.
Proof. unfold saved. apply flat_map_app. Qed.

Lemma gauges_app (a b : list Event) : gauges (a ++ b) = gauges a ++ gauges b.
Proof. unfold gauges. apply flat_map_app. Qed.

(** What the [try] block hands to [save_opportunity], and what it counts. *)
Lemma body_saves (env : Env) (r : Result bool) (s : ScrapeSession) (evs : list Event) :
  body env (initial env) = (r, s, evs) ->
  gauges evs = []
  /\ ((saved evs = [] /\ opportunities_found s = 0)
      \/ exists scraped,
           _health_check env = true
           /\ PluginManager.scrape_all_sources (plugins env) (config env) = Return scraped
           /\ saved evs = scored env scraped
           /\ opportunities_found s
              = Z.of_nat (List.length (List.filter (save_opportunity env) (scored env scraped)))).
Proof.
  unfold body.
  destruct (_health_check env); cbn [negb].
  2: { intros H. inversion H; subst. split; [reflexivity|]. left. split; reflexivity. }
  destruct (PluginManager.scrape_all_sources (plugins env) (config env)) as [[|o os]|e].
  - intros H. inversion H; subst. split; [reflexivity|]. left. split; reflexivity.
  - fold (scored env (o :: os)).
    destruct (save_all_events env (scored env (o :: os))) as (Hs & Hg & Hc).
    destruct (save_all env (scored env (o :: os))) as [n saves]. simpl in Hs, Hg, Hc.
    destruct (_generate_enhanced_csv_report env _) as [csv_file|e].
    + destruct (send_email_notification env _ csv_file) as [u|e];
        intros H; inversion H; subst; simpl;
        rewrite !gauges_app, !saved_app, Hs, Hg; simpl; rewrite !app_nil_r;
        (split; [reflexivity|]); right; exists (o :: os); repeat split; reflexivity.
    + intros H; inversion H; subst; simpl.
      rewrite !gauges_app, !saved_app, Hs, Hg; simpl; rewrite !app_nil_r.
      split; [reflexivity|]. right. exists (o :: os). repeat split; reflexivity.
  - intros H. inversion H; subst. split; [reflexivity|]. left. split; reflexivity.
Qed.

(** The save loop makes no other call than the saves. *)
Lemma save_all_only_saves (env : Env) (l : list RFPOpportunity) :
  Forall (fun ev => match ev with Saved _ _ => True | _ => False end) (snd (save_all env l)).
Proof.
  induction l as [|opp l IH]; simpl; [constructor|].
  destruct (save_all env l) as [n evs]. simpl in *. constructor; [exact I|exact IH].
Qed.

(** Enabled plugins that all time out or raise merge to nothing. *)
Lemma all_failed_nothing (registry : PluginManager.registry) (cfg : PluginManager.Config)
    (names : list string) (l : list RFPOpportunity) :
  (forall name p, In name names -> registry !! name = Some p ->
     timed_out cfg p \/ raised cfg p) ->
  merged registry cfg names l -> l = [].
Proof.
  intros Hfail H.
  induction H as [|n ns l Hn _ IH|n p ns l Hp Ht _ IH|n p ns l Hp Hr _ IH
                  |n p ns rec l Hp Hv _ IH|n p ns l Hp Hv _ IH];
    try reflexivity;
    try (apply IH; intros name q Hin; apply Hfail; right; exact Hin).
  exfalso. apply (failed_not_returned cfg p (PluginManager.VList rec)); [|exact Hv].
  apply (Hfail n p); [left; reflexivity|exact Hp].
Qed.

(** The session as the [finally] clause completes it. *)
Definition close (env : Env) (s : ScrapeSession) : ScrapeSession :=
  set_end s (session_end env) (micros (session_end env) - micros (session_start env)).

Lemma run_of_body (env : Env) (r : Result bool) (s : ScrapeSession) (evs : list Event) :
  body env (initial env) = (r, s, evs) ->
  (forall s', record_scrape_session env s' = Return tt) ->
  run_scraping_session env
  = match r with
    | Return b =>
        (Return b, evs ++ [Recorded (close env s); Health (healthy (close env s))])
    | Raise e =>
        let s' := close env (set_errors (set_status s "failed") (exn_msg e)) in
        (Return false, (evs ++ [Counter "error"]) ++ [Recorded s'; Health (healthy s')])
    end.
Proof.
  intros B Hrec. unfold run_scraping_session. fold (initial env). rewrite B.
  destruct r as [b|e]; cbn [handler]; unfold close; rewrite Hrec; reflexivity.
Qed.

(** X22. A run that passes the health check, scrapes at least one
    opportunity, and whose report, e-mail and session record go through,
    returns True with a session "completed" and without error text; every
    scored opportunity was handed to [save_opportunity], in order, and
    [opportunities_found] counts those whose save answered True, not those
    scraped: when every save fails the session is "completed" with 0. *)
Theorem completed_counts_saved (env : Env) (o : RFPOpportunity) (os : list RFPOpportunity)
    (csv_file : string) :
  _health_check env = true ->
  PluginManager.scrape_all_sources (plugins env) (config env) = Return (o :: os) ->
  _generate_enhanced_csv_report env (scored env (o :: os)) = Return csv_file ->
  send_email_notification env (scored env (o :: os)) csv_file = Return tt ->
  (forall s, record_scrape_session env s = Return tt) ->
  fst (run_scraping_session env) = Return true
  /\ saved (snd (run_scraping_session env)) = scored env (o :: os)
  /\ exists s,
       recorded (snd (run_scraping_session env)) = [s]
       /\ status s = "completed" /\ errors s = ""
       /\ opportunities_found s
          = Z.of_nat (List.length (List.filter (save_opportunity env) (scored env (o :: os))))
       /\ ((forall opp, save_opportunity env opp = false) -> opportunities_found s = 0).
Proof.
  intros Hh Hs Hc He Hr.
  destruct (body env (initial env)) as [[r s] evs] eqn:B.
  rewrite (run_of_body env r s evs B Hr).
  pose proof B as B'. unfold body in B'. rewrite Hh, Hs in B'. cbn [negb] in B'.
  fold (scored env (o :: os)) in B'.
  remember (scored env (o :: os)) as l eqn:El.
  destruct (save_all_events env l) as (Hsv & Hg & Hn).
  pose proof (save_all_not_recorded env l) as Hrc.
  destruct (save_all env l) as [n saves]. simpl in Hsv, Hg, Hn, Hrc.
  rewrite Hc, He in B'. inversion B'; subst r s evs. clear B'.
  cbn [fst snd]. split; [reflexivity|].
  split.
  { rewrite !saved_app, Hsv. simpl. rewrite !app_nil_r. reflexivity. }
  eexists. split.
  { rewrite !recorded_app, Hrc. simpl. reflexivity. }
  simpl. repeat split; try assumption.
  intros Hfail. rewrite Hn.
  replace (List.filter (save_opportunity env) l) with (@nil RFPOpportunity); [reflexivity|].
  symmetry. clear - Hfail.
  induction l as [|x l IH]; simpl; [reflexivity|].
  rewrite Hfail. exact IH.
Qed.

(** X23. When the e-mail notification raises after the opportunities were
    saved, the run returns False with a session "failed" that carries the
    text of the exception; the saves are not undone: every scored
    opportunity was handed to [save_opportunity], and [opportunities_found]
    keeps the count of those saved. *)
Theorem failed_notification_keeps_saves (env : Env) (o : RFPOpportunity)
    (os : list RFPOpportunity) (csv_file : string) (e : Exn) :
  _health_check env = true ->
  PluginManager.scrape_all_sources (plugins env) (config env) = Return (o :: os) ->
  _generate_enhanced_csv_report env (scored env (o :: os)) = Return csv_file ->
  send_email_notification env (scored env (o :: os)) csv_file = Raise e ->
  (forall s, record_scrape_session env s = Return tt) ->
  fst (run_scraping_session env) = Return false
  /\ saved (snd (run_scraping_session env)) = scored env (o :: os)
  /\ ~ In Slack (snd (run_scraping_session env))
  /\ exists s,
       recorded (snd (run_scraping_session env)) = [s]
       /\ status s = "failed" /\ errors s = exn_msg e
       /\ opportunities_found s
          = Z.of_nat (List.length (List.filter (save_opportunity env) (scored env (o :: os)))).
Proof.
  intros Hh Hs Hc He Hr.
  destruct (body env (initial env)) as [[r s] evs] eqn:B.
  rewrite (run_of_body env r s evs B Hr).
  pose proof B as B'. unfold body in B'. rewrite Hh, Hs in B'. cbn [negb] in B'.
  fold (scored env (o :: os)) in B'.
  remember (scored env (o :: os)) as l eqn:El.
  destruct (save_all_events env l) as (Hsv & Hg & Hn).
  pose proof (save_all_not_recorded env l) as Hrc.
  pose proof (save_all_only_saves env l) as Hon.
  destruct (save_all env l) as [n saves]. simpl in Hsv, Hg, Hn, Hrc, Hon.
  rewrite Hc, He in B'. inversion B'; subst r s evs. clear B'.
  cbn [fst snd]. split; [reflexivity|].
  split.
  { rewrite !saved_app, Hsv. simpl. rewrite !app_nil_r. reflexivity. }
  split.
  { rewrite !in_app_iff. simpl. intros [[[[H|[H|[]]]|[H|[H|[]]]]|[H|[]]]|[H|[H|[]]]];
      try discriminate H.
    rewrite Forall_forall in Hon. apply list_elem_of_In in H. exact (Hon _ H). }
  eexists. split.
  { rewrite !recorded_app, Hrc. simpl. reflexivity. }
  simpl. repeat split; assumption.
Qed.

(** X24. When every enabled plugin of the registry times out or raises,
    the merged result is empty: the run saves nothing and sends no report,
    and, its session record going through, returns True with a session
    "no_data" and the health gauge at 1. *)
Theorem all_plugins_failing_no_data (env : Env) :
  _health_check env = true ->
  (forall name p, In name (PluginManager.get_enabled (config env)) ->
     plugins env !! name = Some p ->
     timed_out (config env) p \/ raised (config env) p) ->
  (forall s, record_scrape_session env s = Return tt) ->
  PluginManager.scrape_all_sources (plugins env) (config env) = Return []
  /\ fst (run_scraping_session env) = Return true
  /\ saved (snd (run_scraping_session env)) = []
  /\ gauges (snd (run_scraping_session env)) = [1]
  /\ ~ In Email (snd (run_scraping_session env))
  /\ map status (recorded (snd (run_scraping_session env))) = ["no_data"].
Proof.
  intros Hh Hfail Hr.
  assert (Hs : PluginManager.scrape_all_sources (plugins env) (config env) = Return []).
  { unfold PluginManager.scrape_all_sources, PluginManager.gather. f_equal.
    apply (all_failed_nothing (plugins env) (config env)
             (PluginManager.get_enabled (config env))).
    - exact Hfail.
    - apply merge_tasks_merged. }
  split; [exact Hs|].
  destruct (body env (initial env)) as [[r s] evs] eqn:B.
  rewrite (run_of_body env r s evs B Hr).
  unfold body in B. rewrite Hh, Hs in B. cbn [negb] in B. inversion B; subst r s evs.
  cbn [fst snd]. split; [reflexivity|].
  split; [reflexivity|]. split; [reflexivity|].
  split; [|reflexivity].
  simpl. intros [H|[H|[H|[]]]]; discriminate H.
Qed.

(** X25. The health gauge follows the outcome of the run: it is set once,
    to 1 when the run returns True and to 0 when it returns False, and it
    is not set when the run raises. *)
Theorem health_gauge_follows_outcome (env : Env) :
  gauges (snd (run_scraping_session env))
  = match fst (run_scraping_session env) with
    | Return true => [1]
    | Return false => [0]
    | Raise _ => []
    end.
Proof.
  unfold run_scraping_session. fold (initial env).
  destruct (body env (initial env)) as [[r s] evs] eqn:B.
  destruct (body_saves env r s evs B) as [Hg _].
  destruct (body_paths env r s evs B) as (_ & _ & Hpath).
  destruct r as [b|e].
  - destruct (record_scrape_session env _) as [u|e'] eqn:R; cbn [fst snd].
    + rewrite gauges_app, Hg. unfold healthy. cbn [status set_end].
      destruct b.
      * destruct Hpath as [_ [[_ ->]|[_ ->]]]; reflexivity.
      * destruct Hpath as [_ ->]. reflexivity.
    + rewrite gauges_app, Hg. reflexivity.
  - cbn [handler].
    destruct (record_scrape_session env _) as [u|e'] eqn:R; cbn [fst snd];
      rewrite !gauges_app, Hg; reflexivity.
Qed.

(** X26. With the default weights, every opportunity a run hands to
    [save_opportunity] carries a score between 0 and 10, whatever the
    plugins return and however the run ends. *)
Theorem saved_scores_in_range (env : Env) :
  PluginManager.scoring_section (config env) = ∅ ->
  Forall (fun opp => in_range (score opp)) (saved (snd (run_scraping_session env))).
Proof.
  intros Hcfg.
  assert (Hsaved : forall r s evs, body env (initial env) = (r, s, evs) ->
            Forall (fun opp => in_range (score opp)) (saved evs)).
  { intros r s evs B. destruct (body_saves env r s evs B) as [_ [[-> _]|(scraped & _ & _ & -> & _)]].
    - constructor.
    - unfold scored. rewrite Hcfg. apply score_from_in_range. }
  unfold run_scraping_session. fold (initial env).
  destruct (body env (initial env)) as [[r s] evs] eqn:B.
  specialize (Hsaved r s evs eq_refl).
  destruct r as [b|e]; cbn [handler];
    destruct (record_scrape_session env _) as [u|e']; cbn [fst snd];
    rewrite !saved_app; simpl; rewrite !app_nil_r; exact Hsaved.
Qed.

End SessionMore.

(** Runs of the session with their outcomes. *)

Section SessionRuns.

Import Py Models.

(** The database refuses the second notice. *)
Definition one_refused : Session.Env :=
  Session.mkEnv half_past_nine (fun _ => half_past_nine) ten_o_clock a_and_b two_plugins
    true (fun opp => negb (String.eqb (Models.title opp) "Notice 2"))
    (fun _ => Return "output/rfp_opportunities.csv")
    (fun _ _ => Return tt) (fun _ => Return tt).

Lemma completed_counts_saved_witness :
  fst (Session.run_scraping_session one_refused) = Return true
  /\ exists s,
       Session.recorded (snd (Session.run_scraping_session one_refused)) = [s]
       /\ Session.status s = "completed"
       /\ Session.opportunities_found s = 2%Z.
Proof.
  destruct (completed_counts_saved one_refused (record_of 1) [record_of 2; record_of 3]
              "output/rfp_opportunities.csv")
    as (Hret & _ & s & Hrec & Hst & _ & Hn & _).
  - reflexivity.
  - vm_compute. reflexivity.
  - reflexivity.
  - reflexivity.
  - intros s. reflexivity.
  - split; [exact Hret|]. exists s. split; [exact Hrec|]. split; [exact Hst|].
    rewrite Hn. vm_compute. reflexivity.
Defined.

Lemma failed_notification_keeps_saves_witness :
  fst (Session.run_scraping_session mail_down) = Return false
  /\ exists s,
       Session.recorded (snd (Session.run_scraping_session mail_down)) = [s]
       /\ Session.status s = "failed"
       /\ Session.errors s = "connection unexpectedly closed"
       /\ Session.opportunities_found s = 3%Z.
Proof.
  destruct (failed_notification_keeps_saves mail_down (record_of 1)
              [record_of 2; record_of 3] "output/rfp_opportunities.csv"
              (mkExn "SMTPServerDisconnected" "connection unexpectedly closed"))
    as (Hret & _ & _ & s & Hrec & Hst & He & Hn).
  - reflexivity.
  - vm_compute. reflexivity.
  - reflexivity.
  - reflexivity.
  - intros s. reflexivity.
  - split; [exact Hret|]. exists s. split; [exact Hrec|]. split; [exact Hst|].
    split; [exact He|]. rewrite Hn. vm_compute. reflexivity.
Defined.

(** Raises after a second. *)
Definition plugin_c : PluginManager.Plugin :=
  PluginManager.mkPlugin "C"
    (fun _ => PluginManager.mkCoroutine 1000000
                (Raise (mkExn "ClientConnectorError" "cannot connect to host"))).

(** B times out, C raises, and D is not in the registry. *)
Definition all_down : Session.Env :=
  Session.mkEnv half_past_nine (fun _ => half_past_nine) ten_o_clock
    (PluginManager.mkConfig
       (Some (PluginManager.mkPluginsConfig (Some ["B"; "C"; "D"]) None)) ∅)
    (<["B" := plugin_b]> (<["C" := plugin_c]> ∅))
    true (fun _ => true) (fun _ => Return "output/rfp_opportunities.csv")
    (fun _ _ => Return tt) (fun _ => Return tt).

Lemma all_plugins_failing_no_data_witness :
  fst (Session.run_scraping_session all_down) = Return true
  /\ map Session.status (Session.recorded (snd (Session.run_scraping_session all_down)))
     = ["no_data"].
Proof.
  destruct (all_plugins_failing_no_data all_down) as (_ & Hret & _ & _ & _ & Hst).
  - reflexivity.
  - intros name p Hin Hp. vm_compute in Hin.
    destruct Hin as [<-|[<-|[<-|[]]]]; vm_compute in Hp; inversion Hp; subst p.
    + left. unfold timed_out. vm_compute. discriminate.
    + right. eexists. vm_compute. reflexivity.
  - intros s. reflexivity.
  - split; [exact Hret|exact Hst].
Defined.

Lemma saved_scores_in_range_witness :
  Forall (fun opp => in_range (Models.score opp))
         (saved (snd (Session.run_scraping_session (working two_plugins a_and_b)))).
Proof. apply saved_scores_in_range. reflexivity. Defined.

End SessionRuns.

(** ** The Slack notification *)

Section Slack.

Import Py Models Notifications.

Lemma length_append (a b : string) :
  String.length (a +:+ b) = (String.length a + String.length b)%nat.
Proof. induction a as [|c a IH]; simpl; [reflexivity|]. rewrite IH. reflexivity. Qed.

Lemma length_take (n : nat) (s : string) :
  String.length (Notifications.take n s) = Nat.min n (String.length s).
Proof.
  revert s. induction n as [|n IH]; intros [|c s]; simpl; try reflexivity.
  rewrite IH. reflexivity.
Qed.

Lemma take_all (n : nat) (s : string) :
  (String.length s <= n)%nat -> Notifications.take n s = s.
Proof.
  revert s. induction n as [|n IH]; intros [|c s] H; simpl in *; try reflexivity; try lia.
  rewrite IH; [reflexivity|lia].
Qed.

Lemma append_empty (s : string) : s +:+ "" = s.
Proof.
  induction s as [|c s IH]; [reflexivity|].
  change (String c (s +:+ "") = String c s). rewrite IH. reflexivity.
Qed.

(** The title of a field: the title of the opportunity when it has at most
    50 characters, else 53 characters. *)
Lemma field_title (opp : RFPOpportunity) :
  ((String.length (title opp) <= 50)%nat /\ fst (field opp) = title opp)
  \/ ((50 < String.length (title opp))%nat /\ String.length (fst (field opp)) = 53%nat).
Proof.
  unfold field. cbn [fst].
  destruct (Nat.ltb_spec 50 (String.length (title opp))) as [H|H]; cbv beta iota.
  - right. split; [exact H|]. rewrite length_append, length_take.
    change (String.length "...") with 3%nat. lia.
  - left. split; [exact H|]. rewrite append_empty. apply take_all. exact H.
Qed.

(** X27. A Slack notification is prepared only when a webhook is
    configured and some opportunity has urgency "high" in whatever case,
    and then once: its text counts all of these, its attachment has a
    field for each of the first five and no more, each field is of one of
    them, and a field's title has at most 53 characters. *)
Theorem slack_payload_bounds (slack_webhook : option string)
    (opportunities : list RFPOpportunity) (url : string) (payload : Payload) :
  In (url, payload) (send_slack_notification slack_webhook opportunities) ->
  send_slack_notification slack_webhook opportunities = [(url, payload)]
  /\ slack_webhook = Some url /\ url <> ""
  /\ urgent_count payload
     = List.length (List.filter (fun opp => String.eqb (lower (urgency opp)) "high")
                                opportunities)
  /\ List.length (fields payload) = Nat.min 5 (urgent_count payload)
  /\ (1 <= List.length (fields payload))%nat
  /\ Forall (fun f => exists opp, In opp opportunities
                                  /\ lower (urgency opp) = "high" /\ f = field opp
                                  /\ (String.length (fst f) <= 53)%nat)
            (fields payload).
Proof.
  unfold send_slack_notification, Alerting.configured.
  destruct slack_webhook as [w|]; [|intros []].
  destruct (is_empty w) eqn:Ew; [intros []|].
  fold (urgent_opps opportunities).
  destruct (urgent_opps opportunities) as [|u us] eqn:Eu; [intros []|].
  intros [H|[]]. inversion H; subst url payload. clear H.
  split; [reflexivity|]. split; [reflexivity|].
  split; [intros ->; discriminate Ew|].
  cbn [urgent_count fields]. split; [reflexivity|].
  change (field u :: map field (firstn 4 us)) with (map field (firstn 5 (u :: us))).
  split; [rewrite length_map, length_firstn; reflexivity|].
  split; [simpl; lia|].
  apply List.Forall_map. apply List.Forall_forall. intros opp Hin.
  assert (Hu : In opp (urgent_opps opportunities)).
  { rewrite Eu. revert Hin. generalize (u :: us). intros l. generalize 5%nat.
    intros n. revert l. induction n as [|n IH]; intros [|x l]; simpl; try tauto.
    intros [->|Hin]; [left; reflexivity|right; apply IH; exact Hin]. }
  unfold urgent_opps in Hu. apply List.filter_In in Hu. destruct Hu as [Hopp Hhigh].
  exists opp. split; [exact Hopp|]. split; [apply String.eqb_eq; exact Hhigh|].
  split; [reflexivity|].
  destruct (field_title opp) as [[Hle ->]|[_ ->]]; lia.
Qed.

(** X28. No Slack notification is prepared when the webhook is missing or
    empty, or when no opportunity has urgency "high". *)
Theorem slack_silent (slack_webhook : option string) (opportunities : list RFPOpportunity) :
  slack_webhook = None \/ slack_webhook = Some ""
  \/ Forall (fun opp => lower (urgency opp) <> "high") opportunities ->
  send_slack_notification slack_webhook opportunities = [].
Proof.
  unfold send_slack_notification.
  intros [->|[->|H]]; try reflexivity.
  destruct (Alerting.configured slack_webhook); [|reflexivity].
  replace (urgent_opps opportunities) with (@nil RFPOpportunity); [reflexivity|].
  symmetry. unfold urgent_opps.
  induction H as [|opp l Hopp _ IH]; simpl; [reflexivity|].
  destruct (String.eqb_spec (lower (urgency opp)) "high") as [E|_]; [contradiction|exact IH].
Qed.

End Slack.

Section SlackRuns.

Import Py Models.

(** Six urgent notices with long titles, and one that can wait. *)
Definition urgent_of (n : Z) : RFPOpportunity :=
  Models.mkOpp ("Enterprise Resource Planning System Modernisation Services, Lot " +:+ Py.decimal n)
        "General Services" "2025-01-15" "Not specified" "HIGH"
        "See posting" ("https://sam.gov/opp/" +:+ Py.decimal n) "" [] n 0%float.

Definition seven_notices : list RFPOpportunity :=
  [urgent_of 1; record_of 2; urgent_of 3; urgent_of 4; urgent_of 5; urgent_of 6; urgent_of 7].

Lemma slack_payload_bounds_witness :
  exists payload,
    Notifications.send_slack_notification (Some "https://hooks.slack.com/services/T0/B0")
      seven_notices = [("https://hooks.slack.com/services/T0/B0", payload)]
    /\ Notifications.urgent_count payload = 6%nat
    /\ List.length (Notifications.fields payload) = 5%nat.
Proof.
  eexists.
  destruct (slack_payload_bounds (Some "https://hooks.slack.com/services/T0/B0")
              seven_notices "https://hooks.slack.com/services/T0/B0"
              (Notifications.mkPayload 6
                 (map Notifications.field
                      [urgent_of 1; urgent_of 3; urgent_of 4; urgent_of 5; urgent_of 6])))
    as (Hsend & _ & _ & Hcount & Hlen & _).
  - vm_compute. left. reflexivity.
  - split; [exact Hsend|]. split; [reflexivity|reflexivity].
Defined.

Lemma slack_silent_witness :
  Notifications.send_slack_notification (Some "https://hooks.slack.com/services/T0/B0")
    [record_of 1; record_of 2] = [].
Proof.
  apply slack_silent. right. right.
  repeat constructor; vm_compute; discriminate.
Defined.

End SlackRuns.

(** ** Normalised deadlines and the urgency *)

Section StoredDeadlines.

Import Py Datetime.

#[local] Open Scope Z_scope.

(** A rendered date is a fixed point of the normalisation of the GovTech
    plugin. *)
Lemma normalize_date_rendered (y m d H M S us : Z) :
  1000 <= y -> valid_date y m d ->
  GovtechPlugin._normalize_date (strftime_ymd (mkDatetime y m d H M S us))
  = strftime_ymd (mkDatetime y m d H M S us).
Proof.
  intros Hy Hv. destruct (rendered_stripped y m d H M S us Hy Hv) as [Hs _].
  unfold GovtechPlugin._normalize_date. rewrite Hs.
  unfold GovtechPlugin.date_formats. cbn [FederalPlugin.try_formats].
  rewrite (strptime_rendered y m d H M S us Hy Hv). reflexivity.
Qed.

(** X29. Normalising a date twice with the GovTech plugin gives what
    normalising it once gives, for every text that parses to no date before
    the year 1000. *)
Theorem normalize_date_idempotent (date_str : string) :
  (forall fmt parsed, In fmt GovtechPlugin.date_formats ->
     strptime (strip date_str) fmt = Return parsed -> 1000 <= year parsed) ->
  GovtechPlugin._normalize_date (GovtechPlugin._normalize_date date_str)
  = GovtechPlugin._normalize_date date_str.
Proof.
  intros Hyear.
  destruct (try_formats_outcome GovtechPlugin.date_formats (strip date_str))
    as [Hnone|(fmt & parsed & Hin & Hp & Hsome)].
  - assert (Hid : GovtechPlugin._normalize_date date_str = date_str).
    { unfold GovtechPlugin._normalize_date. rewrite Hnone. reflexivity. }
    rewrite Hid. exact Hid.
  - assert (Hr : GovtechPlugin._normalize_date date_str = strftime_ymd parsed).
    { unfold GovtechPlugin._normalize_date. rewrite Hsome. reflexivity. }
    rewrite Hr.
    pose proof (strptime_valid _ _ _ Hp) as Hv.
    pose proof (Hyear fmt parsed Hin Hp) as Hy.
    destruct parsed as [y m d H M S us]. cbn [year month day] in Hv, Hy.
    apply normalize_date_rendered; assumption.
Qed.

(** The text ends with a character that is not a blank. *)
Fixpoint ends_nonspace (s : string) : bool :=
  match s with
  | EmptyString => false
  | String c EmptyString => negb (isspace c)
  | String _ t => ends_nonspace t
  end.

Lemma ends_nonspace_cons (c : ascii) (t : string) :
  ends_nonspace t = true -> ends_nonspace (String c t) = true.
Proof. destruct t; [discriminate|]. intros H. exact H. Qed.

Lemma ends_nonspace_append (pre t : string) :
  ends_nonspace t = true -> ends_nonspace (pre +:+ t) = true.
Proof.
  intros H. induction pre as [|c pre IH]; [exact H|].
  change (ends_nonspace (String c (pre +:+ t)) = true).
  apply ends_nonspace_cons. exact IH.
Qed.

Lemma rstrip_ends_nonspace (s : string) : ends_nonspace s = true -> rstrip s = s.
Proof.
  induction s as [|c t IH]; [discriminate|].
  destruct t as [|c' t'].
  - simpl. intros H. apply negb_true_iff in H. rewrite H. reflexivity.
  - intros H. apply rstrip_cons; [apply IH; exact H|reflexivity].
Qed.

Lemma match_classes_split (cs : list cls) (s m r : string) :
  match_classes cs s = Some (m, r) -> s = m +:+ r.
Proof.
  revert s m r. induction cs as [|k cs IH]; intros s m r; simpl.
  - intros H. inversion H. reflexivity.
  - destruct s as [|c t]; [discriminate|].
    destruct (k c); [|discriminate].
    destruct (match_classes cs t) as [[m' r']|] eqn:E; [|discriminate].
    intros H. inversion H; subst. rewrite (IH t m' r E). reflexivity.
Qed.

Lemma match_spaces_suffix (s t : string) :
  In t (match_spaces s) -> exists pre, s = pre +:+ t.
Proof.
  revert t. induction s as [|c s IH]; intros t; simpl; [intros []|].
  destruct (isspace c); [|intros []].
  rewrite in_app_iff. intros [H|[<-|[]]].
  - destruct (IH t H) as [pre ->]. exists (String c pre). reflexivity.
  - exists (String c EmptyString). reflexivity.
Qed.

(** Classes matched to the end of the text, the last of which has no
    blank. *)
Lemma match_classes_ends (cs : list cls) (k : cls) :
  (forall c, k c = true -> isspace c = false) ->
  forall s m, match_classes (cs ++ [k]) s = Some (m, EmptyString) ->
              ends_nonspace s = true.
Proof.
  intros Hk. induction cs as [|k1 cs IH]; intros s m.
  - simpl. destruct s as [|c t]; [discriminate|].
    destruct (k c) eqn:E; [|discriminate].
    intros H. inversion H; subst. simpl. rewrite (Hk c E). reflexivity.
  - change ((k1 :: cs) ++ [k]) with (k1 :: (cs ++ [k])). cbn [match_classes].
    destruct s as [|c t]; [discriminate|].
    destruct (k1 c); [|discriminate].
    destruct (match_classes (cs ++ [k]) t) as [[m' r']|] eqn:E; [|discriminate].
    intros H. inversion H; subst. apply ends_nonspace_cons. apply (IH t m' E).
Qed.

(** A group of digits for the day ends with a digit. *)
Lemma day_group_ends (s m : string) (alt : list cls) :
  In alt (alternatives dd) -> match_classes alt s = Some (m, EmptyString) ->
  ends_nonspace s = true.
Proof.
  assert (D01 : forall c, one_of "01" c = true -> isspace c = false)
    by (intros c; destruct c as [[] [] [] [] [] [] [] []]; vm_compute; congruence).
  assert (D19 : forall c, one_of "123456789" c = true -> isspace c = false)
    by (intros c; destruct c as [[] [] [] [] [] [] [] []]; vm_compute; congruence).
  intros Hin. simpl in Hin.
  destruct Hin as [<-|[<-|[<-|[<-|[<-|[]]]]]].
  - apply (match_classes_ends [one_of "3"] (one_of "01") D01).
  - apply (match_classes_ends [one_of "12"] isdigit digit_not_space).
  - apply (match_classes_ends [one_of "0"] (one_of "123456789") D19).
  - apply (match_classes_ends [] (one_of "123456789") D19).
  - apply (match_classes_ends [one_of " "] (one_of "123456789") D19).
Qed.

(** A text matched to its end by items that end with the day ends with a
    character that is not a blank. *)
Lemma match_items_ends (p : list item) :
  forall s caps, In (caps, EmptyString) (match_items (p ++ [Dir dd]) s) ->
                 ends_nonspace s = true.
Proof.
  induction p as [|it p IH]; intros s caps Hin.
  - change ([] ++ [Dir dd]) with [Dir dd] in Hin. cbn [match_items] in Hin.
    apply in_flat_map in Hin as [alt [Halt Hin]].
    destruct (match_classes alt s) as [[m r]|] eqn:E; [|contradiction].
    simpl in Hin. destruct Hin as [Hin|[]]. inversion Hin; subst.
    apply (day_group_ends s m alt Halt E).
  - change ((it :: p) ++ [Dir dd]) with (it :: (p ++ [Dir dd])) in Hin.
    destruct it as [c| |d]; cbn [match_items] in Hin.
    + destruct s as [|x t]; [contradiction|].
      destruct (ci c x); [|contradiction].
      apply ends_nonspace_cons. apply (IH t caps Hin).
    + apply in_flat_map in Hin as [t [Ht Hin]].
      destruct (match_spaces_suffix s t Ht) as [pre ->].
      apply ends_nonspace_append. apply (IH t caps Hin).
    + apply in_flat_map in Hin as [alt [_ Hin]].
      destruct (match_classes alt s) as [[m r]|] eqn:E; [|contradiction].
      apply in_map_iff in Hin as [[caps' rest'] [Heq Hin]].
      inversion Heq; subst.
      rewrite (match_classes_split alt s m r E).
      apply ends_nonspace_append. apply (IH r caps' Hin).
Qed.

(** A text that [%Y-%m-%d] parses has no blank at its ends. *)
Lemma iso_text_stripped (data : string) (parsed : datetime) :
  strptime data "%Y-%m-%d" = Return parsed ->
  strip data = data /\ is_empty data = false.
Proof.
  unfold strptime.
  change (pattern "%Y-%m-%d") with (Some [Dir dY; Lit "-"; Dir dm; Lit "-"; Dir dd]).
  cbv iota beta.
  destruct (match_items _ data) as [|[caps rest] others] eqn:E; [discriminate|].
  destruct rest as [|? ?]; [|discriminate]. intros _.
  assert (Hin : In (caps, EmptyString)
                   (match_items ([Dir dY; Lit "-"; Dir dm; Lit "-"] ++ [Dir dd]) data))
    by (simpl app; rewrite E; left; reflexivity).
  pose proof (match_items_ends _ data caps Hin) as Hend.
  assert (Hstart : lstrip data = data).
  { clear Hin Hend. cbn [match_items alternatives flat_map] in E.
    destruct data as [|a t]; [reflexivity|].
    cbn [match_classes] in E. cbn [lstrip].
    destruct (isdigit a) eqn:Ha; [|simpl in E; discriminate E].
    rewrite (digit_not_space a Ha). reflexivity. }
  split.
  - unfold strip. rewrite Hstart. apply rstrip_ends_nonspace. exact Hend.
  - destruct data; [discriminate Hend|reflexivity].
Qed.

(** X30. The federal plugin stores the normalised deadline and computes the
    urgency from the text as it was scraped.  For a text that [%Y-%m-%d]
    parses, with a year of four digits, the two agree: the stored deadline
    is the parsed date rendered, and the urgency computed from the stored
    deadline is the urgency of the record. *)
Theorem stored_deadline_urgency (now : datetime) (deadline : string) (parsed : datetime) :
  strptime deadline "%Y-%m-%d" = Return parsed -> 1000 <= year parsed ->
  FederalPlugin._parse_federal_date deadline = strftime_ymd parsed
  /\ FederalPlugin._calculate_federal_urgency now (FederalPlugin._parse_federal_date deadline)
     = FederalPlugin._calculate_federal_urgency now deadline.
Proof.
  intros Hp Hy.
  destruct (iso_text_stripped deadline parsed Hp) as [Hs Hne].
  destruct (strptime_ymd_midnight deadline parsed Hp) as (HH & HM & HS & Hus).
  pose proof (strptime_valid _ _ _ Hp) as Hv.
  assert (Hstored : FederalPlugin._parse_federal_date deadline = strftime_ymd parsed).
  { unfold FederalPlugin._parse_federal_date. rewrite Hne, Hs.
    unfold FederalPlugin.federal_formats. cbn [FederalPlugin.try_formats].
    rewrite Hp. reflexivity. }
  split; [exact Hstored|].
  rewrite Hstored.
  destruct parsed as [y m d H M S us]. cbn [year month day hour minute second microsecond] in *.
  subst H M S us.
  destruct (rendered_stripped y m d 0 0 0 0 Hy Hv) as [_ Hne'].
  unfold FederalPlugin._calculate_federal_urgency.
  rewrite Hne, Hne', Hp, (strptime_rendered y m d 0 0 0 0 Hy Hv). reflexivity.
Qed.

End StoredDeadlines.

Section StoredDeadlineRuns.

Import Py Datetime.

Lemma normalize_date_idempotent_witness :
  GovtechPlugin._normalize_date (GovtechPlugin._normalize_date " 25/12/2026 ")
  = GovtechPlugin._normalize_date " 25/12/2026 ".
Proof.
  apply normalize_date_idempotent.
  intros fmt parsed Hin. simpl in Hin.
  destruct Hin as [<-|[<-|[<-|[<-|[<-|[<-|[]]]]]]];
    intros Hp; vm_compute in Hp; inversion Hp; simpl; lia.
Defined.

Lemma stored_deadline_urgency_witness :
  FederalPlugin._parse_federal_date "2026-11-9" = "2026-11-09"
  /\ FederalPlugin._calculate_federal_urgency (mkDatetime 2026 11 1 9 30 0 0)
       (FederalPlugin._parse_federal_date "2026-11-9")
     = FederalPlugin._calculate_federal_urgency (mkDatetime 2026 11 1 9 30 0 0) "2026-11-9".
Proof.
  apply (stored_deadline_urgency (mkDatetime 2026 11 1 9 30 0 0) "2026-11-9"
           (mkDatetime 2026 11 9 0 0 0 0)).
  - vm_compute. reflexivity.
  - simpl. lia.
Defined.

End StoredDeadlineRuns.
